(** * InsightTrack sales dashboard (src/app.py): a shallow embedding

    The script is a straight-line Streamlit page.  It seeds NumPy's global
    generator from [hash("Mayuri2025") % 10000], draws a 120-row order table,
    derives three columns, filters the table by the sidebar selection and
    aggregates, charts and exports the filtered view.

    The embedding follows the script top to bottom:
    - [PyRuntime]  : CPython's string hash (SipHash-1-3 keyed per process);
    - [Float64]    : the float64 operations the script uses, as an interface;
    - [Calendar]   : proleptic Gregorian dates as day numbers;
    - [Pandas]     : typed columns, data frames and the pandas calls;
    - [Numpy]      : the interface of the global random generator;
    - [App]        : the script's statements, in source order, over a store
                     of frame objects, in an error-and-state monad;
    - [Orders]     : the Order data model and the vocabulary of the claims;
    - [Hoare]      : the two judgements the proofs use;
    - [Widgets], [Groups], [Era] : the untouched sidebar, the vocabulary of
                     the charts and insights, the pieces of the calendar.
    The theorems follow the definitions. *)

From Stdlib Require Import ZArith QArith Qcanon Ascii String List Bool Lia Floats.
From stdpp Require Import base option list gmap strings pretty sorting.

Local Open Scope Z_scope.

(** ** CPython's [hash] on [str] (line 18: [hash("Mayuri2025") % 10000]) *)

Module PyRuntime.

(** 64-bit unsigned words, with the wrap-around written out. *)
Definition wrap64 (x : Z) : Z := x mod 2 ^ 64.

Definition rotl64 (x b : Z) : Z :=
  wrap64 (Z.lor (Z.shiftl x b) (Z.shiftr x (64 - b))).

Definition sipstate : Type := Z * Z * Z * Z.

(** [HALF_ROUND(a,b,c,d,s,t)] of Python/pyhash.c. *)
Definition half_round (a b c d s t : Z) : sipstate :=
  let a := wrap64 (a + b) in
  let c := wrap64 (c + d) in
  let b := Z.lxor (rotl64 b s) a in
  let d := Z.lxor (rotl64 d t) c in
  let a := rotl64 a 32 in
  (a, b, c, d).

(** [SINGLE_ROUND(v0,v1,v2,v3)]: two half rounds, the second on
    [(v2,v1,v0,v3)]. *)
Definition single_round (v : sipstate) : sipstate :=
  let '(v0, v1, v2, v3) := v in
  let '(v0, v1, v2, v3) := half_round v0 v1 v2 v3 13 16 in
  let '(v2, v1, v0, v3) := half_round v2 v1 v0 v3 17 21 in
  (v0, v1, v2, v3).

(** Little-endian value of a block of bytes. *)
Fixpoint le_bytes (bs : list Z) : Z :=
  match bs with
  | [] => 0
  | b :: bs' => b + 256 * le_bytes bs'
  end.

Definition absorb (v : sipstate) (m : Z) : sipstate :=
  let '(v0, v1, v2, v3) := v in
  let '(v0, v1, v2, v3) := single_round (v0, v1, v2, Z.lxor v3 m) in
  (Z.lxor v0 m, v1, v2, v3).

(** The [while (src_sz >= 8)] loop; [fuel] bounds the number of 8-byte
    blocks and is taken as the input length by [siphash13]. *)
Fixpoint sip_blocks (fuel : nat) (v : sipstate) (bs : list Z) : sipstate * list Z :=
  match fuel with
  | O => (v, bs)
  | S fuel' =>
      if (8 <=? Z.of_nat (length bs))
      then sip_blocks fuel' (absorb v (le_bytes (take 8 bs))) (drop 8 bs)
      else (v, bs)
  end.

Definition siphash13 (k0 k1 : Z) (src : list Z) : Z :=
  let b := wrap64 (Z.shiftl (Z.of_nat (length src)) 56) in
  let v := (Z.lxor k0 0x736f6d6570736575, Z.lxor k1 0x646f72616e646f6d,
            Z.lxor k0 0x6c7967656e657261, Z.lxor k1 0x7465646279746573) in
  let '(v, tail) := sip_blocks (length src) v src in
  let b := Z.lor b (le_bytes tail) in
  let '(v0, v1, v2, v3) := absorb v b in
  let v2 := Z.lxor v2 0xff in
  let '(v0, v1, v2, v3) := single_round (single_round (single_round (v0, v1, v2, v3))) in
  Z.lxor (Z.lxor v0 v1) (Z.lxor v2 v3).

(** The per-process hash secret [_Py_HashSecret.siphash]: drawn from the
    operating system at start-up, or expanded from [PYTHONHASHSEED]. *)
Record Interpreter : Type := { hash_k0 : Z; hash_k1 : Z }.

(** [lcg_urandom] of Python/bootstrap_hash.c: the bytes of the secret for
    [PYTHONHASHSEED=x0]. *)
Fixpoint lcg_urandom (size : nat) (x : Z) : list Z :=
  match size with
  | O => []
  | S size' =>
      let x := (x * 214013 + 2531011) mod 2 ^ 32 in
      Z.land (Z.shiftr x 16) 0xff :: lcg_urandom size' x
  end.

Definition with_hashseed (x0 : Z) : Interpreter :=
  let secret := lcg_urandom 24 x0 in
  {| hash_k0 := le_bytes (take 8 secret);
     hash_k1 := le_bytes (take 8 (drop 8 secret)) |}.

Definition str_bytes (s : string) : list Z :=
  map (fun c => Z.of_N (N_of_ascii c)) (list_ascii_of_string s).

(** [unicode_hash] through [_Py_HashBytes]: the unsigned SipHash value read
    as [Py_hash_t] (signed 64 bits), with [-1] reserved for errors. *)
Definition hash (py : Interpreter) (s : string) : Z :=
  match str_bytes s with
  | [] => 0
  | src =>
      let u := siphash13 (hash_k0 py) (hash_k1 py) src in
      let x := if (u <? 2 ^ 63) then u else u - 2 ^ 64 in
      if (x =? -1) then -2 else x
  end.

(** Python's [%]: the result takes the sign of the divisor, as [Z.modulo]. *)
Definition pymod (a b : Z) : Z := a mod b.

End PyRuntime.

(** Line 18: the argument handed to [np.random.seed]. *)
Definition seed_argument (py : PyRuntime.Interpreter) : Z :=
  PyRuntime.pymod (PyRuntime.hash py "Mayuri2025") 10000.

(** ** float64 arithmetic

    The script computes on NumPy float64 columns.  The operations it uses are
    collected in an interface, so that statements about the script hold for
    every arithmetic that implements them; [binary64] below is IEEE 754
    double precision on Rocq's primitive floats, [exact] is exact rational
    arithmetic. *)

Class Float64 (F : Type) : Type := {
  (** conversion of a Python [int] or an int64 cell *)
  f_of_Z : Z -> F;
  (** the decimal literal [m]e[e], rounded to the nearest value *)
  f_dec : Z -> Z -> F;
  fadd : F -> F -> F;
  fmul : F -> F -> F;
  fdiv : F -> F -> F;
  (** [<=] and [<] on floats *)
  fleb : F -> F -> bool;
  fltb : F -> F -> bool;
  (** [np.round(x, decimals)], also [Series.round(decimals)] *)
  fround : Z -> F -> F;
  (** the missing value, NaN *)
  f_nan : F
}.

(** [repr] of a float, which [to_csv] writes for a float64 cell. *)
Class FloatRepr (F : Type) : Type := f_repr : F -> string.

Definition fle {F} `{Float64 F} (x y : F) : Prop := fleb x y = true.
Definition flt {F} `{Float64 F} (x y : F) : Prop := fltb x y = true.

Module Binary64.

(** [np.rint] on a double, by the usual trick of adding and removing 2^52:
    below that magnitude the sum is rounded to an integer, half to even.
    Zeros, infinities, NaN and values from 2^52 on are integers already or
    have no integer; a negative value is rounded as its opposite, which
    keeps the sign of a zero result. *)
Definition two52 : float := 4503599627370496%float.

Definition rint (x : float) : float :=
  if PrimFloat.eqb x 0%float then x
  else if PrimFloat.ltb (PrimFloat.abs x) two52 then
    if PrimFloat.ltb 0%float x
    then PrimFloat.sub (PrimFloat.add x two52) two52
    else PrimFloat.opp (PrimFloat.sub (PrimFloat.add (PrimFloat.opp x) two52) two52)
  else x.

(** An integer below 2^63 in magnitude, rounded to the nearest double. *)
Definition of_Z (z : Z) : float :=
  if (z <? 0)
  then PrimFloat.opp (PrimFloat.of_uint63 (Uint63.of_Z (- z)))
  else PrimFloat.of_uint63 (Uint63.of_Z z).

(** A decimal literal with at most 15 digits and a small exponent: both the
    digits and the power of ten are exact doubles, so one correctly rounded
    operation gives the nearest double. *)
Definition dec (m e : Z) : float :=
  if (0 <=? e) then PrimFloat.mul (of_Z m) (of_Z (10 ^ e))
  else PrimFloat.div (of_Z m) (of_Z (10 ^ (- e))).

(** NumPy rounds to [decimals] places as [rint(x * 10^d) / 10^d]
    (and as [rint(x / 10^-d) * 10^-d] for negative [d]). *)
Definition round (decimals : Z) (x : float) : float :=
  if (0 <=? decimals)
  then PrimFloat.div (rint (PrimFloat.mul x (of_Z (10 ^ decimals)))) (of_Z (10 ^ decimals))
  else PrimFloat.mul (rint (PrimFloat.div x (of_Z (10 ^ (- decimals))))) (of_Z (10 ^ (- decimals))).

End Binary64.

#[export] Instance binary64 : Float64 float := {|
  f_of_Z := Binary64.of_Z;
  f_dec := Binary64.dec;
  fadd := PrimFloat.add;
  fmul := PrimFloat.mul;
  fdiv := PrimFloat.div;
  fleb := PrimFloat.leb;
  fltb := PrimFloat.ltb;
  fround := Binary64.round;
  f_nan := PrimFloat.nan
|}.

Module Exact.

(** Round half to even on a rational [n/d], [d > 0]. *)
Definition rintQ (q : Q) : Z :=
  let n := Qnum q in
  let d := Z.pos (Qden q) in
  let f := n / d in
  let r := n mod d in
  if (2 * r <? d) then f
  else if (d <? 2 * r) then f + 1
  else if Z.even f then f else f + 1.

Definition pow10 (e : Z) : Qc :=
  if (0 <=? e) then Q2Qc (inject_Z (10 ^ e)) else Q2Qc (1 # Z.to_pos (10 ^ (- e))).

Definition round (decimals : Z) (x : Qc) : Qc :=
  (Q2Qc (inject_Z (rintQ (x * pow10 decimals)%Qc)) * pow10 (- decimals))%Qc.

End Exact.

#[export] Instance exact : Float64 Qc := {|
  f_of_Z := fun z => Q2Qc (inject_Z z);
  f_dec := fun m e => (Q2Qc (inject_Z m) * Exact.pow10 e)%Qc;
  fadd := Qcplus;
  fmul := Qcmult;
  fdiv := Qcdiv;
  fleb := fun x y => Qle_bool x y;
  fltb := fun x y => negb (Qle_bool y x);
  fround := Exact.round;
  (* the rationals have no NaN; as with [Qcdiv] by zero, 0 stands in *)
  f_nan := Q2Qc 0
|}.

(** Exact values are written as a fraction of two integers. *)
#[export] Instance exact_repr : FloatRepr Qc := fun x =>
  (pretty (Qnum x) ++ "/" ++ pretty (Z.pos (Qden x)))%string.

(** ** Calendar dates

    A [datetime64[ns]] cell at midnight and a [datetime.date] are both
    carried as the number of days since 1970-01-01. *)

Module Calendar.

Definition days_from_civil (y m d : Z) : Z :=
  let y := if (m <=? 2) then y - 1 else y in
  let era := y / 400 in
  let yoe := y - era * 400 in
  let mp := if (2 <? m) then m - 3 else m + 9 in
  let doy := (153 * mp + 2) / 5 + d - 1 in
  let doe := yoe * 365 + yoe / 4 - yoe / 100 + doy in
  era * 146097 + doe - 719468.

Definition civil_from_days (z : Z) : Z * Z * Z :=
  let z := z + 719468 in
  let era := z / 146097 in
  let doe := z - era * 146097 in
  let yoe := (doe - doe / 1460 + doe / 36524 - doe / 146096) / 365 in
  let y := yoe + era * 400 in
  let doy := doe - (365 * yoe + yoe / 4 - yoe / 100) in
  let mp := (5 * doy + 2) / 153 in
  let d := doy - (153 * mp + 2) / 5 + 1 in
  let m := if (mp <? 10) then mp + 3 else mp - 9 in
  ((if (m <=? 2) then y + 1 else y), m, d).

(** [Series.dt.to_period("M").dt.to_timestamp()]: the first day of the
    calendar month of the date. *)
Definition month_start (z : Z) : Z :=
  let '(y, m, _) := civil_from_days z in days_from_civil y m 1.

Fixpoint zero_fill (width : nat) (s : string) : string :=
  match width with
  | O => s
  | S w => if (String.length s <? width)%nat then zero_fill w (String "0" s) else s
  end.

(** [YYYY-MM-DD], as [date.isoformat] and as [to_csv] writes a datetime
    column whose times are all midnight. *)
Definition isoformat (z : Z) : string :=
  let '(y, m, d) := civil_from_days z in
  (zero_fill 4 (pretty y) ++ "-" ++ zero_fill 2 (pretty m) ++ "-" ++ zero_fill 2 (pretty d))%string.

End Calendar.

(** ** pandas: columns, frames and the operations the script calls *)

Module Pandas.

Inductive exn : Type :=
| KeyError (key : string)
| IndexError
| ValueError
| TypeError
| AttributeError
| NotModelled.

Inductive result (A : Type) : Type :=
| Ok (a : A)
| Raise (e : exn).
Arguments Ok {A} a.
Arguments Raise {A} e.

#[export] Instance result_ret : MRet result := fun A a => Ok a.
#[export] Instance result_bind : MBind result := fun A B k m =>
  match m with
  | Ok a => k a
  | Raise e => Raise e
  end.

(** Selection of the entries of [xs] whose flag in [mask] is set
    (boolean-array indexing; both have one entry per row). *)
Fixpoint select {A} (mask : list bool) (xs : list A) : list A :=
  match mask, xs with
  | b :: mask', x :: xs' => if b then x :: select mask' xs' else select mask' xs'
  | _, _ => []
  end.

(** Distinct values in order of first appearance ([Series.unique]). *)
Fixpoint unique_from {A} `{EqDecision A} (seen xs : list A) : list A :=
  match xs with
  | [] => []
  | x :: xs' =>
      if bool_decide (x ∈ seen) then unique_from seen xs'
      else x :: unique_from (x :: seen) xs'
  end.

Definition unique {A} `{EqDecision A} (xs : list A) : list A := unique_from [] xs.

(** Group keys as [groupby] lists them: distinct and sorted. *)
Definition group_keys {K} `{EqDecision K} (R : relation K) `{!RelDecision R} (ks : list K) : list K :=
  merge_sort R (remove_dups ks).

Definition string_le (a b : string) : Prop := String.leb a b = true.

#[export] Instance string_le_dec : RelDecision string_le.
Proof. intros a b. unfold string_le. apply _. Defined.

(** Stable insertion of a row position by its key, in descending or
    ascending key order ([sort_values]). *)
Fixpoint insert_pos (before : Z -> Z -> bool) (keys : list Z) (i : nat) (sorted : list nat) : list nat :=
  match sorted with
  | [] => [i]
  | j :: sorted' =>
      if before (nth j keys 0) (nth i keys 0)
      then j :: insert_pos before keys i sorted'
      else i :: sorted
  end.

Definition argsort (ascending : bool) (keys : list Z) : list nat :=
  let before := if ascending then Z.leb else Z.geb in
  foldl (fun sorted i => insert_pos before keys i sorted) [] (seq 0 (length keys)).

Definition take_rows {A} (pos : list nat) (xs : list A) : list A :=
  omap (fun i => xs !! i) pos.

Section Frames.
Context {F : Type} {FO : Float64 F}.

(** A column is a typed array, as a pandas Series is. *)
Inductive column : Type :=
| IntCol (xs : list Z)        (* int64 *)
| FloatCol (xs : list F)      (* float64 *)
| StrCol (xs : list string)   (* object, holding str *)
| DateCol (xs : list Z)       (* datetime64[ns], all at midnight *)
| PyDateCol (xs : list Z)     (* object, holding datetime.date *)
| BoolCol (xs : list bool).   (* bool *)

Definition col_len (c : column) : nat :=
  match c with
  | IntCol xs => length xs
  | FloatCol xs => length xs
  | StrCol xs => length xs
  | DateCol xs => length xs
  | PyDateCol xs => length xs
  | BoolCol xs => length xs
  end.

Definition col_map_rows (f : forall A, list A -> list A) (c : column) : column :=
  match c with
  | IntCol xs => IntCol (f _ xs)
  | FloatCol xs => FloatCol (f _ xs)
  | StrCol xs => StrCol (f _ xs)
  | DateCol xs => DateCol (f _ xs)
  | PyDateCol xs => PyDateCol (f _ xs)
  | BoolCol xs => BoolCol (f _ xs)
  end.

(** A frame: row labels and named columns, in column order. *)
Record DataFrame : Type := {
  index : list Z;
  columns : list (string * column)
}.

Definition nrows (df : DataFrame) : nat := length (index df).

Definition RangeIndex (n : nat) : list Z := map Z.of_nat (seq 0 n).

Fixpoint assoc (k : string) (cols : list (string * column)) : option column :=
  match cols with
  | [] => None
  | (k', c) :: cols' => if String.eqb k k' then Some c else assoc k cols'
  end.

Fixpoint assoc_set (k : string) (c : column) (cols : list (string * column)) : list (string * column) :=
  match cols with
  | [] => [(k, c)]
  | (k', c') :: cols' =>
      if String.eqb k k' then (k, c) :: cols' else (k', c') :: assoc_set k c cols'
  end.

(** [pd.DataFrame(data)] on a dict of equally long arrays. *)
Definition frame_of_dict (data : list (string * column)) : result DataFrame :=
  match data with
  | [] => Ok {| index := []; columns := [] |}
  | (_, c) :: _ =>
      if forallb (fun kc => Nat.eqb (col_len (snd kc)) (col_len c)) data
      then Ok {| index := RangeIndex (col_len c); columns := data |}
      else Raise ValueError
  end.

(** [df[key]] *)
Definition getitem (df : DataFrame) (key : string) : result column :=
  match assoc key (columns df) with
  | Some c => Ok c
  | None => Raise (KeyError key)
  end.

(** [df[key] = c]: the frame with the column replaced in place, or added
    last. *)
Definition setitem (df : DataFrame) (key : string) (c : column) : result DataFrame :=
  if Nat.eqb (col_len c) (nrows df)
  then Ok {| index := index df; columns := assoc_set key c (columns df) |}
  else Raise ValueError.

(** [df[mask]] with a boolean Series: a new frame with the selected rows. *)
Definition getitem_mask (df : DataFrame) (mask : list bool) : result DataFrame :=
  if Nat.eqb (length mask) (nrows df)
  then Ok {| index := select mask (index df);
             columns := map (fun kc => (fst kc, col_map_rows (fun A => select mask) (snd kc))) (columns df) |}
  else Raise ValueError.

(** [Series.isin(values)] against a list of strings. *)
Definition isin (c : column) (values : list string) : list bool :=
  match c with
  | StrCol xs => map (fun x => bool_decide (x ∈ values)) xs
  | _ => replicate (col_len c) false
  end.

(** [Series.dt.date] *)
Definition dt_date (c : column) : result column :=
  match c with
  | DateCol xs => Ok (PyDateCol xs)
  | _ => Raise AttributeError
  end.

(** [Series.between(left, right)] on dates, inclusive on both sides:
    [(s >= left) & (s <= right)]. *)
Definition between (c : column) (left right : Z) : result (list bool) :=
  match c with
  | PyDateCol xs => Ok (map (fun x => (left <=? x) && (x <=? right)) xs)
  | _ => Raise TypeError
  end.

(** [a & b] on boolean Series over the same rows. *)
Definition mask_and (a b : list bool) : result (list bool) :=
  if Nat.eqb (length a) (length b)
  then Ok (zip_with andb a b)
  else Raise ValueError.

Definition fsum (xs : list F) : F := foldl fadd (f_of_Z 0) xs.

Definition zsum (xs : list Z) : Z := foldl Z.add 0 xs.

(** [Series.sum()]; the script only formats the result with [:,.2f], so an
    integer total is carried as a float. *)
Definition series_sum (c : column) : result F :=
  match c with
  | FloatCol xs => Ok (fsum xs)
  | IntCol xs => Ok (f_of_Z (zsum xs))
  | _ => Raise NotModelled
  end.

(** [Series.mean()]: the sum over the count (NaN, 0/0, on no rows). *)
Definition series_mean (c : column) : result F :=
  match c with
  | FloatCol xs => Ok (fdiv (fsum xs) (f_of_Z (Z.of_nat (length xs))))
  | IntCol xs => Ok (fdiv (f_of_Z (zsum xs)) (f_of_Z (Z.of_nat (length xs))))
  | _ => Raise NotModelled
  end.

(** [Series.min().date()] and [Series.max().date()] of a datetime column;
    [NaT.date()] raises on an empty one. *)
Definition date_min (c : column) : result Z :=
  match c with
  | DateCol [] => Raise ValueError
  | DateCol (x :: xs) => Ok (foldl Z.min x xs)
  | _ => Raise AttributeError
  end.

Definition date_max (c : column) : result Z :=
  match c with
  | DateCol [] => Raise ValueError
  | DateCol (x :: xs) => Ok (foldl Z.max x xs)
  | _ => Raise AttributeError
  end.

Definition series_unique (c : column) : column :=
  match c with
  | IntCol xs => IntCol (unique xs)
  | StrCol xs => StrCol (unique xs)
  | DateCol xs => DateCol (unique xs)
  | PyDateCol xs => PyDateCol (unique xs)
  | BoolCol xs => BoolCol (unique xs)
  | FloatCol xs => FloatCol xs
  end.

(** [Series.dt.to_period("M").dt.to_timestamp()] *)
Definition to_month (c : column) : result column :=
  match c with
  | DateCol xs => Ok (DateCol (map Calendar.month_start xs))
  | _ => Raise AttributeError
  end.

(** The sums of [vals] per group of [keys], one per distinct key in sorted
    order; each group is summed in row order. *)
Definition group_sums {K} `{EqDecision K} (R : relation K) `{!RelDecision R}
    (keys : list K) (vals : list F) : list (K * F) :=
  map (fun k => (k, fsum (select (map (fun k' => bool_decide (k' = k)) keys) vals)))
      (group_keys R keys).

(** [df.groupby(key)[val].sum().reset_index()]: a two-column frame. *)
Definition groupby_sum (df : DataFrame) (key val : string) : result DataFrame :=
  kc ← getitem df key;
  vc ← getitem df val;
  match vc with
  | FloatCol vals =>
      match kc with
      | StrCol ks =>
          let g := group_sums string_le ks vals in
          Ok {| index := RangeIndex (length g);
                columns := [(key, StrCol (map fst g)); (val, FloatCol (map snd g))] |}
      | DateCol ks =>
          let g := group_sums Z.le ks vals in
          Ok {| index := RangeIndex (length g);
                columns := [(key, DateCol (map fst g)); (val, FloatCol (map snd g))] |}
      | IntCol ks =>
          let g := group_sums Z.le ks vals in
          Ok {| index := RangeIndex (length g);
                columns := [(key, IntCol (map fst g)); (val, FloatCol (map snd g))] |}
      | _ => Raise NotModelled
      end
  | _ => Raise NotModelled
  end.

(** [Series.idxmax()] of a float column labelled by strings: the label of
    the first maximum. *)
Fixpoint idxmax_go (best : string) (bestv : F) (rest : list (string * F)) : string :=
  match rest with
  | [] => best
  | (k, v) :: rest' =>
      if fltb bestv v then idxmax_go k v rest' else idxmax_go best bestv rest'
  end.

Definition idxmax (labelled : list (string * F)) : result string :=
  match labelled with
  | [] => Raise ValueError
  | (k, v) :: rest => Ok (idxmax_go k v rest)
  end.

(** [df.sort_values(key, ascending=...)] on a date or integer column. *)
Definition sort_values (df : DataFrame) (key : string) (ascending : bool) : result DataFrame :=
  kc ← getitem df key;
  match kc with
  | DateCol ks | IntCol ks =>
      let pos := argsort ascending ks in
      Ok {| index := take_rows pos (index df);
            columns := map (fun kc => (fst kc, col_map_rows (fun A => take_rows pos) (snd kc))) (columns df) |}
  | _ => Raise NotModelled
  end.

(** Element-wise arithmetic of two Series over the same rows. *)
Definition series_mul (a b : column) : result column :=
  if negb (Nat.eqb (col_len a) (col_len b)) then Raise ValueError else
  match a, b with
  | IntCol xs, IntCol ys => Ok (IntCol (zip_with Z.mul xs ys))
  | IntCol xs, FloatCol ys => Ok (FloatCol (zip_with (fun x y => fmul (f_of_Z x) y) xs ys))
  | FloatCol xs, IntCol ys => Ok (FloatCol (zip_with (fun x y => fmul x (f_of_Z y)) xs ys))
  | FloatCol xs, FloatCol ys => Ok (FloatCol (zip_with fmul xs ys))
  | _, _ => Raise TypeError
  end.

Definition series_div (a b : column) : result column :=
  if negb (Nat.eqb (col_len a) (col_len b)) then Raise ValueError else
  match a, b with
  | IntCol xs, IntCol ys => Ok (FloatCol (zip_with (fun x y => fdiv (f_of_Z x) (f_of_Z y)) xs ys))
  | IntCol xs, FloatCol ys => Ok (FloatCol (zip_with (fun x y => fdiv (f_of_Z x) y) xs ys))
  | FloatCol xs, IntCol ys => Ok (FloatCol (zip_with (fun x y => fdiv x (f_of_Z y)) xs ys))
  | FloatCol xs, FloatCol ys => Ok (FloatCol (zip_with fdiv xs ys))
  | _, _ => Raise TypeError
  end.

(** [series * k] for a Python [int] [k] *)
Definition series_mul_int (a : column) (k : Z) : result column :=
  match a with
  | IntCol xs => Ok (IntCol (map (fun x => x * k) xs))
  | FloatCol xs => Ok (FloatCol (map (fun x => fmul x (f_of_Z k)) xs))
  | _ => Raise TypeError
  end.

(** [Series.round(decimals)] *)
Definition series_round (decimals : Z) (a : column) : result column :=
  match a with
  | IntCol xs => Ok (IntCol xs)
  | FloatCol xs => Ok (FloatCol (map (fround decimals) xs))
  | _ => Raise TypeError
  end.

Fixpoint dict_get (k : string) (d : list (string * F)) : option F :=
  match d with
  | [] => None
  | (k', v) :: d' => if String.eqb k k' then Some v else dict_get k d'
  end.

(** [Series.map(d)] with a dict from str to float: a key that is not in the
    dict maps to NaN. *)
Definition series_map (a : column) (d : list (string * F)) : result column :=
  match a with
  | StrCol xs => Ok (FloatCol (map (fun x => default f_nan (dict_get x d)) xs))
  | _ => Raise NotModelled
  end.

End Frames.

Arguments column F : clear implicits.
Arguments DataFrame F : clear implicits.

(** *** [DataFrame.to_csv(index=False)] *)

Section Csv.
Context {F : Type} {FR : FloatRepr F}.

Definition newline : string := String "010" EmptyString.
Definition dquote : ascii := "034".

Definition special (c : ascii) : bool :=
  bool_decide (c = ","%char) || bool_decide (c = dquote)
  || bool_decide (c = "010"%char) || bool_decide (c = "013"%char).

Fixpoint has_special (s : string) : bool :=
  match s with
  | EmptyString => false
  | String c s' => special c || has_special s'
  end.

Fixpoint double_quotes (s : string) : string :=
  match s with
  | EmptyString => EmptyString
  | String c s' =>
      if bool_decide (c = dquote) then String c (String c (double_quotes s'))
      else String c (double_quotes s')
  end.

(** Minimal quoting: a field is quoted when it holds a delimiter, a quote
    or a line break. *)
Definition csv_field (s : string) : string :=
  if has_special s
  then String dquote (double_quotes s +:+ String dquote EmptyString)
  else s.

Definition cells (c : column F) : list string :=
  match c with
  | IntCol xs => map pretty xs
  | FloatCol xs => map f_repr xs
  | StrCol xs => map csv_field xs
  | DateCol xs => map Calendar.isoformat xs
  | PyDateCol xs => map Calendar.isoformat xs
  | BoolCol xs => map (fun b : bool => if b then "True" else "False") xs
  end.

Fixpoint join (sep : string) (fields : list string) : string :=
  match fields with
  | [] => EmptyString
  | [f] => f
  | f :: fields' => f +:+ sep +:+ join sep fields'
  end.

Definition csv_header (df : DataFrame F) : list string :=
  map (fun kc => csv_field (fst kc)) (columns df).

Definition csv_row (df : DataFrame F) (i : nat) : list string :=
  map (fun kc => nth i (cells (snd kc)) EmptyString) (columns df).

Definition csv_lines (df : DataFrame F) : list (list string) :=
  csv_header df :: map (csv_row df) (seq 0 (nrows df)).

Definition to_csv (df : DataFrame F) : string :=
  foldr (fun fields out => join "," fields +:+ newline +:+ out) EmptyString (csv_lines df).

End Csv.

End Pandas.

(** ** NumPy's legacy global generator ([np.random.*])

    The Mersenne Twister behind [np.random] is not part of the script; the
    script's calls are an interface over the generator state, which every
    call threads through. *)

Module Numpy.

Class RandomState (F RS : Type) : Type := {
  (** the state after [np.random.seed(n)] *)
  rs_seed : Z -> RS;
  (** [np.random.choice(a, size)] *)
  rs_choice : list string -> nat -> RS -> list string * RS;
  (** [np.random.randint(low, high, size)] *)
  rs_randint : Z -> Z -> nat -> RS -> list Z * RS;
  (** [np.random.uniform(low, high, size)] *)
  rs_uniform : F -> F -> nat -> RS -> list F * RS
}.

End Numpy.

(** ** The script *)

Module App.
Import Pandas Numpy.

Section Script.
Context {F : Type} {FO : Float64 F} {FR : FloatRepr F}.
Context {RS : Type} {RNG : RandomState F RS}.

(** The objects the script mutates: the frames it has created, by
    identity, and the state of the global generator. *)
Record World : Type := {
  frames : gmap positive (DataFrame F);
  np_random : RS
}.

Inductive outcome (A : Type) : Type :=
| Done (a : A) (w : World)
| Failed (e : exn) (w : World).
Arguments Done {A} a w.
Arguments Failed {A} e w.

(** A statement of the script: it runs in a world and either completes
    with a value or stops at the exception it raises. *)
Definition M (A : Type) : Type := World -> outcome A.

#[export] Instance M_ret : MRet M := fun A a w => Done a w.
#[export] Instance M_bind : MBind M := fun A B k m w =>
  match m w with
  | Done a w' => k a w'
  | Failed e w' => Failed e w'
  end.

Definition lift {A} (r : result A) : M A := fun w =>
  match r with
  | Ok a => Done a w
  | Raise e => Failed e w
  end.

Definition final_world {A} (o : outcome A) : World :=
  match o with
  | Done _ w => w
  | Failed _ w => w
  end.

(** *** Frame objects *)

(** A new frame object; its identity is one no live frame has. *)
Definition new_frame (d : DataFrame F) : M positive := fun w =>
  let l := fresh (dom (frames w)) in
  Done l {| frames := <[l := d]> (frames w); np_random := np_random w |}.

Definition read_frame (l : positive) : M (DataFrame F) := fun w =>
  match frames w !! l with
  | Some d => Done d w
  | None => Failed NotModelled w
  end.

Definition write_frame (l : positive) (d : DataFrame F) : M unit := fun w =>
  Done tt {| frames := <[l := d]> (frames w); np_random := np_random w |}.

(** [df[key]] on the frame object [l] *)
Definition df_getitem (l : positive) (key : string) : M (column F) :=
  d ← read_frame l; lift (getitem d key).

(** [df[key] = c]: the frame object [l] is updated in place. *)
Definition df_setitem (l : positive) (key : string) (c : column F) : M unit :=
  d ← read_frame l; d' ← lift (setitem d key c); write_frame l d'.

(** *** [np.random] *)

Definition np_random_seed (n : Z) : M unit := fun w =>
  if (0 <=? n) && (n <? 2 ^ 32)
  then Done tt {| frames := frames w; np_random := rs_seed n |}
  else Failed ValueError w.

Definition draw {A} (f : RS -> A * RS) : M A := fun w =>
  let '(a, s) := f (np_random w) in
  Done a {| frames := frames w; np_random := s |}.

Definition np_random_choice (a : list string) (size : nat) : M (list string) :=
  match a with
  | [] => lift (Raise ValueError)
  | _ => draw (rs_choice a size)
  end.

Definition np_random_randint (low high : Z) (size : nat) : M (list Z) :=
  if (low <? high) then draw (rs_randint low high size) else lift (Raise ValueError).

Definition np_random_uniform (low high : F) (size : nat) : M (list F) :=
  draw (rs_uniform low high size).

(** *** 2. Generate dynamic data (lines 18-45) *)

Definition regions : list string := ["North"; "South"; "East"; "West"].
Definition categories : list string := ["Electronics"; "Furniture"; "Clothing"; "Sports"].
Definition num_orders : nat := 120.

(** [range(a, b)] *)
Definition py_range (a b : Z) : list Z :=
  map (fun i => a + Z.of_nat i) (seq 0 (Z.to_nat (b - a))).

(** [pd.date_range(start, periods=n, freq="7D")] *)
Definition date_range_7D (start : Z) (periods : nat) : list Z :=
  map (fun i => start + 7 * Z.of_nat i) (seq 0 periods).

Definition start_date : Z := Calendar.days_from_civil 2024 1 1.

Definition profit_map : list (string * F) :=
  [("Electronics", f_dec 12 (-2)); ("Furniture", f_dec 20 (-2));
   ("Clothing", f_dec 35 (-2)); ("Sports", f_dec 25 (-2))].

(** Lines 18-37: seed, draw the raw columns in the order the dict
    literal evaluates them, build the frame. *)
Definition generate_raw (py : PyRuntime.Interpreter) : M positive :=
  _ ← np_random_seed (seed_argument py);
  let dates := date_range_7D start_date num_orders in
  let order_id := py_range 3001 (3001 + Z.of_nat num_orders) in
  region ← np_random_choice regions num_orders;
  category ← np_random_choice categories num_orders;
  quantity ← np_random_randint 1 6 num_orders;
  price ← np_random_uniform (f_of_Z 50) (f_of_Z 1000) num_orders;
  let data := [("OrderID", IntCol order_id); ("Date", DateCol dates);
               ("Region", StrCol region); ("Category", StrCol category);
               ("Quantity", IntCol quantity);
               ("UnitPrice", FloatCol (map (fround 2) price))] in
  d ← lift (frame_of_dict data);
  new_frame d.

(** Lines 40-45: the derived columns, assigned into [df]. *)
Definition derive_fields (df : positive) : M unit :=
  quantity ← df_getitem df "Quantity";
  price ← df_getitem df "UnitPrice";
  sales ← lift (series_mul quantity price ≫= series_round 2);
  _ ← df_setitem df "Sales" sales;
  sales ← df_getitem df "Sales";
  category ← df_getitem df "Category";
  rate ← lift (series_map category profit_map);
  base ← lift (series_mul sales rate);
  jitter ← np_random_uniform (f_dec 9 (-1)) (f_dec 11 (-1)) num_orders;
  profit ← lift (series_mul base (FloatCol jitter) ≫= series_round 2);
  _ ← df_setitem df "Profit" profit;
  profit ← df_getitem df "Profit";
  sales ← df_getitem df "Sales";
  margin ← lift (series_div profit sales ≫= fun r => series_mul_int r 100 ≫= series_round 2);
  df_setitem df "ProfitMargin" margin.

Definition generate_data (py : PyRuntime.Interpreter) : M positive :=
  df ← generate_raw py;
  _ ← derive_fields df;
  mret df.

(** *** 3. Sidebar filters (lines 50-63) *)

(** What the user has entered in the three widgets; [None] for a widget
    that still shows its default. *)
Record Sidebar : Type := {
  ui_regions : option (list string);
  ui_categories : option (list string);
  ui_date_range : option (list Z)
}.

(** The filter selection the widgets return; [date_range] is the tuple of
    the dates picked so far. *)
Record Selection : Type := {
  selected_regions : list string;
  selected_categories : list string;
  date_range : list Z
}.

Definition multiselect (options default : column F) (state : option (list string))
  : result (list string) :=
  match state with
  | Some v => Ok v
  | None =>
      match default with
      | StrCol xs => Ok xs
      | _ => Raise NotModelled
      end
  end.

Definition date_input (value : list Z) (state : option (list Z)) : list Z :=
  match state with
  | Some v => v
  | None => value
  end.

Definition sidebar_filters (df : positive) (ui : Sidebar) : M Selection :=
  region ← df_getitem df "Region";
  region' ← df_getitem df "Region";
  regions ← lift (multiselect (series_unique region) (series_unique region') (ui_regions ui));
  category ← df_getitem df "Category";
  category' ← df_getitem df "Category";
  categories ← lift (multiselect (series_unique category) (series_unique category') (ui_categories ui));
  date ← df_getitem df "Date";
  first ← lift (date_min date);
  date' ← df_getitem df "Date";
  last ← lift (date_max date');
  mret {| selected_regions := regions;
          selected_categories := categories;
          date_range := date_input [first; last] (ui_date_range ui) |}.

(** [t[i]] on a tuple *)
Definition tuple_get (t : list Z) (i : nat) : result Z :=
  match t !! i with
  | Some x => Ok x
  | None => Raise IndexError
  end.

(** Lines 59-63: the three masks, combined left to right, select the rows
    of a new frame. *)
Definition apply_filters (df : positive) (sel : Selection) : M positive :=
  region ← df_getitem df "Region";
  category ← df_getitem df "Category";
  mask ← lift (mask_and (isin region (selected_regions sel))
                        (isin category (selected_categories sel)));
  date ← df_getitem df "Date";
  day ← lift (dt_date date);
  left ← lift (tuple_get (date_range sel) 0);
  right ← lift (tuple_get (date_range sel) 1);
  in_range ← lift (between day left right);
  mask ← lift (mask_and mask in_range);
  d ← read_frame df;
  filtered ← lift (getitem_mask d mask);
  new_frame filtered.

(** *** 4. Key metrics (lines 68-77) *)

Record Metrics : Type := {
  total_sales : F;
  total_profit : F;
  total_orders : nat;
  avg_order_value : F
}.

Definition key_metrics (filtered_df : positive) : M Metrics :=
  sales ← df_getitem filtered_df "Sales";
  total_sales ← lift (series_sum sales);
  profit ← df_getitem filtered_df "Profit";
  total_profit ← lift (series_sum profit);
  d ← read_frame filtered_df;
  let total_orders := nrows d in
  avg ← (if Nat.eqb total_orders 0 then mret (f_of_Z 0)
         else sales ← df_getitem filtered_df "Sales"; lift (series_mean sales));
  mret {| total_sales := total_sales; total_profit := total_profit;
          total_orders := total_orders; avg_order_value := avg |}.

(** *** 5. Visualizations (lines 85-105) *)

(** A chart keeps the columns of the frame it was drawn from. *)
Definition Figure : Type := list (string * column F).

Definition px_figure (l : positive) (cols : list string) : M Figure :=
  d ← read_frame l;
  lift (mapM (fun k => c ← getitem d k; mret (k, c)) cols).

Definition groupby_sum_frame (l : positive) (key val : string) : M positive :=
  d ← read_frame l;
  g ← lift (groupby_sum d key val);
  new_frame g.

Record Charts : Type := {
  fig_region : Figure;
  fig_category : Figure;
  fig_trend : Figure;
  fig_profit : Figure
}.

Definition visualizations (filtered_df : positive) : M Charts :=
  region_sales ← groupby_sum_frame filtered_df "Region" "Sales";
  fig_region ← px_figure region_sales ["Region"; "Sales"];
  category_sales ← groupby_sum_frame filtered_df "Category" "Sales";
  fig_category ← px_figure category_sales ["Category"; "Sales"];
  date ← df_getitem filtered_df "Date";
  month ← lift (to_month date);
  _ ← df_setitem filtered_df "Month" month;
  monthly_sales ← groupby_sum_frame filtered_df "Month" "Sales";
  fig_trend ← px_figure monthly_sales ["Month"; "Sales"];
  fig_profit ← px_figure filtered_df ["Sales"; "ProfitMargin"; "Category"; "OrderID"; "Region"];
  mret {| fig_region := fig_region; fig_category := fig_category;
          fig_trend := fig_trend; fig_profit := fig_profit |}.

(** *** 6. Data table and download (lines 110-114) *)

Definition table_and_download (filtered_df : positive) : M (DataFrame F * string) :=
  d ← read_frame filtered_df;
  sorted ← lift (sort_values d "Date" false);
  shown ← new_frame sorted;
  table ← read_frame shown;
  d ← read_frame filtered_df;
  mret (table, to_csv d).

(** *** 7. Insights (lines 121-128) *)

Inductive Insights : Type :=
| TopSellers (top_region top_category : string) (avg_quantity : F)
| NoOrders.

Definition labelled_sums (l : positive) (key val : string) : M (list (string * F)) :=
  d ← read_frame l;
  g ← lift (groupby_sum d key val);
  match columns g with
  | [(_, StrCol ks); (_, FloatCol vs)] => mret (zip ks vs)
  | _ => lift (Raise NotModelled)
  end.

Definition quick_insights (filtered_df : positive) (total_orders : nat) : M Insights :=
  if (0 <? total_orders)%nat then
    by_region ← labelled_sums filtered_df "Region" "Sales";
    top_region ← lift (idxmax by_region);
    by_category ← labelled_sums filtered_df "Category" "Sales";
    top_category ← lift (idxmax by_category);
    quantity ← df_getitem filtered_df "Quantity";
    avg_quantity ← lift (series_mean quantity);
    mret (TopSellers top_region top_category avg_quantity)
  else mret NoOrders.

(** *** The page *)

Record Page : Type := {
  metrics : Metrics;
  charts : Charts;
  table : DataFrame F;
  csv_data : string;
  insights : Insights
}.

(** Lines 59-128 on a filter selection: everything downstream of the
    widgets. *)
Definition render (df : positive) (sel : Selection) : M Page :=
  filtered_df ← apply_filters df sel;
  m ← key_metrics filtered_df;
  c ← visualizations filtered_df;
  td ← table_and_download filtered_df;
  i ← quick_insights filtered_df (total_orders m);
  mret {| metrics := m; charts := c; table := fst td; csv_data := snd td; insights := i |}.

(** Lines 50-128. *)
Definition dashboard (df : positive) (ui : Sidebar) : M Page :=
  sel ← sidebar_filters df ui;
  render df sel.

(** One run of the script. *)
Definition app (py : PyRuntime.Interpreter) (ui : Sidebar) : M Page :=
  df ← generate_data py;
  dashboard df ui.

End Script.

Arguments World F RS : clear implicits.
Arguments outcome F RS A : clear implicits.
Arguments Done {F RS A} a w.
Arguments Failed {F RS A} e w.
Arguments M F RS A : clear implicits.
Arguments Metrics F : clear implicits.
Arguments Charts F : clear implicits.
Arguments Page F : clear implicits.
Arguments Insights F : clear implicits.

End App.

(** ** The Order data model and the statements' vocabulary *)

Module Orders.
Import Pandas Numpy App.

Section Orders.
Context {F : Type} {FO : Float64 F}.

(** One row of the order table: the six generated fields and the three
    derived ones. *)
Record Order : Type := {
  OrderID : Z;
  Date : Z;
  Region : string;
  Category : string;
  Quantity : Z;
  UnitPrice : F;
  Sales : F;
  Profit : F;
  ProfitMargin : F
}.

(** The frame whose rows are [os], under the row labels [labels]. *)
Definition frame_of_orders (labels : list Z) (os : list Order) : DataFrame F :=
  {| index := labels;
     columns := [("OrderID", IntCol (map OrderID os)); ("Date", DateCol (map Date os));
                 ("Region", StrCol (map Region os)); ("Category", StrCol (map Category os));
                 ("Quantity", IntCol (map Quantity os)); ("UnitPrice", FloatCol (map UnitPrice os));
                 ("Sales", FloatCol (map Sales os)); ("Profit", FloatCol (map Profit os));
                 ("ProfitMargin", FloatCol (map ProfitMargin os))] |}.

(** The rows of nine equally long columns. *)
Definition orders_of_columns (order_id date : list Z) (region category : list string)
    (quantity : list Z) (price sales profit margin : list F) : list Order :=
  map (fun i => {| OrderID := nth i order_id 0; Date := nth i date 0;
                   Region := nth i region EmptyString; Category := nth i category EmptyString;
                   Quantity := nth i quantity 0; UnitPrice := nth i price f_nan;
                   Sales := nth i sales f_nan; Profit := nth i profit f_nan;
                   ProfitMargin := nth i margin f_nan |})
      (seq 0 (length order_id)).

(** The row that lines 40-45 derive from the raw fields and the jitter
    drawn for it. *)
Definition derived_order (id date : Z) (region category : string) (quantity : Z)
    (price jitter : F) : Order :=
  let sales := fround 2 (fmul (f_of_Z quantity) price) in
  let profit :=
    fround 2 (fmul (fmul sales (default f_nan (dict_get category profit_map))) jitter) in
  {| OrderID := id; Date := date; Region := region; Category := category;
     Quantity := quantity; UnitPrice := price; Sales := sales; Profit := profit;
     ProfitMargin := fround 2 (fmul (fdiv profit sales) (f_of_Z 100)) |}.

(** Three orders of the first three weeks. *)
Definition three_orders : list Order :=
  [derived_order 3001 start_date "North" "Electronics" 3 (f_dec 17765 (-2)) (f_of_Z 1);
   derived_order 3002 (start_date + 7) "South" "Furniture" 1 (f_dec 85506 (-2)) (f_of_Z 1);
   derived_order 3003 (start_date + 14) "North" "Clothing" 4 (f_dec 77559 (-2)) (f_of_Z 1)].

(** The filter contract in the specification's words: Region among the
    selected regions, Category among the selected categories, and the date
    within the inclusive interval. *)
Definition selected (regions categories : list string) (first last : Z) (o : Order) : Prop :=
  Region o ∈ regions ∧ Category o ∈ categories ∧ first <= Date o <= last.

#[export] Instance selected_dec regions categories first last o :
  Decision (selected regions categories first last o).
Proof. unfold selected. apply _. Defined.

Definition spec_filter (regions categories : list string) (first last : Z) (os : list Order)
  : list Order :=
  filter (selected regions categories first last) os.

(** The margin rate of a category (line 42). *)
Definition margin_rate (category : string) : option F := dict_get category profit_map.

(** Total Sales of a frame (line 68), and the total of its per-group Sales
    sums (lines 85, 90, 96). *)
Definition sales_total (d : DataFrame F) : result F :=
  s ← getitem d "Sales"; series_sum s.

Definition grouped_total (d : DataFrame F) (key : string) : result F :=
  g ← groupby_sum d key "Sales";
  s ← getitem g "Sales";
  series_sum s.

(** The filtered frame as line 95 leaves it: with the Month column. *)
Definition with_month (d : DataFrame F) : result (DataFrame F) :=
  date ← getitem d "Date";
  month ← to_month date;
  setitem d "Month" month.

Definition partition_property (d : DataFrame F) (key : string) : Prop :=
  grouped_total d key = sales_total d.

(** The filtered frame with the Month column added last. *)
Definition month_frame (labels : list Z) (os : list Order) : DataFrame F :=
  {| index := labels;
     columns := columns (frame_of_orders labels os)
                ++ [("Month", DateCol (map (fun o => Calendar.month_start (Date o)) os))] |}.

(** The header of the export (line 113) as the script writes it. *)
Definition export_header : list string :=
  ["OrderID"; "Date"; "Region"; "Category"; "Quantity"; "UnitPrice";
   "Sales"; "Profit"; "ProfitMargin"; "Month"].

(** The mask of lines 60-62, row by row. *)
Definition selection_mask (sel : Selection) (first last : Z) (os : list Order) : list bool :=
  map (fun o => bool_decide (selected (selected_regions sel) (selected_categories sel) first last o)) os.

(** Sales summed per value of [key], and the two columns a grouped chart
    is drawn from. *)
Definition sums_by {K} `{EqDecision K} (R : relation K) `{!RelDecision R}
    (key : Order -> K) (os : list Order) : list (K * F) :=
  group_sums R (map key os) (map Sales os).

Definition two_columns {K} (key : string) (mk : list K -> column F) (g : list (K * F))
  : list (string * column F) :=
  [(key, mk (map fst g)); ("Sales", FloatCol (map snd g))].

(** The sum of the values whose key is among [G], and whose key is [g]. *)
Definition sum_in {K} `{EqDecision K} (G : list K) (keys : list K) (vals : list F) : F :=
  fsum (select (map (fun k => bool_decide (k ∈ G)) keys) vals).

Definition sum_at {K} `{EqDecision K} (g : K) (keys : list K) (vals : list F) : F :=
  fsum (select (map (fun k => bool_decide (k = g)) keys) vals).

(** The columns of lines 27-45 as lists. *)
Definition raw_columns (ids dates : list Z) (region category : list string)
    (quantity : list Z) (price : list F) : list (string * column F) :=
  [("OrderID", IntCol ids); ("Date", DateCol dates);
   ("Region", StrCol region); ("Category", StrCol category);
   ("Quantity", IntCol quantity); ("UnitPrice", FloatCol price)].

Definition sales_column (quantity : list Z) (price : list F) : list F :=
  map (fround 2) (zip_with (fun q p => fmul (f_of_Z q) p) quantity price).

Definition profit_column (sales : list F) (category : list string) (jitter : list F) : list F :=
  map (fround 2)
      (zip_with fmul
         (zip_with fmul sales (map (fun c => default f_nan (dict_get c profit_map)) category))
         jitter).

Definition margin_column (profit sales : list F) : list F :=
  map (fround 2) (map (fun x => fmul x (f_of_Z 100)) (zip_with fdiv profit sales)).

(** The 120 rows that a run builds from its draws. *)
Definition generated_orders (region category : list string) (quantity : list Z)
    (price jitter : list F) : list Order :=
  let unit_price := map (fround 2) price in
  let sales := sales_column quantity unit_price in
  let profit := profit_column sales category jitter in
  orders_of_columns (py_range 3001 (3001 + Z.of_nat num_orders))
    (date_range_7D start_date num_orders)
    region category quantity unit_price sales profit (margin_column profit sales).

(** *** Assumptions on the arithmetic and on the generator *)

(** Addition as in exact arithmetic. *)
Class ExactAddition : Prop := {
  fadd_assoc : forall x y z : F, fadd x (fadd y z) = fadd (fadd x y) z;
  fadd_comm : forall x y : F, fadd x y = fadd y x;
  fadd_zero : forall x : F, fadd (f_of_Z 0) x = x
}.

(** Rounding to two decimals keeps the order and leaves the bounds of the
    price range as they are. *)
Class RoundingLaws : Prop := {
  fround_monotone : forall x y : F, fle x y -> fle (fround 2 x) (fround 2 y);
  fround_50 : fround 2 (f_of_Z 50) = f_of_Z 50;
  fround_1000 : fround 2 (f_of_Z 1000) = f_of_Z 1000;
  price_bounds_ordered : fle (f_of_Z 50) (f_of_Z 1000)
}.

(** What NumPy documents of the three sampling calls: the number of draws
    and their range. *)
Class RandomStateSpec {RS : Type} (RNG : RandomState F RS) : Prop := {
  choice_length : forall a n s, length (fst (rs_choice a n s)) = n;
  choice_elem : forall a n s x, a <> [] -> x ∈ fst (rs_choice a n s) -> x ∈ a;
  randint_length : forall lo hi n s, length (fst (rs_randint lo hi n s)) = n;
  randint_range : forall lo hi n s x,
    lo < hi -> x ∈ fst (rs_randint lo hi n s) -> lo <= x < hi;
  uniform_length : forall lo hi n s, length (fst (rs_uniform lo hi n s)) = n;
  uniform_range : forall lo hi n s x,
    fle lo hi -> x ∈ fst (rs_uniform lo hi n s) -> fle lo x /\ fle x hi
}.

(** *** A deterministic generator

    A counter that walks through admissible values: the entries of [a] in
    turn, the integers of [low, high) in turn, and the two ends of
    [low, high] alternately. *)
Definition cycle_choice (a : list string) (n s : nat) : list string :=
  map (fun i => nth ((s + i) mod length a) a EmptyString) (seq 0 n).

Definition cycle_randint (lo hi : Z) (n s : nat) : list Z :=
  map (fun i => lo + Z.of_nat (s + i) mod (hi - lo)) (seq 0 n).

Definition cycle_uniform (lo hi : F) (n s : nat) : list F :=
  map (fun i => if Nat.even (s + i) then lo else hi) (seq 0 n).

Context {RS : Type} {RNG : RandomState F RS}.

(** The five draws of one run, in the order the script makes them, from
    the state the seed gives. *)
Definition draws (seed : Z)
  : list string * list string * list Z * list F * list F :=
  let '(region, s) := rs_choice regions num_orders (rs_seed seed) in
  let '(category, s) := rs_choice categories num_orders s in
  let '(quantity, s) := rs_randint 1 6 num_orders s in
  let '(price, s) := rs_uniform (f_of_Z 50) (f_of_Z 1000) num_orders s in
  let '(jitter, _) := rs_uniform (f_dec 9 (-1)) (f_dec 11 (-1)) num_orders s in
  (region, category, quantity, price, jitter).

End Orders.

Arguments Order F : clear implicits.

#[export] Instance cycle {F} `{Float64 F} : RandomState F nat := {|
  rs_seed := Z.to_nat;
  rs_choice := fun a n s => (cycle_choice a n s, (s + n)%nat);
  rs_randint := fun lo hi n s => (cycle_randint lo hi n s, (s + n)%nat);
  rs_uniform := fun lo hi n s => (cycle_uniform lo hi n s, (s + n)%nat)
|}.

End Orders.

(** ** Reasoning about statements of the script *)

Module Hoare.
Import Pandas Numpy App.

Section Hoare.
Context {F : Type} {RS : Type}.

Definition store (w : World F RS) (l : positive) (d : DataFrame F) : World F RS :=
  {| frames := <[l := d]> (frames w); np_random := np_random w |}.

Definition with_rng (w : World F RS) (s : RS) : World F RS :=
  {| frames := frames w; np_random := s |}.

Definition world_with (df : positive) (d : DataFrame F) (s : RS) : World F RS :=
  {| frames := {[df := d]}; np_random := s |}.

(** [wp m w Q]: run in [w], the statement [m] completes without an
    exception, with a value and a world that satisfy [Q]. *)
Definition wp {A} (m : M F RS A) (w : World F RS) (Q : A -> World F RS -> Prop) : Prop :=
  match m w with
  | Done a w' => Q a w'
  | Failed _ _ => False
  end.

(** [keeps df base m P]: from a world where [df] holds [base], the
    statement [m] ends, normally or by an exception, in a world where [df]
    still holds [base]; a value it returns satisfies [P]. *)
Definition keeps (df : positive) (base : DataFrame F) {A} (m : M F RS A) (P : A -> Prop) : Prop :=
  forall w, frames w !! df = Some base ->
    match m w with
    | Done a w' => frames w' !! df = Some base /\ P a
    | Failed _ w' => frames w' !! df = Some base
    end.

End Hoare.

End Hoare.

(** ** Concrete inputs: three orders stored as frame 1, in exact arithmetic
    with the counter generator *)

Module Demo.
Import Pandas Numpy App Orders Hoare.

Definition all_dates : list Z := [start_date; start_date + 14].

Definition north_selection : Selection :=
  {| selected_regions := ["North"]; selected_categories := categories;
     date_range := all_dates |}.

Definition no_region_selection : Selection :=
  {| selected_regions := []; selected_categories := categories; date_range := all_dates |}.

Definition inverted_selection : Selection :=
  {| selected_regions := regions; selected_categories := categories;
     date_range := [start_date + 14; start_date] |}.

Definition one_date_selection : Selection :=
  {| selected_regions := regions; selected_categories := categories;
     date_range := [start_date] |}.

Definition demo_world : World Qc nat :=
  world_with 1%positive (frame_of_orders [0; 1; 2] (three_orders (F:=Qc))) 0%nat.

Definition start_world : World Qc nat := {| frames := ∅; np_random := 0%nat |}.

End Demo.

(** ** The widgets as the page first shows them *)

Module Widgets.
Import Pandas App Orders Demo.

(** No widget has been touched: each returns its default. *)
Definition untouched : Sidebar :=
  {| ui_regions := None; ui_categories := None; ui_date_range := None |}.

(** Every region and category, over the three weeks of [all_dates]. *)
Definition all_selection : Selection :=
  {| selected_regions := regions; selected_categories := categories;
     date_range := all_dates |}.

End Widgets.

(** ** Vocabulary of the charts, the table and the insights *)

Module Groups.
Import Pandas App Orders.

Section Groups.
Context {F : Type} {FO : Float64 F}.

(** The Sales of the orders whose [key] is [k], added in row order. *)
Definition group_sales {K} `{EqDecision K} (key : Order F -> K) (k : K) (os : list (Order F)) : F :=
  fsum (map Sales (filter (fun o => key o = k) os)).

(** The two columns of a grouped chart over the orders [os]: each key that
    occurs, once, beside the Sales of its group. *)
Definition chart_of_groups {K} `{EqDecision K} (key : Order F -> K) (os : list (Order F))
    (ks : list K) (vs : list F) : Prop :=
  NoDup ks
  /\ (forall k, k ∈ ks <-> exists o, o ∈ os /\ key o = k)
  /\ vs = map (fun k => group_sales key k os) ks.

(** The columns the scatter plot of lines 101-104 reads. *)
Definition scatter_columns (os : list (Order F)) : list (string * column F) :=
  [("Sales", FloatCol (map Sales os)); ("ProfitMargin", FloatCol (map ProfitMargin os));
   ("Category", StrCol (map Category os)); ("OrderID", IntCol (map OrderID os));
   ("Region", StrCol (map Region os))].

(** A float that is not NaN: it compares to itself. *)
Definition is_number (x : F) : Prop := fle x x.

(** What the insights rely on of float comparison; true of IEEE 754
    doubles. *)
Class ComparisonLaws : Prop := {
  flt_fle : forall x y : F, flt x y -> fle x y;
  fle_trans : forall x y z : F, fle x y -> fle y z -> fle x z;
  not_flt_fle : forall x y : F, fltb x y = false -> is_number x -> is_number y -> fle y x
}.

End Groups.

End Groups.

(** ** The calendar within one 400-year era

    [civil_from_days] and [days_from_civil] split a day number into an era
    of 146097 days that starts on a first of March, and the day of the era;
    these are the pieces they are made of. *)

Module Era.

(** The era of a day number and its day of the era. *)
Definition era_of (z : Z) : Z := (z + 719468) / 146097.
Definition day_of (z : Z) : Z := z + 719468 - era_of z * 146097.

(** The first day of year [y] of the era, and the year of a day. *)
Definition year_start (y : Z) : Z := 365 * y + y / 4 - y / 100.
Definition year_of (doe : Z) : Z := (doe - doe / 1460 + doe / 36524 - doe / 146096) / 365.

(** The days of a year before month [mp] (counted from March), and the
    month of a day of the year. *)
Definition month_days (mp : Z) : Z := (153 * mp + 2) / 5.
Definition month_of (doy : Z) : Z := (5 * doy + 2) / 153.

(** The month number of a month counted from March. *)
Definition month (mp : Z) : Z := if (mp <? 10) then mp + 3 else mp - 9.

(** The first day of the month of day [doe]. *)
Definition first (doe : Z) : Z :=
  year_start (year_of doe) + month_days (month_of (doe - year_start (year_of doe))).

End Era.

(** * Theorems *)

Import Pandas Numpy App Orders Hoare Demo.

(** * The string hash against CPython 3.11

    [hash("Mayuri2025")] as the interpreter prints it under
    [PYTHONHASHSEED=1] and under [PYTHONHASHSEED=42]. *)

Example hash_with_hashseed_1 :
  PyRuntime.hash (PyRuntime.with_hashseed 1) "Mayuri2025" = -206872854276371818.
Proof. by vm_compute. Qed.

Example hash_with_hashseed_42 :
  PyRuntime.hash (PyRuntime.with_hashseed 42) "Mayuri2025" = -810961654003797551.
Proof. by vm_compute. Qed.

(** * Running the script: the monad's equations *)

Section Exec.
Context {F : Type} {FO : Float64 F} {FR : FloatRepr F}.
Context {RS : Type} {RNG : RandomState F RS}.

Lemma bind_done {A B} (m : M F RS A) (k : A -> M F RS B) w a w' :
  m w = Done a w' -> (m ≫= k) w = k a w'.
Proof. intros E. unfold mbind, M_bind. by rewrite E. Qed.

Lemma df_getitem_done l d key c (w : World F RS) :
  frames w !! l = Some d -> getitem d key = Ok c -> df_getitem l key w = Done c w.
Proof.
  intros Hl Hc. unfold df_getitem, read_frame, lift, mbind, M_bind. by rewrite Hl, Hc.
Qed.

Lemma bind_lift_ok {A B} (a : A) (k : A -> M F RS B) w :
  (lift (Ok a) ≫= k) w = k a w.
Proof. reflexivity. Qed.

Lemma read_frame_done l d (w : World F RS) :
  frames w !! l = Some d -> read_frame l w = Done d w.
Proof. intros Hl. unfold read_frame. by rewrite Hl. Qed.

End Exec.

Section Lists.
Context {A B : Type}.

Lemma select_map (f : A -> B) mask xs :
  select mask (map f xs) = map f (select mask xs).
Proof.
  revert xs. induction mask as [|b mask IH]; intros [|x xs]; simpl; try done.
  destruct b; simpl; by rewrite IH.
Qed.

Lemma select_filter (P : A -> Prop) `{!forall x, Decision (P x)} xs :
  select (map (fun x => bool_decide (P x)) xs) xs = filter P xs.
Proof.
  induction xs as [|x xs IH]; simpl; [done|].
  rewrite filter_cons. destruct (decide (P x)) as [HP|HP].
  - rewrite bool_decide_eq_true_2 by done. by rewrite IH.
  - rewrite bool_decide_eq_false_2 by done. by rewrite IH.
Qed.

Lemma filter_none (P : A -> Prop) `{!forall x, Decision (P x)} xs :
  (forall x, x ∈ xs -> ~ P x) -> filter P xs = [].
Proof.
  induction xs as [|x xs IH]; intros Hnone; [done|].
  rewrite filter_cons. destruct (decide (P x)) as [HP|HP].
  - destruct (Hnone x); [left|done].
  - apply IH. intros y Hy. apply Hnone. by right.
Qed.

Lemma zip_with_map_same {C D} (g : B -> C -> D) (p : A -> B) (q : A -> C) xs :
  zip_with g (map p xs) (map q xs) = map (fun x => g (p x) (q x)) xs.
Proof. induction xs; simpl; by f_equal. Qed.

End Lists.

Section Filter.
Context {F : Type} {FO : Float64 F} {FR : FloatRepr F}.
Context {RS : Type} {RNG : RandomState F RS}.

Lemma getitem_mask_orders mask labels (os : list (Order F)) :
  length labels = length os -> length mask = length os ->
  getitem_mask (frame_of_orders labels os) mask
  = Ok (frame_of_orders (select mask labels) (select mask os)).
Proof.
  intros Hl Hm. unfold getitem_mask, nrows. simpl index.
  rewrite Hm, <- Hl, Nat.eqb_refl.
  unfold frame_of_orders. simpl. by rewrite !select_map.
Qed.

Lemma apply_filters_done df labels (os : list (Order F)) sel first last rest (w : World F RS) :
  frames w !! df = Some (frame_of_orders labels os) ->
  length labels = length os ->
  date_range sel = first :: last :: rest ->
  apply_filters df sel w
  = new_frame (frame_of_orders (select (selection_mask sel first last os) labels)
                               (spec_filter (selected_regions sel) (selected_categories sel) first last os)) w.
Proof.
  intros Hdf Hlen Hdr. unfold apply_filters.
  rewrite (bind_done _ _ _ _ _ (df_getitem_done _ _ "Region" _ _ Hdf eq_refl)).
  rewrite (bind_done _ _ _ _ _ (df_getitem_done _ _ "Category" _ _ Hdf eq_refl)).
  simpl isin. unfold mask_and. rewrite !length_map, Nat.eqb_refl.
  rewrite bind_lift_ok.
  rewrite (bind_done _ _ _ _ _ (df_getitem_done _ _ "Date" _ _ Hdf eq_refl)).
  simpl dt_date. rewrite bind_lift_ok, Hdr.
  change (tuple_get (first :: last :: rest) 0) with (Ok (A:=Z) first).
  change (tuple_get (first :: last :: rest) 1) with (Ok (A:=Z) last).
  rewrite !bind_lift_ok.
  simpl between. rewrite bind_lift_ok.
  rewrite !length_zip_with, !length_map, Nat.min_id, Nat.eqb_refl, bind_lift_ok.
  rewrite (bind_done _ _ _ _ _ (read_frame_done _ _ _ Hdf)).
  rewrite !map_map, !zip_with_map_same.
  rewrite getitem_mask_orders by (by rewrite ?length_map).
  rewrite bind_lift_ok.
  assert (Hmask : map (fun x : Order F =>
             bool_decide (Region x ∈ selected_regions sel)
             && bool_decide (Category x ∈ selected_categories sel)
             && ((first <=? Date x) && (Date x <=? last))) os
          = selection_mask sel first last os).
  { unfold selection_mask. apply map_ext. intros o. unfold selected.
    destruct (decide (Region o ∈ selected_regions sel)) as [H1|H1];
    destruct (decide (Category o ∈ selected_categories sel)) as [H2|H2];
    destruct (Z.leb_spec first (Date o)); destruct (Z.leb_spec (Date o) last);
    rewrite ?(bool_decide_eq_true_2 _ H1), ?(bool_decide_eq_false_2 _ H1),
            ?(bool_decide_eq_true_2 _ H2), ?(bool_decide_eq_false_2 _ H2); simpl;
    symmetry; first [ apply bool_decide_eq_true_2; by repeat split
                    | apply bool_decide_eq_false_2; intros (?&?&?&?); done || lia ]. }
  rewrite Hmask. unfold spec_filter. unfold selection_mask at 2.
  by rewrite select_filter.
Qed.
End Filter.

(** * A frame does not change unless it is assigned to *)

Section Preservation.
Context {F : Type} {FO : Float64 F} {FR : FloatRepr F}.
Context {RS : Type} {RNG : RandomState F RS}.
Variable df : positive.
Variable base : DataFrame F.

Lemma keeps_bind {A B} (m : M F RS A) (k : A -> M F RS B) P Q :
  keeps (RS:=RS) df base m P -> (forall a, P a -> keeps (RS:=RS) df base (k a) Q) -> keeps (RS:=RS) df base (m ≫= k) Q.
Proof.
  intros Hm Hk w Hw. specialize (Hm w Hw). unfold mbind, M_bind.
  destruct (m w) as [a w'|e w']; [|done].
  destruct Hm as [Hw' Ha]. apply (Hk a Ha w' Hw').
Qed.

Lemma keeps_weaken {A} (m : M F RS A) (P Q : A -> Prop) :
  keeps (RS:=RS) df base m P -> (forall a, P a -> Q a) -> keeps (RS:=RS) df base m Q.
Proof.
  intros Hm HPQ w Hw. specialize (Hm w Hw).
  destruct (m w); [|done]. destruct Hm. eauto.
Qed.

Lemma keeps_ret {A} (a : A) (P : A -> Prop) : P a -> keeps (RS:=RS) df base (mret a) P.
Proof. intros Ha w Hw. by split. Qed.

Lemma keeps_lift {A} (r : result A) : keeps (RS:=RS) df base (lift r) (fun _ => True).
Proof. intros w Hw. unfold lift. by destruct r. Qed.

Lemma keeps_read_frame l : keeps (RS:=RS) df base (read_frame l) (fun _ => True).
Proof. intros w Hw. unfold read_frame. by destruct (frames w !! l). Qed.

Lemma keeps_new_frame d : keeps (RS:=RS) df base (new_frame d) (fun l => l <> df).
Proof.
  intros w Hw. unfold new_frame. simpl.
  assert (Hne : fresh (dom (frames w)) <> df).
  { intros E. pose proof (is_fresh (dom (frames w))) as Hf.
    rewrite E in Hf. apply Hf. apply elem_of_dom. by eexists. }
  split; [|done]. by rewrite lookup_insert_ne.
Qed.

Lemma keeps_write_frame l d : l <> df -> keeps (RS:=RS) df base (write_frame l d) (fun _ => True).
Proof. intros Hne w Hw. unfold write_frame. simpl. split; [|done]. by rewrite lookup_insert_ne. Qed.

Lemma keeps_draw {A} (f : RS -> A * RS) : keeps (RS:=RS) df base (draw f) (fun _ => True).
Proof. intros w Hw. unfold draw. by destruct (f (np_random w)). Qed.

Lemma keeps_df_getitem l key : keeps (RS:=RS) df base (df_getitem l key) (fun _ => True).
Proof.
  unfold df_getitem. eapply keeps_bind; [apply keeps_read_frame|].
  intros d _. apply keeps_lift.
Qed.

Lemma keeps_df_setitem l key c : l <> df -> keeps (RS:=RS) df base (df_setitem l key c) (fun _ => True).
Proof.
  intros Hne. unfold df_setitem.
  eapply keeps_bind; [apply keeps_read_frame|]. intros d _.
  eapply keeps_bind; [apply keeps_lift|]. intros d' _.
  by apply keeps_write_frame.
Qed.

End Preservation.

Create HintDb keeps discriminated.
#[export] Hint Resolve keeps_lift keeps_read_frame keeps_new_frame keeps_draw
  keeps_df_getitem keeps_df_setitem keeps_write_frame : keeps.

(** One statement of a [≫=] chain: the head by a known fact, the rest
    under the fact it establishes. *)
Ltac keeps_step :=
  lazymatch goal with
  | |- keeps _ _ (mbind _ (match ?x with _ => _ end)) _ => destruct x
  | |- keeps _ _ (mbind _ _) _ => eapply keeps_bind; [| intros ? ?]
  | |- keeps _ _ (mret _) ?P =>
      tryif is_evar P then apply (keeps_ret _ _ _ (fun _ => True)); exact I
      else (apply keeps_ret; done)
  | |- keeps _ _ (match ?x with _ => _ end) _ => destruct x
  | |- keeps _ _ _ _ => solve [eauto with keeps]
  end.

Section ScriptPreserves.
Context {F : Type} {FO : Float64 F} {FR : FloatRepr F}.
Context {RS : Type} {RNG : RandomState F RS}.
Variable df : positive.
Variable base : DataFrame F.

Lemma keeps_apply_filters sel :
  keeps (RS:=RS) df base (apply_filters df sel) (fun l => l <> df).
Proof. unfold apply_filters. repeat keeps_step. Qed.

Lemma keeps_key_metrics l : keeps (RS:=RS) df base (key_metrics l) (fun _ => True).
Proof. unfold key_metrics. repeat keeps_step. Qed.

Lemma keeps_groupby_sum_frame l key val :
  keeps (RS:=RS) df base (groupby_sum_frame l key val) (fun l' => l' <> df).
Proof. unfold groupby_sum_frame. repeat keeps_step. Qed.

Lemma keeps_px_figure l cols : keeps (RS:=RS) df base (px_figure l cols) (fun _ => True).
Proof. unfold px_figure. repeat keeps_step. Qed.

Hint Resolve keeps_groupby_sum_frame keeps_px_figure : keeps.

(** Line 95 assigns the Month column into the filtered frame, an object of
    its own. *)
Lemma keeps_visualizations l :
  l <> df -> keeps (RS:=RS) df base (visualizations l) (fun _ => True).
Proof. intros Hl. unfold visualizations. repeat keeps_step. Qed.

Lemma keeps_table_and_download l :
  keeps (RS:=RS) df base (table_and_download l) (fun _ => True).
Proof. unfold table_and_download. repeat keeps_step. Qed.

Lemma keeps_labelled_sums l key val :
  keeps (RS:=RS) df base (labelled_sums l key val) (fun _ => True).
Proof. unfold labelled_sums. repeat keeps_step. Qed.

Hint Resolve keeps_labelled_sums : keeps.

Lemma keeps_quick_insights l n :
  keeps (RS:=RS) df base (quick_insights l n) (fun _ => True).
Proof. unfold quick_insights. repeat keeps_step. Qed.

Hint Resolve keeps_apply_filters keeps_key_metrics keeps_visualizations
  keeps_table_and_download keeps_quick_insights : keeps.

Lemma keeps_render sel : keeps (RS:=RS) df base (render df sel) (fun _ => True).
Proof. unfold render. repeat keeps_step. Qed.

Lemma keeps_sidebar_filters ui : keeps (RS:=RS) df base (sidebar_filters df ui) (fun _ => True).
Proof. unfold sidebar_filters. repeat keeps_step. Qed.

Lemma keeps_dashboard ui : keeps (RS:=RS) df base (dashboard df ui) (fun _ => True).
Proof.
  unfold dashboard. eapply keeps_bind; [apply keeps_sidebar_filters|].
  intros sel _. apply keeps_render.
Qed.

End ScriptPreserves.

Lemma keeps_final_world {F RS} {A} df base (m : M F RS A) P w :
  keeps df base m P -> frames w !! df = Some base ->
  frames (final_world (m w)) !! df = Some base.
Proof.
  intros Hm Hw. specialize (Hm w Hw). destruct (m w); simpl; [by destruct Hm|done].
Qed.

(** * Statements that complete: weakest preconditions *)

Section Wp.
Context {F : Type} {FO : Float64 F} {FR : FloatRepr F}.
Context {RS : Type} {RNG : RandomState F RS}.

Lemma wp_done {A} (m : M F RS A) w Q :
  wp m w Q <-> exists a w', m w = Done a w' /\ Q a w'.
Proof.
  unfold wp. split.
  - destruct (m w) as [a w'|]; [eauto|done].
  - intros (a & w' & -> & HQ). done.
Qed.

Lemma wp_eq {A} (m : M F RS A) w a w' (Q : A -> World F RS -> Prop) :
  m w = Done a w' -> Q a w' -> wp m w Q.
Proof. intros E HQ. unfold wp. by rewrite E. Qed.

Lemma wp_bind {A B} (m : M F RS A) (k : A -> M F RS B) w Q :
  wp m w (fun a w' => wp (k a) w' Q) -> wp (m ≫= k) w Q.
Proof.
  unfold wp, mbind, M_bind. by destruct (m w).
Qed.

Lemma wp_mono {A} (m : M F RS A) w (P Q : A -> World F RS -> Prop) :
  wp m w P -> (forall a w', P a w' -> Q a w') -> wp m w Q.
Proof. unfold wp. destruct (m w); [eauto|done]. Qed.

Lemma wp_ret {A} (a : A) w (Q : A -> World F RS -> Prop) : Q a w -> wp (mret a) w Q.
Proof. done. Qed.

Lemma wp_lift {A} (r : result A) a w (Q : A -> World F RS -> Prop) :
  r = Ok a -> Q a w -> wp (lift r) w Q.
Proof. by intros ->. Qed.

Lemma wp_read_frame l d w (Q : DataFrame F -> World F RS -> Prop) :
  frames w !! l = Some d -> Q d w -> wp (read_frame l) w Q.
Proof. intros Hl HQ. unfold wp, read_frame. by rewrite Hl. Qed.

Lemma wp_new_frame d w (Q : positive -> World F RS -> Prop) :
  (forall l, frames w !! l = None -> Q l (store w l d)) -> wp (new_frame d) w Q.
Proof.
  intros HQ. unfold wp, new_frame. apply HQ.
  apply not_elem_of_dom. apply is_fresh.
Qed.

Lemma wp_df_getitem l key d c w (Q : column F -> World F RS -> Prop) :
  frames w !! l = Some d -> getitem d key = Ok c -> Q c w -> wp (df_getitem l key) w Q.
Proof.
  intros Hl Hc HQ. unfold wp. by rewrite (df_getitem_done _ _ _ _ _ Hl Hc).
Qed.

Lemma wp_df_setitem l key c d d' w (Q : unit -> World F RS -> Prop) :
  frames w !! l = Some d -> setitem d key c = Ok d' -> Q tt (store w l d') ->
  wp (df_setitem l key c) w Q.
Proof.
  intros Hl Hc HQ. unfold wp, df_setitem, read_frame, lift, write_frame, mbind, M_bind.
  by rewrite Hl, Hc.
Qed.

Lemma store_lookup_eq (w : World F RS) l d : frames (store w l d) !! l = Some d.
Proof. unfold store. simpl. apply lookup_insert_eq. Qed.

Lemma store_lookup_ne (w : World F RS) l l' d : l <> l' -> frames (store w l d) !! l' = frames w !! l'.
Proof. intros. unfold store. simpl. by apply lookup_insert_ne. Qed.

Lemma store_fresh (w : World F RS) l l' d :
  frames (store w l d) !! l' = None -> frames w !! l' = None /\ l <> l'.
Proof. unfold store. simpl. intros H. by apply lookup_insert_None in H. Qed.

End Wp.

(** Looking a frame up in a world built by [store]. *)
Ltac fresh_facts :=
  repeat match goal with
  | H : frames (store _ _ _) !! _ = None |- _ => apply store_fresh in H as [H ?]
  end.

Ltac lookup_frame :=
  fresh_facts;
  repeat first [ rewrite store_lookup_eq | rewrite store_lookup_ne by congruence ];
  first [ reflexivity | eassumption ].

Section Downstream.
Context {F : Type} {FO : Float64 F} {FR : FloatRepr F}.
Context {RS : Type} {RNG : RandomState F RS}.

Lemma with_month_orders labels (os : list (Order F)) :
  length labels = length os ->
  with_month (frame_of_orders labels os) = Ok (month_frame labels os).
Proof.
  intros Hlen. unfold with_month, setitem, nrows. simpl.
  rewrite !length_map, Hlen, Nat.eqb_refl. by rewrite map_map.
Qed.

Lemma key_metrics_done l d sales profit (w : World F RS) :
  frames w !! l = Some d ->
  getitem d "Sales" = Ok (FloatCol sales) ->
  getitem d "Profit" = Ok (FloatCol profit) ->
  key_metrics l w
  = Done {| total_sales := fsum sales;
            total_profit := fsum profit;
            total_orders := nrows d;
            avg_order_value :=
              if Nat.eqb (nrows d) 0 then f_of_Z 0
              else fdiv (fsum sales) (f_of_Z (Z.of_nat (length sales))) |} w.
Proof.
  intros Hl Hs Hp. unfold key_metrics.
  rewrite (bind_done _ _ _ _ _ (df_getitem_done _ _ _ _ _ Hl Hs)).
  simpl series_sum. rewrite bind_lift_ok.
  rewrite (bind_done _ _ _ _ _ (df_getitem_done _ _ _ _ _ Hl Hp)).
  simpl series_sum. rewrite bind_lift_ok.
  rewrite (bind_done _ _ _ _ _ (read_frame_done _ _ _ Hl)).
  destruct (Nat.eqb (nrows d) 0).
  - reflexivity.
  - erewrite (bind_done (df_getitem l "Sales" ≫= _)).
    2:{ rewrite (bind_done _ _ _ _ _ (df_getitem_done _ _ _ _ _ Hl Hs)). reflexivity. }
    reflexivity.
Qed.

Lemma groupby_sum_frame_done l d key val g (w : World F RS) :
  frames w !! l = Some d -> groupby_sum d key val = Ok g ->
  groupby_sum_frame l key val w = new_frame g w.
Proof.
  intros Hl Hg. unfold groupby_sum_frame.
  rewrite (bind_done _ _ _ _ _ (read_frame_done _ _ _ Hl)).
  by rewrite Hg, bind_lift_ok.
Qed.

Lemma px_figure_done l d cols fig (w : World F RS) :
  frames w !! l = Some d ->
  mapM (fun k => c ← getitem d k; mret (k, c)) cols = Ok fig ->
  px_figure l cols w = Done fig w.
Proof.
  intros Hl Hf. unfold px_figure.
  rewrite (bind_done _ _ _ _ _ (read_frame_done _ _ _ Hl)).
  by rewrite Hf.
Qed.

Lemma wp_groupby_sum_frame l d key val g (w : World F RS) Q :
  frames w !! l = Some d -> groupby_sum d key val = Ok g ->
  (forall l', frames w !! l' = None -> Q l' (store w l' g)) ->
  wp (groupby_sum_frame l key val) w Q.
Proof.
  intros Hl Hg HQ. unfold wp. rewrite (groupby_sum_frame_done _ _ _ _ _ _ Hl Hg).
  by apply wp_new_frame.
Qed.

Lemma wp_px_figure l d cols fig (w : World F RS) (Q : Figure -> World F RS -> Prop) :
  frames w !! l = Some d ->
  mapM (fun k => c ← getitem d k; mret (k, c)) cols = Ok fig ->
  Q fig w -> wp (px_figure l cols) w Q.
Proof. intros Hl Hf HQ. eapply wp_eq; [by eapply px_figure_done|done]. Qed.

(** Lines 85-105 on a frame of orders: the three grouped charts and the
    scatter plot, and the Month column left in the filtered frame. *)
Lemma visualizations_wp l labels (os : list (Order F)) (w : World F RS) :
  frames w !! l = Some (frame_of_orders labels os) ->
  length labels = length os ->
  wp (visualizations l) w (fun c w' =>
    frames w' !! l = Some (month_frame labels os)
    /\ fig_region c = two_columns "Region" StrCol (sums_by string_le Region os)
    /\ fig_category c = two_columns "Category" StrCol (sums_by string_le Category os)
    /\ fig_trend c = two_columns "Month" DateCol
                       (sums_by Z.le (fun o => Calendar.month_start (Date o)) os)).
Proof.
  intros Hl Hlen. unfold visualizations.
  apply wp_bind. eapply wp_groupby_sum_frame; [lookup_frame | reflexivity |]. intros l1 H1.
  apply wp_bind. eapply wp_px_figure; [lookup_frame | reflexivity |].
  apply wp_bind. eapply wp_groupby_sum_frame; [lookup_frame | reflexivity |]. intros l2 H2.
  apply wp_bind. eapply wp_px_figure; [lookup_frame | reflexivity |].
  apply wp_bind. eapply wp_df_getitem; [lookup_frame | reflexivity |].
  apply wp_bind. eapply wp_lift; [reflexivity|].
  apply wp_bind. eapply wp_df_setitem; [lookup_frame | |].
  { unfold setitem, nrows. simpl index.
    simpl col_len. rewrite !length_map, Hlen, Nat.eqb_refl. reflexivity. }
  apply wp_bind. eapply wp_groupby_sum_frame; [lookup_frame | reflexivity |]. intros l3 H3.
  apply wp_bind. eapply wp_px_figure; [lookup_frame | reflexivity |].
  apply wp_bind. eapply wp_px_figure; [lookup_frame | reflexivity |].
  apply wp_ret. split.
  - fresh_facts. rewrite !store_lookup_ne by congruence.
    rewrite store_lookup_eq. unfold month_frame. simpl. by rewrite ?map_map.
  - simpl. unfold two_columns, sums_by. by rewrite ?map_map.
Qed.

End Downstream.

Section Insights.
Context {F : Type} {FO : Float64 F} {FR : FloatRepr F}.
Context {RS : Type} {RNG : RandomState F RS}.

Lemma group_keys_elem {K} `{EqDecision K} (R : relation K) `{!RelDecision R} (ks : list K) k :
  k ∈ group_keys R ks <-> k ∈ ks.
Proof.
  unfold group_keys. rewrite merge_sort_Permutation. apply elem_of_remove_dups.
Qed.

Lemma group_keys_NoDup {K} `{EqDecision K} (R : relation K) `{!RelDecision R} (ks : list K) :
  NoDup (group_keys R ks).
Proof.
  unfold group_keys. rewrite merge_sort_Permutation. apply NoDup_remove_dups.
Qed.

Lemma sums_by_nonempty {K} `{EqDecision K} (R : relation K) `{!RelDecision R}
    (key : Order F -> K) (os : list (Order F)) :
  os <> [] -> sums_by R key os <> [].
Proof.
  intros Hos Hg. destruct os as [|o os]; [done|].
  assert (Hk : key o ∈ group_keys R (map key (o :: os))).
  { apply group_keys_elem. simpl. left. }
  unfold sums_by, group_sums in Hg. apply map_eq_nil in Hg.
  rewrite Hg in Hk. by apply not_elem_of_nil in Hk.
Qed.

Lemma idxmax_nonempty (g : list (string * F)) :
  g <> [] -> exists k, idxmax g = Ok k.
Proof. destruct g as [|[k v] g]; [done|]. intros _. simpl. eauto. Qed.

Lemma labelled_sums_done l labels (os : list (Order F)) (w : World F RS) (key : string)
    (field : Order F -> string) :
  frames w !! l = Some (month_frame labels os) ->
  getitem (month_frame labels os) key = Ok (StrCol (map field os)) ->
  labelled_sums l key "Sales" w = Done (sums_by string_le field os) w.
Proof.
  intros Hl Hk. unfold labelled_sums.
  rewrite (bind_done _ _ _ _ _ (read_frame_done _ _ _ Hl)).
  unfold groupby_sum. rewrite Hk.
  change (getitem (month_frame labels os) "Sales") with (Ok (FloatCol (map Sales os))).
  simpl. rewrite bind_lift_ok. simpl. unfold sums_by. by rewrite zip_fst_snd.
Qed.

(** Lines 121-128 on the filtered frame: the top sellers when there are
    orders, the message when there are none. *)
Lemma quick_insights_done l labels (os : list (Order F)) (w : World F RS) :
  frames w !! l = Some (month_frame labels os) ->
  exists i, quick_insights l (length os) w = Done i w
    /\ (os = [] -> i = NoOrders)
    /\ (os <> [] -> exists r c,
          idxmax (sums_by string_le Region os) = Ok r
          /\ idxmax (sums_by string_le Category os) = Ok c
          /\ i = TopSellers r c (fdiv (f_of_Z (zsum (map Quantity os)))
                                      (f_of_Z (Z.of_nat (length os))))).
Proof.
  intros Hl. unfold quick_insights. destruct os as [|o os'].
  - simpl. eexists. split; [reflexivity|]. split; [done|]. by intros [].
  - set (os := o :: os') in *.
    assert (Hne : os <> []) by done.
    destruct (idxmax_nonempty _ (sums_by_nonempty string_le Region os Hne)) as [r Hr].
    destruct (idxmax_nonempty _ (sums_by_nonempty string_le Category os Hne)) as [c Hc].
    change (0 <? length os)%nat with true. cbv iota.
    rewrite (bind_done _ _ _ _ _ (labelled_sums_done _ _ _ _ "Region" Region Hl eq_refl)).
    rewrite Hr, bind_lift_ok.
    rewrite (bind_done _ _ _ _ _ (labelled_sums_done _ _ _ _ "Category" Category Hl eq_refl)).
    rewrite Hc, bind_lift_ok.
    rewrite (bind_done _ _ _ _ _ (df_getitem_done _ _ "Quantity" _ _ Hl eq_refl)).
    simpl series_mean. rewrite bind_lift_ok. rewrite length_map.
    eexists. split; [reflexivity|]. split; [done|]. intros _. eauto.
Qed.

Lemma table_and_download_wp l labels (os : list (Order F)) (w : World F RS) :
  frames w !! l = Some (month_frame labels os) ->
  wp (table_and_download l) w (fun td w' =>
    frames w' !! l = Some (month_frame labels os)
    /\ sort_values (month_frame labels os) "Date" false = Ok (fst td)
    /\ snd td = to_csv (month_frame labels os)).
Proof.
  intros Hl. unfold table_and_download.
  apply wp_bind. eapply wp_read_frame; [lookup_frame|].
  apply wp_bind. eapply wp_lift; [reflexivity|].
  apply wp_bind. apply wp_new_frame. intros l1 H1.
  apply wp_bind. eapply wp_read_frame; [lookup_frame|].
  apply wp_bind. eapply wp_read_frame; [lookup_frame|].
  apply wp_ret. split; [lookup_frame|]. split; reflexivity.
Qed.

End Insights.

Section Render.
Context {F : Type} {FO : Float64 F} {FR : FloatRepr F}.
Context {RS : Type} {RNG : RandomState F RS}.

Lemma select_same_length {A B} mask (xs : list A) (ys : list B) :
  length xs = length ys -> length (select mask xs) = length (select mask ys).
Proof.
  revert xs ys. induction mask as [|b mask IH]; intros [|x xs] [|y ys]; simpl; try done.
  intros [= E]. destruct b; simpl; auto.
Qed.

Lemma selected_labels_length sel first last (labels : list Z) (os : list (Order F)) :
  length labels = length os ->
  length (select (selection_mask sel first last os) labels)
  = length (spec_filter (selected_regions sel) (selected_categories sel) first last os).
Proof.
  intros Hlen. rewrite (select_same_length _ labels os Hlen).
  unfold selection_mask, spec_filter. by rewrite select_filter.
Qed.

Lemma wp_apply_filters df labels (os : list (Order F)) sel first last rest (w : World F RS) Q :
  frames w !! df = Some (frame_of_orders labels os) ->
  length labels = length os ->
  date_range sel = first :: last :: rest ->
  (forall l, frames w !! l = None ->
     Q l (store w l (frame_of_orders
                       (select (selection_mask sel first last os) labels)
                       (spec_filter (selected_regions sel) (selected_categories sel) first last os)))) ->
  wp (apply_filters df sel) w Q.
Proof.
  intros Hdf Hlen Hdr HQ. unfold wp.
  rewrite (apply_filters_done _ _ _ _ _ _ _ _ Hdf Hlen Hdr).
  by apply wp_new_frame.
Qed.

(** The page for a selection whose tuple holds both dates, on a frame of
    orders: every step completes, and the page is made of the filtered
    orders [os']. *)
Lemma render_wp df labels (os : list (Order F)) sel first last rest (w : World F RS) :
  frames w !! df = Some (frame_of_orders labels os) ->
  length labels = length os ->
  date_range sel = first :: last :: rest ->
  let os' := spec_filter (selected_regions sel) (selected_categories sel) first last os in
  let labels' := select (selection_mask sel first last os) labels in
  wp (render df sel) w (fun page w' =>
    metrics page
    = {| total_sales := fsum (map Sales os');
         total_profit := fsum (map Profit os');
         total_orders := length os';
         avg_order_value :=
           if Nat.eqb (length os') 0 then f_of_Z 0
           else fdiv (fsum (map Sales os')) (f_of_Z (Z.of_nat (length os'))) |}
    /\ fig_region (charts page) = two_columns "Region" StrCol (sums_by string_le Region os')
    /\ fig_category (charts page) = two_columns "Category" StrCol (sums_by string_le Category os')
    /\ fig_trend (charts page)
       = two_columns "Month" DateCol (sums_by Z.le (fun o => Calendar.month_start (Date o)) os')
    /\ sort_values (month_frame labels' os') "Date" false = Ok (table page)
    /\ csv_data page = to_csv (month_frame labels' os')
    /\ (os' = [] -> insights page = NoOrders)
    /\ (os' <> [] -> exists r c q, insights page = TopSellers r c q)).
Proof.
  intros Hdf Hlen Hdr os' labels'.
  assert (Hlen' : length labels' = length os') by by apply selected_labels_length.
  unfold render.
  apply wp_bind. eapply wp_apply_filters; [done..|]. intros l Hfresh.
  fold os' labels'.
  assert (Hl : frames (store w l (frame_of_orders labels' os')) !! l
               = Some (frame_of_orders labels' os')) by apply store_lookup_eq.
  apply wp_bind. eapply wp_eq; [by eapply key_metrics_done|].
  apply wp_bind. eapply wp_mono; [by apply visualizations_wp|].
  intros c w2 (Hl2 & Hr & Hc & Ht). simpl in Hl2.
  apply wp_bind. eapply wp_mono; [by apply table_and_download_wp|].
  intros td w3 (Hl3 & Hsort & Hcsv). simpl in Hl3.
  destruct (quick_insights_done l labels' os' w3 Hl3) as (i & Hi & Hnil & Hcons).
  apply wp_bind. eapply wp_eq.
  { simpl total_orders. unfold nrows. simpl index. rewrite Hlen'. exact Hi. }
  apply wp_ret. simpl.
  unfold nrows. simpl index. rewrite Hlen', !length_map.
  repeat split; try done.
  intros Hne. destruct (Hcons Hne) as (r & c' & _ & _ & ->). eauto.
Qed.

End Render.

(** * Generation *)

Lemma lookup_map {A B} (f : A -> B) (l : list A) i : map f l !! i = f <$> (l !! i).
Proof. apply (list_lookup_fmap f l i). Qed.

Section ListLookup.
Context {A : Type}.

Lemma nth_lookup_default (l : list A) i d x : l !! i = Some x -> nth i l d = x.
Proof. intros H. by rewrite nth_lookup, H. Qed.

Lemma map_nth_seq (l : list A) d n :
  n = length l -> map (fun i => nth i l d) (seq 0 n) = l.
Proof.
  intros ->. apply list_eq. intros i. rewrite lookup_map.
  destruct (l !! i) as [x|] eqn:E.
  - rewrite lookup_seq_lt by (by eapply lookup_lt_Some). simpl.
    by rewrite (nth_lookup_default _ _ _ _ E).
  - apply lookup_ge_None in E. by rewrite lookup_seq_ge.
Qed.

End ListLookup.

Section Generation.
Context {F : Type} {FO : Float64 F} {FR : FloatRepr F}.
Context {RS : Type} {RNG : RandomState F RS}.

Lemma wp_draw {A} (f : RS -> A * RS) w (Q : A -> World F RS -> Prop) :
  (forall a s, f (np_random w) = (a, s) -> Q a (with_rng w s)) -> wp (draw f) w Q.
Proof.
  intros HQ. unfold wp, draw. destruct (f (np_random w)) as [a s] eqn:E. by apply HQ.
Qed.

Lemma seed_argument_range py : 0 <= seed_argument py < 10000.
Proof. unfold seed_argument, PyRuntime.pymod. by apply Z.mod_pos_bound. Qed.

Lemma wp_np_random_seed n w (Q : unit -> World F RS -> Prop) :
  0 <= n < 2 ^ 32 -> Q tt (with_rng w (rs_seed n)) -> wp (np_random_seed n) w Q.
Proof.
  intros [H0 H1] HQ. unfold wp, np_random_seed.
  apply Z.leb_le in H0. apply Z.ltb_lt in H1. by rewrite H0, H1.
Qed.

Lemma orders_of_columns_frame idx ids dates region category quantity
    (price sales profit margin : list F) :
  length dates = length ids -> length region = length ids ->
  length category = length ids -> length quantity = length ids ->
  length price = length ids -> length sales = length ids ->
  length profit = length ids -> length margin = length ids ->
  frame_of_orders idx
    (orders_of_columns ids dates region category quantity price sales profit margin)
  = {| index := idx;
       columns := [("OrderID", IntCol ids); ("Date", DateCol dates);
                   ("Region", StrCol region); ("Category", StrCol category);
                   ("Quantity", IntCol quantity); ("UnitPrice", FloatCol price);
                   ("Sales", FloatCol sales); ("Profit", FloatCol profit);
                   ("ProfitMargin", FloatCol margin)] |}.
Proof.
  intros. unfold frame_of_orders, orders_of_columns.
  rewrite !map_map. simpl.
  by rewrite !map_nth_seq.
Qed.

End Generation.

Section Derive.
Context {F : Type} {FO : Float64 F} {FR : FloatRepr F}.
Context {RS : Type} {RNG : RandomState F RS}.

Lemma series_mul_int_float (xs : list Z) (ys : list F) :
  length xs = length ys ->
  series_mul (IntCol xs) (FloatCol ys)
  = Ok (FloatCol (zip_with (fun x y => fmul (f_of_Z x) y) xs ys)).
Proof. intros E. unfold series_mul. simpl. by rewrite E, Nat.eqb_refl. Qed.

Lemma series_mul_float_float (xs ys : list F) :
  length xs = length ys ->
  series_mul (FloatCol xs) (FloatCol ys) = Ok (FloatCol (zip_with fmul xs ys)).
Proof. intros E. unfold series_mul. simpl. by rewrite E, Nat.eqb_refl. Qed.

Lemma series_div_float_float (xs ys : list F) :
  length xs = length ys ->
  series_div (FloatCol xs) (FloatCol ys) = Ok (FloatCol (zip_with fdiv xs ys)).
Proof. intros E. unfold series_div. simpl. by rewrite E, Nat.eqb_refl. Qed.

Lemma setitem_ok (d : DataFrame F) key c :
  col_len c = nrows d ->
  setitem d key c = Ok {| index := index d; columns := assoc_set key c (columns d) |}.
Proof. intros E. unfold setitem. by rewrite E, Nat.eqb_refl. Qed.

(** Lines 40-45 on the raw frame. *)
Lemma derive_fields_wp df idx ids dates region category quantity price (w : World F RS) :
  frames w !! df = Some {| index := idx;
                           columns := raw_columns ids dates region category quantity price |} ->
  length idx = num_orders -> length category = num_orders ->
  length quantity = num_orders -> length price = num_orders ->
  (forall lo hi n s, length (fst (rs_uniform lo hi n s)) = n) ->
  wp (derive_fields df) w (fun _ w' =>
    exists jitter s,
      rs_uniform (f_dec 9 (-1)) (f_dec 11 (-1)) num_orders (np_random w) = (jitter, s)
      /\ let sales := sales_column quantity price in
         let profit := profit_column sales category jitter in
         frames w' !! df
         = Some {| index := idx;
                   columns := raw_columns ids dates region category quantity price
                              ++ [("Sales", FloatCol sales); ("Profit", FloatCol profit);
                                  ("ProfitMargin", FloatCol (margin_column profit sales))] |}).
Proof.
  intros Hdf Hidx Hcat Hq Hp Hulen. unfold derive_fields.
  apply wp_bind. eapply wp_df_getitem; [lookup_frame | reflexivity |].
  apply wp_bind. eapply wp_df_getitem; [lookup_frame | reflexivity |].
  apply wp_bind. eapply wp_lift.
  { rewrite series_mul_int_float by congruence. reflexivity. }
  fold (sales_column quantity price). set (sales := sales_column quantity price).
  assert (Hs : length sales = num_orders).
  { unfold sales, sales_column. rewrite length_map, length_zip_with. lia. }
  apply wp_bind. eapply wp_df_setitem; [lookup_frame | |].
  { apply setitem_ok. unfold nrows. simpl. congruence. }
  simpl assoc_set.
  apply wp_bind. eapply wp_df_getitem; [lookup_frame | reflexivity |].
  apply wp_bind. eapply wp_df_getitem; [lookup_frame | reflexivity |].
  apply wp_bind. eapply wp_lift; [reflexivity|].
  apply wp_bind. eapply wp_lift.
  { apply series_mul_float_float. rewrite length_map. congruence. }
  apply wp_bind. apply wp_draw. intros jitter s Hj.
  assert (Hjl : length jitter = num_orders).
  { specialize (Hulen (f_dec 9 (-1)) (f_dec 11 (-1)) num_orders (np_random (store w df
      {| index := idx; columns := raw_columns ids dates region category quantity price
                                   ++ [("Sales", FloatCol sales)] |}))).
    simpl in Hulen. simpl in Hj. by rewrite Hj in Hulen. }
  apply wp_bind. eapply wp_lift.
  { rewrite series_mul_float_float; [reflexivity|].
    rewrite length_zip_with, length_map. lia. }
  fold (profit_column sales category jitter). set (profit := profit_column sales category jitter).
  assert (Hpl : length profit = num_orders).
  { unfold profit, profit_column. rewrite length_map, !length_zip_with, length_map. lia. }
  apply wp_bind. eapply wp_df_setitem; [unfold with_rng; simpl; apply lookup_insert_eq | |].
  { apply setitem_ok. unfold nrows. simpl. congruence. }
  simpl assoc_set.
  apply wp_bind. eapply wp_df_getitem; [lookup_frame | reflexivity |].
  apply wp_bind. eapply wp_df_getitem; [lookup_frame | reflexivity |].
  apply wp_bind. eapply wp_lift.
  { rewrite series_div_float_float by congruence. reflexivity. }
  fold (margin_column profit sales).
  eapply wp_df_setitem; [lookup_frame | |].
  { apply setitem_ok. unfold nrows. simpl. unfold margin_column.
    rewrite !length_map, length_zip_with. lia. }
  exists jitter, s. split; [exact Hj|]. simpl. by rewrite lookup_insert_eq.
Qed.

End Derive.

Section Generate.
Context {F : Type} {FO : Float64 F} {FR : FloatRepr F}.
Context {RS : Type} {RNG : RandomState F RS}.

Lemma frame_of_dict_raw n ids dates region category quantity (price : list F) :
  length ids = n -> length dates = n -> length region = n -> length category = n ->
  length quantity = n -> length price = n ->
  frame_of_dict (raw_columns ids dates region category quantity price)
  = Ok {| index := RangeIndex n;
          columns := raw_columns ids dates region category quantity price |}.
Proof.
  intros <- H1 H2 H3 H4 H5. unfold frame_of_dict, raw_columns. simpl.
  by rewrite H1, H2, H3, H4, H5, Nat.eqb_refl.
Qed.

Lemma py_range_length a n : length (py_range a (a + Z.of_nat n)) = n.
Proof.
  unfold py_range. rewrite length_map, length_seq.
  replace (a + Z.of_nat n - a) with (Z.of_nat n) by lia. apply Nat2Z.id.
Qed.

Lemma date_range_7D_length start n : length (date_range_7D start n) = n.
Proof. unfold date_range_7D. by rewrite length_map, length_seq. Qed.

Lemma RangeIndex_length n : length (RangeIndex n) = n.
Proof. unfold RangeIndex. by rewrite length_map, length_seq. Qed.

(** Lines 18-45: the run completes, and [df] holds the generated orders. *)
Lemma generate_data_wp (Hrng : RandomStateSpec RNG) py (w : World F RS) :
  wp (generate_data py) w (fun df w' =>
    exists region category quantity price jitter,
      draws (seed_argument py) = (region, category, quantity, price, jitter)
      /\ frames w' !! df
         = Some (frame_of_orders (RangeIndex num_orders)
                   (generated_orders region category quantity price jitter))).
Proof.
  unfold generate_data, generate_raw.
  apply wp_bind. apply wp_bind.
  apply wp_np_random_seed.
  { pose proof (seed_argument_range py). lia. }
  apply wp_bind. apply wp_draw. intros region s1 E1.
  apply wp_bind. apply wp_draw. intros category s2 E2.
  apply wp_bind. apply wp_draw. intros quantity s3 E3.
  apply wp_bind. apply wp_draw. intros price s4 E4.
  simpl in E1, E2, E3, E4.
  assert (Hr : length region = num_orders).
  { pose proof (choice_length regions num_orders (rs_seed (seed_argument py))) as H.
    by rewrite E1 in H. }
  assert (Hc : length category = num_orders).
  { pose proof (choice_length categories num_orders s1) as H. by rewrite E2 in H. }
  assert (Hq : length quantity = num_orders).
  { pose proof (randint_length 1 6 num_orders s2) as H. by rewrite E3 in H. }
  assert (Hp : length price = num_orders).
  { pose proof (uniform_length (f_of_Z 50) (f_of_Z 1000) num_orders s3) as H.
    by rewrite E4 in H. }
  apply wp_bind. eapply wp_lift.
  { apply (frame_of_dict_raw num_orders); rewrite ?length_map;
      auto using py_range_length, date_range_7D_length. }
  apply wp_new_frame. intros df Hfresh.
  apply wp_bind. eapply wp_mono.
  { eapply derive_fields_wp; [lookup_frame | apply RangeIndex_length | done
                             | done | by rewrite length_map | apply uniform_length]. }
  intros _ w' (jitter & s5 & E5 & Hdf). simpl in E5.
  assert (Hj : length jitter = num_orders).
  { pose proof (uniform_length (f_dec 9 (-1)) (f_dec 11 (-1)) num_orders s4) as H.
    by rewrite E5 in H. }
  apply wp_ret. exists region, category, quantity, price, jitter. split.
  - unfold draws. by rewrite E1, E2, E3, E4, E5.
  - rewrite Hdf. f_equal. unfold generated_orders.
    rewrite orders_of_columns_frame; [reflexivity|..];
      unfold margin_column, profit_column, sales_column;
      repeat first [rewrite length_map | rewrite length_zip_with];
      rewrite ?py_range_length, ?date_range_7D_length; lia.
Qed.

End Generate.

Section Rows.
Context {F : Type} {FO : Float64 F} {FR : FloatRepr F}.
Context {RS : Type} {RNG : RandomState F RS}.

Lemma draws_spec (Hrng : RandomStateSpec RNG) seed region category quantity price jitter :
  draws seed = (region, category, quantity, price, jitter) ->
  (length region = num_orders /\ length category = num_orders
   /\ length quantity = num_orders /\ length price = num_orders
   /\ length jitter = num_orders)
  /\ (forall x, x ∈ region -> x ∈ regions)
  /\ (forall x, x ∈ category -> x ∈ categories)
  /\ (forall x, x ∈ quantity -> 1 <= x < 6)
  /\ (fle (f_of_Z 50) (f_of_Z 1000) ->
      forall x, x ∈ price -> fle (f_of_Z 50) x /\ fle x (f_of_Z 1000))
  /\ (fle (f_dec 9 (-1)) (f_dec 11 (-1)) ->
      forall x, x ∈ jitter -> fle (f_dec 9 (-1)) x /\ fle x (f_dec 11 (-1))).
Proof.
  unfold draws.
  pose proof (choice_length regions num_orders (rs_seed seed)) as L1.
  pose proof (choice_elem regions num_orders (rs_seed seed)) as R1.
  destruct (rs_choice regions num_orders (rs_seed seed)) as [r s1].
  pose proof (choice_length categories num_orders s1) as L2.
  pose proof (choice_elem categories num_orders s1) as R2.
  destruct (rs_choice categories num_orders s1) as [c s2].
  pose proof (randint_length 1 6 num_orders s2) as L3.
  pose proof (randint_range 1 6 num_orders s2) as R3.
  destruct (rs_randint 1 6 num_orders s2) as [q s3].
  pose proof (uniform_length (f_of_Z 50) (f_of_Z 1000) num_orders s3) as L4.
  pose proof (uniform_range (f_of_Z 50) (f_of_Z 1000) num_orders s3) as R4.
  destruct (rs_uniform (f_of_Z 50) (f_of_Z 1000) num_orders s3) as [p s4].
  pose proof (uniform_length (f_dec 9 (-1)) (f_dec 11 (-1)) num_orders s4) as L5.
  pose proof (uniform_range (f_dec 9 (-1)) (f_dec 11 (-1)) num_orders s4) as R5.
  destruct (rs_uniform (f_dec 9 (-1)) (f_dec 11 (-1)) num_orders s4) as [j s5].
  simpl in *. intros [= <- <- <- <- <-].
  split; [done|]. split; [intros x; by apply R1|]. split; [intros x; by apply R2|].
  split; [intros x; by apply R3|]. split; intros Hle x Hx; eauto.
Qed.

Lemma generated_orders_length region category quantity (price jitter : list F) :
  length (generated_orders region category quantity price jitter) = num_orders.
Proof.
  unfold generated_orders, orders_of_columns.
  by rewrite length_map, length_seq, py_range_length.
Qed.

(** Row [i] of the generated table, from the [i]-th draws. *)
Lemma generated_orders_row region category quantity (price jitter : list F) i o :
  length region = num_orders -> length category = num_orders ->
  length quantity = num_orders -> length price = num_orders ->
  length jitter = num_orders ->
  generated_orders region category quantity price jitter !! i = Some o ->
  exists r c q p j,
    region !! i = Some r /\ category !! i = Some c /\ quantity !! i = Some q
    /\ price !! i = Some p /\ jitter !! i = Some j
    /\ OrderID o = 3001 + Z.of_nat i
    /\ Date o = start_date + 7 * Z.of_nat i
    /\ Region o = r /\ Category o = c /\ Quantity o = q
    /\ UnitPrice o = fround 2 p
    /\ Sales o = fround 2 (fmul (f_of_Z q) (fround 2 p))
    /\ Profit o = fround 2 (fmul (fmul (Sales o) (default f_nan (dict_get c profit_map))) j)
    /\ ProfitMargin o = fround 2 (fmul (fdiv (Profit o) (Sales o)) (f_of_Z 100)).
Proof.
  intros Hr Hc Hq Hp Hj Ho.
  unfold generated_orders, orders_of_columns in Ho.
  rewrite lookup_map in Ho. rewrite py_range_length in Ho.
  apply fmap_Some in Ho as (i' & Ei & ->).
  apply lookup_seq in Ei as [-> Hi]. rewrite Nat.add_0_l.
  destruct (lookup_lt_is_Some_2 region i) as [r Er]; [lia|].
  destruct (lookup_lt_is_Some_2 category i) as [c Ec]; [lia|].
  destruct (lookup_lt_is_Some_2 quantity i) as [q Eq]; [lia|].
  destruct (lookup_lt_is_Some_2 price i) as [p Ep]; [lia|].
  destruct (lookup_lt_is_Some_2 jitter i) as [j Ej]; [lia|].
  exists r, c, q, p, j.
  cbn [OrderID Date Region Category Quantity UnitPrice Sales Profit ProfitMargin].
  assert (Eu : map (fround 2) price !! i = Some (fround 2 p))
    by (by rewrite lookup_map, Ep).
  assert (Es : sales_column quantity (map (fround 2) price) !! i
               = Some (fround 2 (fmul (f_of_Z q) (fround 2 p)))).
  { unfold sales_column. rewrite lookup_map, lookup_zip_with, Eq. simpl. by rewrite Eu. }
  assert (Epr : profit_column (sales_column quantity (map (fround 2) price)) category jitter !! i
                = Some (fround 2 (fmul (fmul (fround 2 (fmul (f_of_Z q) (fround 2 p)))
                                             (default f_nan (dict_get c profit_map))) j))).
  { unfold profit_column. rewrite lookup_map, !lookup_zip_with, Es. simpl.
    rewrite lookup_map, Ec. simpl. by rewrite Ej. }
  repeat split; try done.
  - apply nth_lookup_default. unfold py_range. rewrite lookup_map.
    rewrite lookup_seq_lt; [done|].
    replace (3001 + Z.of_nat num_orders - 3001) with (Z.of_nat num_orders) by lia.
    by rewrite Nat2Z.id.
  - apply nth_lookup_default. unfold date_range_7D. rewrite lookup_map.
    by rewrite lookup_seq_lt.
  - by apply nth_lookup_default.
  - by apply nth_lookup_default.
  - by apply nth_lookup_default.
  - by apply nth_lookup_default.
  - by apply nth_lookup_default.
  - rewrite (nth_lookup_default _ _ _ _ Epr). by rewrite (nth_lookup_default _ _ _ _ Es).
  - apply nth_lookup_default. unfold margin_column.
    rewrite !lookup_map, lookup_zip_with, Epr. simpl. rewrite Es. simpl.
    by rewrite (nth_lookup_default _ _ _ _ Epr), (nth_lookup_default _ _ _ _ Es).
Qed.

End Rows.

(** * Grouped sums partition the total *)

Section Partition.
Context {F : Type} {FO : Float64 F}.
Context {EA : ExactAddition (F:=F)}.

Lemma foldl_fadd (a : F) (xs : list F) : foldl fadd a xs = fadd a (fsum xs).
Proof.
  unfold fsum. revert a. induction xs as [|x xs IH]; intros a; simpl.
  - by rewrite fadd_comm, fadd_zero.
  - rewrite (IH (fadd a x)), (IH (fadd (f_of_Z 0) x)), fadd_zero. by rewrite fadd_assoc.
Qed.

Lemma fsum_nil : fsum (F:=F) [] = f_of_Z 0.
Proof. reflexivity. Qed.

Lemma fsum_cons (x : F) (xs : list F) : fsum (x :: xs) = fadd x (fsum xs).
Proof. unfold fsum at 1. simpl. by rewrite foldl_fadd, fadd_zero. Qed.

Context {K : Type} `{EqDecision K}.

Lemma sum_in_nil (keys : list K) (vals : list F) : sum_in [] keys vals = f_of_Z 0.
Proof.
  unfold sum_in. revert vals. induction keys as [|k keys IH]; intros [|v vals]; simpl; try done.
Qed.

Lemma sum_in_cons g G (keys : list K) (vals : list F) :
  g ∉ G -> sum_in (g :: G) keys vals = fadd (sum_at g keys vals) (sum_in G keys vals).
Proof.
  intros Hg. unfold sum_in, sum_at.
  revert vals. induction keys as [|k keys IH]; intros [|v vals]; simpl;
    try (by rewrite fsum_nil, fadd_zero).
  destruct (decide (k = g)) as [->|Hk].
  - rewrite (bool_decide_eq_true_2 (g ∈ g :: G)) by left.
    rewrite (bool_decide_eq_true_2 (g = g)) by done.
    rewrite (bool_decide_eq_false_2 (g ∈ G)) by done.
    rewrite !fsum_cons, IH. by rewrite fadd_assoc.
  - rewrite (bool_decide_eq_false_2 (k = g)) by done.
    destruct (decide (k ∈ G)) as [Hin|Hin].
    + rewrite (bool_decide_eq_true_2 (k ∈ g :: G)) by (by right).
      rewrite (bool_decide_eq_true_2 (k ∈ G)) by done.
      rewrite !fsum_cons, IH.
      rewrite !fadd_assoc. f_equal. apply fadd_comm.
    + rewrite (bool_decide_eq_false_2 (k ∈ g :: G)).
      2:{ intros [->|?]%elem_of_cons; done. }
      rewrite (bool_decide_eq_false_2 (k ∈ G)) by done. apply IH.
Qed.

Lemma sum_over_groups G (keys : list K) (vals : list F) :
  NoDup G -> fsum (map (fun g => sum_at g keys vals) G) = sum_in G keys vals.
Proof.
  induction 1 as [|g G Hg HG IH]; simpl.
  - by rewrite sum_in_nil.
  - by rewrite fsum_cons, IH, sum_in_cons.
Qed.

Lemma sum_in_all G (keys : list K) (vals : list F) :
  (forall k, k ∈ keys -> k ∈ G) -> length keys = length vals ->
  sum_in G keys vals = fsum vals.
Proof.
  unfold sum_in. revert vals. induction keys as [|k keys IH]; intros [|v vals]; simpl; try done.
  intros Hall [= Hlen].
  rewrite bool_decide_eq_true_2 by (apply Hall; left).
  rewrite !fsum_cons, IH; [done| |done]. intros k' Hk'. apply Hall. by right.
Qed.

(** In exact arithmetic the per-group sums add up to the sum of all
    values. *)
Lemma group_sums_total (R : relation K) `{!RelDecision R} (keys : list K) (vals : list F) :
  length keys = length vals ->
  fsum (map snd (group_sums R keys vals)) = fsum vals.
Proof.
  intros Hlen. unfold group_sums. rewrite map_map. simpl.
  change (fsum (map (fun g => sum_at g keys vals) (group_keys R keys)) = fsum vals).
  rewrite sum_over_groups by apply group_keys_NoDup.
  apply sum_in_all; [|done]. intros k Hk. by apply group_keys_elem.
Qed.

End Partition.

(** * The exact arithmetic and the counter generator meet the assumptions *)

Section ExactLaws.

Lemma exact_addition : ExactAddition (F:=Qc).
Proof.
  split.
  - intros x y z. apply Qcplus_assoc.
  - intros x y. apply Qcplus_comm.
  - intros x. apply Qcplus_0_l.
Qed.

(** [rintQ q] is within one half of [q]; at one half it is even. *)
Lemma rintQ_spec (q : Q) :
  let R := Exact.rintQ q in
  let n := Qnum q in
  let d := Z.pos (Qden q) in
  (2 * R - 1) * d <= 2 * n <= (2 * R + 1) * d
  /\ (2 * n = (2 * R - 1) * d -> Z.even R = true)
  /\ (2 * n = (2 * R + 1) * d -> Z.even R = true).
Proof.
  intros R n d. subst R. unfold Exact.rintQ. fold n d.
  assert (Hd : 0 < d) by (unfold d; lia).
  pose proof (Z.div_mod n d ltac:(lia)) as Hdm.
  pose proof (Z.mod_pos_bound n d Hd) as Hr.
  set (f := n / d) in *. set (r := n mod d) in *.
  destruct (Z.ltb_spec (2 * r) d) as [H1|H1].
  - repeat split; nia.
  - destruct (Z.ltb_spec d (2 * r)) as [H2|H2].
    + repeat split; nia.
    + assert (2 * r = d) by lia.
      destruct (Z.even f) eqn:Ef.
      * repeat split; try nia; intros _; exact Ef.
      * repeat split; try nia; intros _; rewrite Z.even_add, Ef; reflexivity.
Qed.

Lemma rintQ_monotone (p q : Q) : (p <= q)%Q -> Exact.rintQ p <= Exact.rintQ q.
Proof.
  intros Hle. unfold Qle in Hle.
  destruct (rintQ_spec p) as ((Hp1 & Hp2) & Hpe1 & Hpe2).
  destruct (rintQ_spec q) as ((Hq1 & Hq2) & Hqe1 & Hqe2).
  set (R1 := Exact.rintQ p) in *. set (R2 := Exact.rintQ q) in *.
  set (n1 := Qnum p) in *. set (n2 := Qnum q) in *.
  set (d1 := Z.pos (Qden p)) in *. set (d2 := Z.pos (Qden q)) in *.
  assert (Hd1 : 0 < d1) by (unfold d1; lia).
  assert (Hd2 : 0 < d2) by (unfold d2; lia).
  destruct (Z.le_gt_cases R1 R2) as [|Hgt]; [done|exfalso].
  assert (H1 : (2 * R1 - 1) * d1 * d2 <= 2 * n1 * d2) by nia.
  assert (H2 : 2 * n2 * d1 <= (2 * R2 + 1) * d2 * d1) by nia.
  assert (H3 : 2 * n1 * d2 <= 2 * n2 * d1) by nia.
  assert (H4 : (2 * R1 - 1) * (d1 * d2) <= (2 * R2 + 1) * (d1 * d2)) by nia.
  assert (Hdd : 0 < d1 * d2) by nia.
  assert (HR : R1 = R2 + 1) by nia.
  assert (E1 : 2 * n1 = (2 * R1 - 1) * d1) by nia.
  assert (E2 : 2 * n2 = (2 * R2 + 1) * d2) by nia.
  specialize (Hpe1 E1). specialize (Hqe2 E2).
  rewrite HR, Z.even_add, Hqe2 in Hpe1. discriminate.
Qed.

Lemma Q2Qc_le (p q : Q) : (p <= q)%Q -> (Q2Qc p <= Q2Qc q)%Qc.
Proof. intros H. unfold Qcle. simpl. by rewrite !Qred_correct. Qed.

Lemma exact_fle (x y : Qc) : fle x y <-> (x <= y)%Qc.
Proof. unfold fle. simpl. apply Qle_bool_iff. Qed.

Lemma exact_round_monotone d (x y : Qc) :
  (0 <= Exact.pow10 d)%Qc -> (0 <= Exact.pow10 (- d))%Qc ->
  (x <= y)%Qc -> (Exact.round d x <= Exact.round d y)%Qc.
Proof.
  intros Hp Hn Hxy. unfold Exact.round.
  apply Qcmult_le_compat_r; [|done].
  apply Q2Qc_le. rewrite <- Zle_Qle. apply rintQ_monotone.
  by apply (Qcmult_le_compat_r x y (Exact.pow10 d)).
Qed.

Lemma exact_rounding : RoundingLaws (F:=Qc).
Proof.
  split.
  - intros x y Hxy. apply exact_fle. apply exact_fle in Hxy.
    apply exact_round_monotone; [by vm_compute | by vm_compute | done].
  - apply Qc_is_canon. by vm_compute.
  - apply Qc_is_canon. by vm_compute.
  - by vm_compute.
Qed.

Lemma exact_fle_refl (x : Qc) : fle x x.
Proof. apply exact_fle. apply Qcle_refl. Qed.

Lemma cycle_spec : RandomStateSpec (cycle (F:=Qc)).
Proof.
  split; simpl.
  - intros a n s. unfold cycle_choice. by rewrite length_map, length_seq.
  - intros a n s x Ha Hx. unfold cycle_choice in Hx.
    apply list_elem_of_In, in_map_iff in Hx as (i & <- & _).
    apply list_elem_of_In, nth_In. apply Nat.mod_upper_bound.
    by destruct a.
  - intros lo hi n s. unfold cycle_randint. by rewrite length_map, length_seq.
  - intros lo hi n s x Hlh Hx. unfold cycle_randint in Hx.
    apply list_elem_of_In, in_map_iff in Hx as (i & <- & _).
    pose proof (Z.mod_pos_bound (Z.of_nat (s + i)) (hi - lo) ltac:(lia)). lia.
  - intros lo hi n s. unfold cycle_uniform. by rewrite length_map, length_seq.
  - intros lo hi n s x Hlh Hx. unfold cycle_uniform in Hx.
    apply list_elem_of_In, in_map_iff in Hx as (i & <- & _).
    destruct (Nat.even (s + i)); split; auto using exact_fle_refl.
Qed.

End ExactLaws.

(** * The claims *)

Section Claims.
Context {F : Type} {FO : Float64 F} {FR : FloatRepr F}.
Context {RS : Type} {RNG : RandomState F RS}.

(** C2. For every dataset and every selection with both dates, the filter
    step completes and the new frame holds exactly the orders with Region
    among the selected regions, Category among the selected categories and
    first <= Date <= last, in the order of the dataset; with no region or no
    category selected it holds no order. *)
Theorem filter_engine_contract df labels (os : list (Order F)) sel first last (w : World F RS) :
  frames w !! df = Some (frame_of_orders labels os) ->
  length labels = length os ->
  date_range sel = [first; last] ->
  let os' := spec_filter (selected_regions sel) (selected_categories sel) first last os in
  exists filtered_df w' labels',
    apply_filters df sel w = Done filtered_df w'
    /\ frames w' !! filtered_df = Some (frame_of_orders labels' os')
    /\ (forall o, o ∈ os' <->
          o ∈ os /\ Region o ∈ selected_regions sel
          /\ Category o ∈ selected_categories sel /\ first <= Date o <= last)
    /\ sublist os' os /\ sublist labels' labels
    /\ (selected_regions sel = [] -> os' = [])
    /\ (selected_categories sel = [] -> os' = []).
Proof.
  intros Hdf Hlen Hdr os'.
  eexists _, _, (select (selection_mask sel first last os) labels).
  split; [by eapply apply_filters_done|].
  split; [apply lookup_insert_eq|].
  split. { intros o. unfold os', spec_filter. rewrite list_elem_of_filter. unfold selected. tauto. }
  split. { apply sublist_filter. }
  split. { clear. generalize (selection_mask sel first last os).
           induction labels as [|x xs IH]; intros [|b m]; simpl; try done.
           - apply sublist_nil_l.
           - destruct b; [by apply sublist_skip|by apply sublist_cons]. }
  split; intros E; unfold os', spec_filter; apply filter_none;
    intros o _ (H1 & H2 & _); rewrite E in *; by eapply not_elem_of_nil.
Qed.

End Claims.

Section MoreClaims.
Context {F : Type} {FO : Float64 F} {FR : FloatRepr F}.
Context {RS : Type} {RNG : RandomState F RS}.

Lemma select_nil_of_filter sel first last (labels : list Z) (os : list (Order F)) :
  length labels = length os ->
  spec_filter (selected_regions sel) (selected_categories sel) first last os = [] ->
  select (selection_mask sel first last os) labels = [].
Proof.
  intros Hlen Hnil. apply length_zero_iff_nil.
  rewrite selected_labels_length by done. by rewrite Hnil.
Qed.

(** C7. For every dataset and every selection whose interval has
    start > end, the filter step completes without an exception and the new
    frame has no rows. *)
Theorem inverted_interval_is_empty df labels (os : list (Order F)) sel first last (w : World F RS) :
  frames w !! df = Some (frame_of_orders labels os) ->
  length labels = length os ->
  date_range sel = [first; last] ->
  last < first ->
  exists filtered_df w' d,
    apply_filters df sel w = Done filtered_df w'
    /\ frames w' !! filtered_df = Some d
    /\ nrows d = 0%nat
    /\ d = frame_of_orders [] [].
Proof.
  intros Hdf Hlen Hdr Hinv.
  assert (Hnil : spec_filter (selected_regions sel) (selected_categories sel) first last os = []).
  { apply filter_none. intros o _ (_ & _ & ?). lia. }
  eexists _, _, _. split; [by eapply apply_filters_done|].
  rewrite Hnil, (select_nil_of_filter _ _ _ _ _ Hlen Hnil).
  split; [apply lookup_insert_eq|done].
Qed.

(** C10. The filter step reads [date_range[0]] and [date_range[1]]: with
    exactly two dates both reads succeed and the step returns a filtered
    frame; with fewer than two dates the second read is out of range and the
    step stops with IndexError, creating no frame. *)
Theorem date_range_indexing df labels (os : list (Order F)) sel (w : World F RS) :
  frames w !! df = Some (frame_of_orders labels os) ->
  length labels = length os ->
  (length (date_range sel) = 2%nat ->
     (exists first last, tuple_get (date_range sel) 0 = Ok first
                         /\ tuple_get (date_range sel) 1 = Ok last)
     /\ exists filtered_df w' d,
          apply_filters df sel w = Done filtered_df w'
          /\ frames w' !! filtered_df = Some d)
  /\ ((length (date_range sel) < 2)%nat ->
        tuple_get (date_range sel) 1 = Raise IndexError
        /\ apply_filters df sel w = Failed IndexError w).
Proof.
  intros Hdf Hlen. split.
  - intros H2. destruct (date_range sel) as [|first [|last [|? ?]]] eqn:Hdr; try done.
    split; [by exists first, last|].
    eexists _, _, _. split; [by eapply apply_filters_done|]. apply lookup_insert_eq.
  - intros Hlt. split.
    { destruct (date_range sel) as [|first [|last ?]]; simpl in *; try done; lia. }
    unfold apply_filters.
    rewrite (bind_done _ _ _ _ _ (df_getitem_done _ _ "Region" _ _ Hdf eq_refl)).
    rewrite (bind_done _ _ _ _ _ (df_getitem_done _ _ "Category" _ _ Hdf eq_refl)).
    simpl isin. unfold mask_and. rewrite !length_map, Nat.eqb_refl.
    rewrite bind_lift_ok.
    rewrite (bind_done _ _ _ _ _ (df_getitem_done _ _ "Date" _ _ Hdf eq_refl)).
    simpl dt_date. rewrite bind_lift_ok.
    destruct (date_range sel) as [|first [|last ?]]; simpl in Hlt; try lia.
    + reflexivity.
    + change (tuple_get [first] 0) with (Ok (A:=Z) first). rewrite bind_lift_ok.
      reflexivity.
Qed.

(** C9. For every filter selection, the filter step and every step after
    it (metrics, charts with the Month column, table, export, insights)
    leave the frame [df] as it was: the same rows, columns and values,
    whether the page completes or stops at an exception. *)
Theorem base_dataset_unchanged df (base : DataFrame F) sel (w : World F RS) :
  frames w !! df = Some base ->
  frames (final_world (render df sel w)) !! df = Some base.
Proof. intros Hdf. eapply keeps_final_world; [apply keeps_render|done]. Qed.

(** The same from the widgets on (lines 50-128). *)
Lemma dashboard_keeps_base df (base : DataFrame F) ui (w : World F RS) :
  frames w !! df = Some base ->
  frames (final_world (dashboard df ui w)) !! df = Some base.
Proof. intros Hdf. eapply keeps_final_world; [apply keeps_dashboard|done]. Qed.

(** C6. The page for a selection that matches no order completes: the
    totals and the average order value are 0, the grouped charts and the
    table are empty, the export holds the header line only, and the insights
    are the no-orders message.  For every selection the order count is the
    number of filtered orders, and when it is positive the average order
    value is the mean of Sales over them. *)
Theorem empty_selection_aggregates df labels (os : list (Order F)) sel first last (w : World F RS) :
  frames w !! df = Some (frame_of_orders labels os) ->
  length labels = length os ->
  date_range sel = [first; last] ->
  let os' := spec_filter (selected_regions sel) (selected_categories sel) first last os in
  exists page w',
    render df sel w = Done page w'
    /\ total_orders (metrics page) = length os'
    /\ (os' <> [] ->
        series_mean (FloatCol (map Sales os')) = Ok (avg_order_value (metrics page)))
    /\ (os' = [] ->
        metrics page = {| total_sales := f_of_Z 0; total_profit := f_of_Z 0;
                          total_orders := 0; avg_order_value := f_of_Z 0 |}
        /\ fig_region (charts page) = [("Region", StrCol []); ("Sales", FloatCol [])]
        /\ fig_category (charts page) = [("Category", StrCol []); ("Sales", FloatCol [])]
        /\ fig_trend (charts page) = [("Month", DateCol []); ("Sales", FloatCol [])]
        /\ nrows (table page) = 0%nat
        /\ csv_data page = join "," export_header +:+ newline
        /\ insights page = NoOrders).
Proof.
  intros Hdf Hlen Hdr os'.
  pose proof (render_wp df labels os sel first last [] w Hdf Hlen Hdr) as Hwp.
  apply wp_done in Hwp as (page & w' & Hrun & Hm & Hr & Hc & Ht & Hsort & Hcsv & Hnil & Hcons).
  fold os' in Hm, Hr, Hc, Ht, Hsort, Hcsv, Hnil, Hcons.
  exists page, w'. split; [done|]. split; [by rewrite Hm|]. split.
  - intros Hne. rewrite Hm. simpl. rewrite length_map.
    destruct os'; [done|reflexivity].
  - intros E.
    rewrite (select_nil_of_filter _ _ _ _ _ Hlen E) in Hsort, Hcsv.
    rewrite E in *. rewrite Hm, Hr, Hc, Ht, Hcsv, (Hnil eq_refl).
    repeat split. by injection Hsort as <-.
Qed.

(** C8 (what the code does). For every dataset and selection the page
    completes and the export is the CSV of the filtered frame as line 95 left
    it: a header line and one line per filtered order, with ten fields, the
    last of them Month. *)
Theorem export_has_month_column df labels (os : list (Order F)) sel first last (w : World F RS) :
  frames w !! df = Some (frame_of_orders labels os) ->
  length labels = length os ->
  date_range sel = [first; last] ->
  let os' := spec_filter (selected_regions sel) (selected_categories sel) first last os in
  exists page w' labels',
    render df sel w = Done page w'
    /\ csv_data page = to_csv (month_frame labels' os')
    /\ csv_header (month_frame labels' os') = export_header
    /\ length (csv_lines (month_frame labels' os')) = S (length os')
    /\ "Month" ∈ csv_header (month_frame labels' os')
    /\ "Month" ∉ map fst (columns (frame_of_orders labels os)).
Proof.
  intros Hdf Hlen Hdr os'.
  pose proof (render_wp df labels os sel first last [] w Hdf Hlen Hdr) as Hwp.
  apply wp_done in Hwp as (page & w' & Hrun & _ & _ & _ & _ & _ & Hcsv & _).
  exists page, w', (select (selection_mask sel first last os) labels).
  split; [done|]. split; [done|]. split; [reflexivity|]. split.
  - unfold csv_lines, nrows. simpl length. rewrite length_map, length_seq.
    simpl. f_equal. by apply selected_labels_length.
  - split.
    + change (csv_header (month_frame (select (selection_mask sel first last os) labels) os'))
        with export_header. unfold export_header.
      do 9 apply list_elem_of_further. apply list_elem_of_here.
    + simpl. rewrite !elem_of_cons, elem_of_nil. intros H.
      repeat destruct H as [H|H]; done.
Qed.

End MoreClaims.

Section GenerationClaims.
Context {F : Type} {FO : Float64 F} {FR : FloatRepr F}.
Context {RS : Type} {RNG : RandomState F RS}.

(** C4. A run of the generator completes and [df] holds 120 rows; row [i]
    has OrderID 3001 + i, Date 2024-01-01 + 7 i days, a Quantity among
    1..5 and a UnitPrice within [50, 1000] that is a value rounded to two
    decimals.  The generator is assumed to behave as NumPy documents, and
    rounding to keep the order and the two bounds. *)
Theorem generated_dataset_shape (Hrng : RandomStateSpec RNG) (Hround : RoundingLaws (F:=F))
    py (w : World F RS) :
  exists df w' os,
    generate_data py w = Done df w'
    /\ frames w' !! df = Some (frame_of_orders (RangeIndex 120) os)
    /\ length os = 120%nat
    /\ forall i o, os !! i = Some o ->
         OrderID o = 3001 + Z.of_nat i
         /\ Date o = Calendar.days_from_civil 2024 1 1 + 7 * Z.of_nat i
         /\ 1 <= Quantity o <= 5
         /\ fle (f_of_Z 50) (UnitPrice o) /\ fle (UnitPrice o) (f_of_Z 1000)
         /\ exists u, UnitPrice o = fround 2 u.
Proof.
  pose proof (generate_data_wp Hrng py w) as Hwp.
  apply wp_done in Hwp as (df & w' & Hrun & region & category & quantity & price & jitter
                           & Hdraws & Hdf).
  destruct (draws_spec Hrng _ _ _ _ _ _ Hdraws)
    as ((Lr & Lc & Lq & Lp & Lj) & _ & _ & Hq & Hp & _).
  exists df, w', (generated_orders region category quantity price jitter).
  split; [done|]. split; [done|]. split; [apply generated_orders_length|].
  intros i o Ho.
  destruct (generated_orders_row _ _ _ _ _ _ _ Lr Lc Lq Lp Lj Ho)
    as (r & c & q & p & j & Er & Ec & Eq & Ep & Ej & Hid & Hdate & _ & _ & HQ & HU & _).
  split; [done|]. split; [done|].
  split. { rewrite HQ. specialize (Hq q (list_elem_of_lookup_2 _ _ _ Eq)). lia. }
  destruct (Hp price_bounds_ordered p (list_elem_of_lookup_2 _ _ _ Ep)) as [Hlo Hhi].
  rewrite HU. split; [|split; [|by exists p]].
  - rewrite <- fround_50. by apply fround_monotone.
  - rewrite <- fround_1000. by apply fround_monotone.
Qed.

(** C3. In every generated row Sales is Quantity x UnitPrice rounded to two
    decimals, Profit is Sales x the margin rate of the row's category x a
    jitter within [0.9, 1.1], rounded to two decimals, and ProfitMargin is
    Profit / Sales x 100 rounded to two decimals; the rates are 0.12, 0.20,
    0.35 and 0.25 for Electronics, Furniture, Clothing and Sports. *)
Theorem derived_fields_formulas (Hrng : RandomStateSpec RNG)
    (Hjitter : fle (f_dec 9 (-1)) (f_dec 11 (-1))) py (w : World F RS) :
  exists df w' os,
    generate_data py w = Done df w'
    /\ frames w' !! df = Some (frame_of_orders (RangeIndex 120) os)
    /\ forall o, o ∈ os ->
         Sales o = fround 2 (fmul (f_of_Z (Quantity o)) (UnitPrice o))
         /\ (exists rate jitter,
               margin_rate (Category o) = Some rate
               /\ (Category o = "Electronics" /\ rate = f_dec 12 (-2)
                   \/ Category o = "Furniture" /\ rate = f_dec 20 (-2)
                   \/ Category o = "Clothing" /\ rate = f_dec 35 (-2)
                   \/ Category o = "Sports" /\ rate = f_dec 25 (-2))
               /\ fle (f_dec 9 (-1)) jitter /\ fle jitter (f_dec 11 (-1))
               /\ Profit o = fround 2 (fmul (fmul (Sales o) rate) jitter))
         /\ ProfitMargin o = fround 2 (fmul (fdiv (Profit o) (Sales o)) (f_of_Z 100)).
Proof.
  pose proof (generate_data_wp Hrng py w) as Hwp.
  apply wp_done in Hwp as (df & w' & Hrun & region & category & quantity & price & jitter
                           & Hdraws & Hdf).
  destruct (draws_spec Hrng _ _ _ _ _ _ Hdraws)
    as ((Lr & Lc & Lq & Lp & Lj) & _ & Hc & _ & _ & Hj).
  exists df, w', (generated_orders region category quantity price jitter).
  split; [done|]. split; [done|].
  intros o [i Ho]%list_elem_of_lookup_1.
  destruct (generated_orders_row _ _ _ _ _ _ _ Lr Lc Lq Lp Lj Ho)
    as (r & c & q & p & j & Er & Ec & Eq & Ep & Ej & _ & _ & _ & HC & HQ & HU & HS & HP & HM).
  split; [by rewrite HS, HQ, HU|]. split; [|done].
  destruct (Hj Hjitter j (list_elem_of_lookup_2 _ _ _ Ej)) as [Hlo Hhi].
  specialize (Hc c (list_elem_of_lookup_2 _ _ _ Ec)).
  assert (Hrate : exists rate, dict_get c profit_map = Some rate
            /\ (c = "Electronics" /\ rate = f_dec 12 (-2)
                \/ c = "Furniture" /\ rate = f_dec 20 (-2)
                \/ c = "Clothing" /\ rate = f_dec 35 (-2)
                \/ c = "Sports" /\ rate = f_dec 25 (-2))).
  { unfold categories in Hc. rewrite !elem_of_cons, elem_of_nil in Hc.
    destruct Hc as [->|[->|[->|[->|[]]]]]; eexists; (split; [reflexivity|]); tauto. }
  destruct Hrate as (rate & Hrate & Htable).
  exists rate, j. unfold margin_rate. rewrite HC.
  split; [done|]. split; [done|]. split; [done|]. split; [done|].
  by rewrite HP, Hrate.
Qed.

End GenerationClaims.

(** A run depends on the interpreter only through the seed: two runs that
    seed alike do the same from the same world. *)
Lemma generate_data_by_seed {F} `{Float64 F} {RS} `{RandomState F RS}
    py1 py2 (w : World F RS) :
  seed_argument py1 = seed_argument py2 -> generate_data py1 w = generate_data py2 w.
Proof. intros E. unfold generate_data, generate_raw. by rewrite E. Qed.

(** The literals the generator is called with are ordered, and rounding
    keeps the two price bounds, in double precision as in exact
    arithmetic. *)
Lemma binary64_literals :
  fle (F:=float) (f_dec 9 (-1)) (f_dec 11 (-1))
  /\ fle (F:=float) (f_of_Z 50) (f_of_Z 1000)
  /\ fround (F:=float) 2 (f_of_Z 50) = f_of_Z 50
  /\ fround (F:=float) 2 (f_of_Z 1000) = f_of_Z 1000.
Proof. by vm_compute. Qed.

(** C1 (what the code does). The argument of [np.random.seed] is the
    string hash reduced modulo 10000, and the string hash is keyed by the
    interpreter's per-process secret: two processes with different secrets
    seed the generator differently. *)
Theorem seed_differs_between_processes :
  seed_argument (PyRuntime.with_hashseed 1) = 8182
  /\ seed_argument (PyRuntime.with_hashseed 2) = 2384
  /\ seed_argument (PyRuntime.with_hashseed 1) <> seed_argument (PyRuntime.with_hashseed 2).
Proof. by vm_compute. Qed.

(** C5, in float64: three orders, North, South, North, whose Sales add up
    to 4490.37 in row order and to 4490.370000000001 group by group. *)
Lemma grouped_sales_differ_in_binary64 :
  let d := frame_of_orders [0; 1; 2] (three_orders (F:=float)) in
  exists by_group total,
    grouped_total d "Region" = Ok by_group
    /\ sales_total d = Ok total
    /\ flt total by_group
    /\ ~ partition_property d "Region".
Proof.
  eexists _, _. split; [by vm_compute|]. split; [by vm_compute|]. split; [by vm_compute|].
  unfold partition_property. intros H.
  assert (E : match grouped_total (frame_of_orders [0; 1; 2] (three_orders (F:=float))) "Region",
                    sales_total (frame_of_orders [0; 1; 2] (three_orders (F:=float))) with
              | Ok a, Ok b => PrimFloat.eqb a b
              | _, _ => true
              end = true).
  { rewrite H. destruct (sales_total _) as [b|]; [|done]. vm_compute in H.
    injection H as <-. by vm_compute. }
  vm_compute in E. discriminate.
Qed.

(** C5 as amended. In exact arithmetic the per-group Sales sums of every
    filtered frame add up to its total Sales, for the Region, the Category
    and the Month grouping. *)
Theorem grouped_sales_partition_exact {F} `{Float64 F} (EA : ExactAddition (F:=F))
    labels (os : list (Order F)) :
  length labels = length os ->
  partition_property (frame_of_orders labels os) "Region"
  /\ partition_property (frame_of_orders labels os) "Category"
  /\ partition_property (month_frame labels os) "Month"
  /\ sales_total (month_frame labels os) = Ok (fsum (map Sales os)).
Proof.
  intros Hlen. unfold partition_property, grouped_total, sales_total. simpl.
  rewrite !group_sums_total by (by rewrite !length_map). done.
Qed.

(** * The claims at concrete inputs

    Exact arithmetic, the counter generator, and a frame of three orders
    stored as object 1. *)

Lemma filter_engine_contract_witness :
  exists filtered_df w' labels',
    apply_filters 1%positive north_selection demo_world = Done filtered_df w'
    /\ frames w' !! filtered_df
       = Some (frame_of_orders labels'
                 (spec_filter ["North"] categories start_date (start_date + 14) three_orders)).
Proof.
  destruct (filter_engine_contract 1%positive [0; 1; 2] three_orders north_selection
              start_date (start_date + 14) demo_world eq_refl eq_refl eq_refl)
    as (fd & w' & labels' & H1 & H2 & _).
  exists fd, w', labels'. split; [exact H1|exact H2].
Defined.

Lemma inverted_interval_is_empty_witness :
  start_date < start_date + 14
  /\ exists filtered_df w',
       apply_filters 1%positive inverted_selection demo_world = Done filtered_df w'
       /\ frames w' !! filtered_df = Some (frame_of_orders [] []).
Proof.
  split; [reflexivity|].
  destruct (inverted_interval_is_empty 1%positive [0; 1; 2] three_orders inverted_selection
              (start_date + 14) start_date demo_world eq_refl eq_refl eq_refl eq_refl)
    as (fd & w' & d & H1 & H2 & _ & ->).
  exists fd, w'. split; [exact H1|exact H2].
Defined.

Lemma date_range_indexing_witness :
  (exists filtered_df w' d,
     apply_filters 1%positive north_selection demo_world = Done filtered_df w'
     /\ frames w' !! filtered_df = Some d)
  /\ apply_filters 1%positive one_date_selection demo_world = Failed IndexError demo_world.
Proof.
  split.
  - apply (date_range_indexing 1%positive [0; 1; 2] three_orders north_selection demo_world
             eq_refl eq_refl).
    reflexivity.
  - apply (date_range_indexing 1%positive [0; 1; 2] three_orders one_date_selection demo_world
             eq_refl eq_refl).
    simpl. lia.
Defined.

Lemma base_dataset_unchanged_witness :
  frames (final_world (render 1%positive north_selection demo_world)) !! 1%positive
  = Some (frame_of_orders [0; 1; 2] three_orders).
Proof.
  apply (base_dataset_unchanged 1%positive (frame_of_orders [0; 1; 2] three_orders)
           north_selection demo_world).
  reflexivity.
Defined.

Lemma empty_selection_aggregates_witness :
  exists page w',
    render 1%positive no_region_selection demo_world = Done page w'
    /\ total_orders (metrics page) = 0%nat
    /\ avg_order_value (metrics page) = f_of_Z 0
    /\ insights page = NoOrders.
Proof.
  destruct (empty_selection_aggregates 1%positive [0; 1; 2] three_orders no_region_selection
              start_date (start_date + 14) demo_world eq_refl eq_refl eq_refl)
    as (page & w' & Hrun & _ & _ & Hempty).
  destruct (Hempty eq_refl) as (Hm & _ & _ & _ & _ & _ & Hi).
  exists page, w'. rewrite Hm. split; [exact Hrun|]. split; [reflexivity|].
  split; [reflexivity|exact Hi].
Defined.

Lemma export_has_month_column_witness :
  exists page w' labels',
    render 1%positive north_selection demo_world = Done page w'
    /\ csv_data page
       = to_csv (month_frame labels'
                   (spec_filter ["North"] categories start_date (start_date + 14) three_orders)).
Proof.
  destruct (export_has_month_column 1%positive [0; 1; 2] three_orders north_selection
              start_date (start_date + 14) demo_world eq_refl eq_refl eq_refl)
    as (page & w' & labels' & Hrun & Hcsv & _).
  exists page, w', labels'. split; [exact Hrun|exact Hcsv].
Defined.

Lemma generated_dataset_shape_witness :
  exists df w' os,
    generate_data (PyRuntime.with_hashseed 1) start_world = Done df w'
    /\ frames w' !! df = Some (frame_of_orders (RangeIndex 120) os)
    /\ length os = 120%nat.
Proof.
  destruct (generated_dataset_shape cycle_spec exact_rounding (PyRuntime.with_hashseed 1)
              start_world) as (df & w' & os & H1 & H2 & H3 & _).
  exists df, w', os. split; [exact H1|]. split; [exact H2|exact H3].
Defined.

Lemma derived_fields_formulas_witness :
  fle (F:=Qc) (f_dec 9 (-1)) (f_dec 11 (-1))
  /\ exists df w' os,
       generate_data (PyRuntime.with_hashseed 1) start_world = Done df w'
       /\ frames w' !! df = Some (frame_of_orders (RangeIndex 120) os).
Proof.
  split; [reflexivity|].
  destruct (derived_fields_formulas cycle_spec eq_refl (PyRuntime.with_hashseed 1) start_world)
    as (df & w' & os & H1 & H2 & _).
  exists df, w', os. split; [exact H1|exact H2].
Defined.

Lemma grouped_sales_partition_exact_witness :
  partition_property (frame_of_orders [0; 1; 2] (three_orders (F:=Qc))) "Region"
  /\ partition_property (frame_of_orders [0; 1; 2] (three_orders (F:=Qc))) "Category"
  /\ partition_property (month_frame [0; 1; 2] (three_orders (F:=Qc))) "Month".
Proof.
  destruct (grouped_sales_partition_exact exact_addition [0; 1; 2] three_orders eq_refl)
    as (H1 & H2 & H3 & _).
  split; [exact H1|]. split; [exact H2|exact H3].
Defined.

(** * Further properties of the script

    The lemmas first, then the properties, then the properties at concrete
    inputs. *)

Import Widgets Groups.

(** * The sidebar and the filter *)

Section Unique.
Context {A : Type} `{EqDecision A}.

Lemma unique_from_elem (seen xs : list A) x :
  x ∈ unique_from seen xs <-> x ∈ xs /\ x ∉ seen.
Proof.
  revert seen. induction xs as [|y xs IH]; intros seen; simpl.
  - rewrite elem_of_nil. tauto.
  - case_bool_decide as Hy.
    + rewrite IH, elem_of_cons. split; [tauto|]. intros [[->|?] ?]; tauto.
    + rewrite !elem_of_cons, IH, elem_of_cons. split.
      * intros [->|[? ?]]; tauto.
      * intros [[->|?] ?]; [tauto|]. destruct (decide (x = y)); tauto.
Qed.

Lemma unique_from_NoDup (seen xs : list A) : NoDup (unique_from seen xs).
Proof.
  revert seen. induction xs as [|y xs IH]; intros seen; simpl; [constructor|].
  case_bool_decide; [apply IH|]. constructor; [|apply IH].
  rewrite unique_from_elem, elem_of_cons. tauto.
Qed.

Lemma unique_from_sublist (seen xs : list A) : sublist (unique_from seen xs) xs.
Proof.
  revert seen. induction xs as [|y xs IH]; intros seen; simpl; [constructor|].
  case_bool_decide; [apply sublist_cons|apply sublist_skip]; apply IH.
Qed.

Lemma unique_elem (xs : list A) x : x ∈ unique xs <-> x ∈ xs.
Proof. unfold unique. rewrite unique_from_elem, elem_of_nil. tauto. Qed.

End Unique.

Section Extremes.

Lemma foldl_min_le x xs : forall y, y ∈ x :: xs -> foldl Z.min x xs <= y.
Proof.
  revert x. induction xs as [|a xs IH]; intros x y; simpl.
  - rewrite list_elem_of_singleton. lia.
  - rewrite !elem_of_cons. intros [->|[->|Hy]].
    + pose proof (IH (Z.min x a) (Z.min x a) ltac:(left)). lia.
    + pose proof (IH (Z.min x a) (Z.min x a) ltac:(left)). lia.
    + apply IH. by right.
Qed.

Lemma foldl_max_ge x xs : forall y, y ∈ x :: xs -> y <= foldl Z.max x xs.
Proof.
  revert x. induction xs as [|a xs IH]; intros x y; simpl.
  - rewrite list_elem_of_singleton. lia.
  - rewrite !elem_of_cons. intros [->|[->|Hy]].
    + pose proof (IH (Z.max x a) (Z.max x a) ltac:(left)). lia.
    + pose proof (IH (Z.max x a) (Z.max x a) ltac:(left)). lia.
    + apply IH. by right.
Qed.

Lemma foldl_min_elem x xs : foldl Z.min x xs ∈ x :: xs.
Proof.
  revert x. induction xs as [|a xs IH]; intros x; simpl; [left|].
  specialize (IH (Z.min x a)). apply elem_of_cons in IH as [E|IH].
  - rewrite E. destruct (Z.min_spec x a) as [[_ ->]|[_ ->]]; [left|right; left].
  - by do 2 right.
Qed.

Lemma foldl_max_elem x xs : foldl Z.max x xs ∈ x :: xs.
Proof.
  revert x. induction xs as [|a xs IH]; intros x; simpl; [left|].
  specialize (IH (Z.max x a)). apply elem_of_cons in IH as [E|IH].
  - rewrite E. destruct (Z.max_spec x a) as [[_ ->]|[_ ->]]; [right; left|left].
  - by do 2 right.
Qed.

End Extremes.

Section SelectAll.
Context {A : Type}.

Lemma filter_all (P : A -> Prop) `{!forall x, Decision (P x)} (xs : list A) :
  (forall x, x ∈ xs -> P x) -> filter P xs = xs.
Proof.
  induction xs as [|x xs IH]; intros Hall; [done|].
  rewrite filter_cons, decide_True by (apply Hall; left).
  f_equal. apply IH. intros y Hy. apply Hall. by right.
Qed.

Lemma select_all {B} (P : A -> Prop) `{!forall x, Decision (P x)} (xs : list A) (ys : list B) :
  (forall x, x ∈ xs -> P x) -> length ys = length xs ->
  select (map (fun x => bool_decide (P x)) xs) ys = ys.
Proof.
  revert ys. induction xs as [|x xs IH]; intros [|y ys] Hall Hlen; simpl in *; try done.
  rewrite bool_decide_eq_true_2 by (apply Hall; left).
  f_equal. apply IH; [|lia]. intros z Hz. apply Hall. by right.
Qed.

End SelectAll.

Section Sidebar.
Context {F : Type} {FO : Float64 F} {FR : FloatRepr F}.
Context {RS : Type} {RNG : RandomState F RS}.

(** Lines 50-56 on a frame of at least one order: the three widgets. *)
Lemma sidebar_filters_done df labels (o : Order F) os ui (w : World F RS) :
  frames w !! df = Some (frame_of_orders labels (o :: os)) ->
  sidebar_filters df ui w
  = Done {| selected_regions := default (unique (map Region (o :: os))) (ui_regions ui);
            selected_categories := default (unique (map Category (o :: os))) (ui_categories ui);
            date_range := default [foldl Z.min (Date o) (map Date os);
                                   foldl Z.max (Date o) (map Date os)] (ui_date_range ui) |} w.
Proof.
  intros Hdf. unfold sidebar_filters.
  rewrite (bind_done _ _ _ _ _ (df_getitem_done _ _ "Region" _ _ Hdf eq_refl)).
  rewrite (bind_done _ _ _ _ _ (df_getitem_done _ _ "Region" _ _ Hdf eq_refl)).
  assert (E1 : multiselect (F:=F) (series_unique (StrCol (map Region (o :: os))))
                 (series_unique (StrCol (map Region (o :: os)))) (ui_regions ui)
               = Ok (default (unique (map Region (o :: os))) (ui_regions ui))).
  { by destruct (ui_regions ui). }
  rewrite E1, bind_lift_ok.
  rewrite (bind_done _ _ _ _ _ (df_getitem_done _ _ "Category" _ _ Hdf eq_refl)).
  rewrite (bind_done _ _ _ _ _ (df_getitem_done _ _ "Category" _ _ Hdf eq_refl)).
  assert (E2 : multiselect (F:=F) (series_unique (StrCol (map Category (o :: os))))
                 (series_unique (StrCol (map Category (o :: os)))) (ui_categories ui)
               = Ok (default (unique (map Category (o :: os))) (ui_categories ui))).
  { by destruct (ui_categories ui). }
  rewrite E2, bind_lift_ok.
  rewrite (bind_done _ _ _ _ _ (df_getitem_done _ _ "Date" _ _ Hdf eq_refl)).
  change (date_min (DateCol (map Date (o :: os))))
    with (Ok (A:=Z) (foldl Z.min (Date o) (map Date os))).
  rewrite bind_lift_ok.
  rewrite (bind_done _ _ _ _ _ (df_getitem_done _ _ "Date" _ _ Hdf eq_refl)).
  change (date_max (DateCol (map Date (o :: os))))
    with (Ok (A:=Z) (foldl Z.max (Date o) (map Date os))).
  rewrite bind_lift_ok.
  unfold date_input. by destruct (ui_date_range ui).
Qed.

(** Every order of the dataset meets the selection the untouched widgets
    return. *)
Lemma untouched_selects_all (o : Order F) os x :
  x ∈ o :: os ->
  selected (unique (map Region (o :: os))) (unique (map Category (o :: os)))
           (foldl Z.min (Date o) (map Date os)) (foldl Z.max (Date o) (map Date os)) x.
Proof.
  intros Hx. unfold selected. rewrite !unique_elem.
  split; [by apply list_elem_of_fmap_2|]. split; [by apply list_elem_of_fmap_2|].
  assert (Hd : Date x ∈ Date o :: map Date os).
  { change (Date x ∈ map Date (o :: os)). by apply list_elem_of_fmap_2. }
  split; [by apply foldl_min_le|by apply foldl_max_ge].
Qed.

Lemma dashboard_untouched_wp df labels (o : Order F) os (w : World F RS) :
  frames w !! df = Some (frame_of_orders labels (o :: os)) ->
  length labels = length (o :: os) ->
  wp (dashboard df Widgets.untouched) w (fun page w' =>
    metrics page
    = {| total_sales := fsum (map Sales (o :: os));
         total_profit := fsum (map Profit (o :: os));
         total_orders := length (o :: os);
         avg_order_value :=
           fdiv (fsum (map Sales (o :: os))) (f_of_Z (Z.of_nat (length (o :: os)))) |}
    /\ csv_data page = to_csv (month_frame labels (o :: os))
    /\ exists r c q, insights page = TopSellers r c q).
Proof.
  intros Hdf Hlen. unfold dashboard. apply wp_bind.
  eapply wp_eq; [by eapply sidebar_filters_done|].
  eapply wp_mono; [by eapply render_wp|].
  cbv zeta. cbn [selected_regions selected_categories date_range Widgets.untouched
                 ui_regions ui_categories ui_date_range default].
  intros page w'.
  assert (Eos : spec_filter (unique (map Region (o :: os))) (unique (map Category (o :: os)))
                  (foldl Z.min (Date o) (map Date os)) (foldl Z.max (Date o) (map Date os))
                  (o :: os) = o :: os).
  { apply filter_all. apply untouched_selects_all. }
  unfold selection_mask.
  cbn [selected_regions selected_categories date_range].
  rewrite (select_all _ (o :: os) labels) by (done || apply untouched_selects_all).
  rewrite Eos.
  intros (Hm & _ & _ & _ & _ & Hcsv & _ & Hi).
  split; [exact Hm|]. split; [exact Hcsv|]. by apply Hi.
Qed.

End Sidebar.

(** * Sorting rows by position *)

Lemma take_rows_cons {A} i pos (xs : list A) :
  take_rows (i :: pos) xs
  = match xs !! i with Some x => x :: take_rows pos xs | None => take_rows pos xs end.
Proof. reflexivity. Qed.

Section TakeRows.
Context {A : Type}.

Lemma take_rows_map {B} (f : A -> B) pos (xs : list A) :
  take_rows pos (map f xs) = map f (take_rows pos xs).
Proof.
  induction pos as [|i pos IH]; [done|].
  rewrite !take_rows_cons, lookup_map. destruct (xs !! i); simpl; by rewrite IH.
Qed.

Lemma take_rows_seq (pre xs : list A) :
  take_rows (seq (length pre) (length xs)) (pre ++ xs) = xs.
Proof.
  revert pre. induction xs as [|x xs IH]; intros pre; [done|].
  cbn [length seq]. rewrite take_rows_cons, list_lookup_middle by done. f_equal.
  specialize (IH (pre ++ [x])). rewrite length_app, <- app_assoc in IH. simpl in IH.
  by rewrite Nat.add_1_r in IH.
Qed.

Lemma take_rows_all (xs : list A) : take_rows (seq 0 (length xs)) xs = xs.
Proof. apply (take_rows_seq [] xs). Qed.

Lemma take_rows_perm pos (xs : list A) :
  pos ≡ₚ seq 0 (length xs) -> take_rows pos xs ≡ₚ xs.
Proof.
  intros Hp. unfold take_rows. rewrite Hp. fold (take_rows (seq 0 (length xs)) xs).
  by rewrite take_rows_all.
Qed.

Lemma take_rows_zip {B} pos (xs : list A) (ys : list B) :
  length xs = length ys ->
  take_rows pos (zip xs ys) = zip (take_rows pos xs) (take_rows pos ys).
Proof.
  intros Hlen. induction pos as [|i pos IH]; [done|].
  rewrite !take_rows_cons.
  destruct (xs !! i) as [x|] eqn:Ex, (ys !! i) as [y|] eqn:Ey.
  - rewrite (proj2 (lookup_zip_with_Some pair xs ys i (x, y))) by eauto.
    simpl. by rewrite IH.
  - apply lookup_lt_Some in Ex. apply lookup_ge_None in Ey. lia.
  - apply lookup_lt_Some in Ey. apply lookup_ge_None in Ex. lia.
  - destruct (zip xs ys !! i) as [[x y]|] eqn:Ez; [|done].
    apply lookup_zip_with_Some in Ez as (? & ? & _ & ? & _). congruence.
Qed.

End TakeRows.

Section Argsort.
Variable before : Z -> Z -> bool.
Variable keys : list Z.
Hypothesis before_total : forall a b, before a b = false -> before b a = true.

Lemma insert_pos_perm i sorted : insert_pos before keys i sorted ≡ₚ i :: sorted.
Proof.
  induction sorted as [|j sorted IH]; simpl; [done|].
  destruct (before _ _); [|done]. rewrite IH. apply Permutation_swap.
Qed.

Lemma insert_pos_sorted i sorted :
  Sorted (fun j i => before (nth j keys 0) (nth i keys 0) = true) sorted ->
  Sorted (fun j i => before (nth j keys 0) (nth i keys 0) = true)
         (insert_pos before keys i sorted).
Proof.
  induction 1 as [|j sorted Hs IH Hhd]; simpl.
  - repeat constructor.
  - destruct (before (nth j keys 0) (nth i keys 0)) eqn:E.
    + constructor; [exact IH|].
      destruct Hhd as [|j' sorted' Hj]; simpl.
      * by constructor.
      * destruct (before (nth j' keys 0) (nth i keys 0)); by constructor.
    + constructor; [by constructor|]. constructor. by apply before_total.
Qed.

Lemma insert_all_perm ps acc :
  foldl (fun sorted i => insert_pos before keys i sorted) acc ps ≡ₚ ps ++ acc.
Proof.
  revert acc. induction ps as [|i ps IH]; intros acc; simpl; [done|].
  rewrite IH, insert_pos_perm. by rewrite Permutation_middle.
Qed.

Lemma insert_all_sorted ps acc :
  Sorted (fun j i => before (nth j keys 0) (nth i keys 0) = true) acc ->
  Sorted (fun j i => before (nth j keys 0) (nth i keys 0) = true)
         (foldl (fun sorted i => insert_pos before keys i sorted) acc ps).
Proof.
  revert acc. induction ps as [|i ps IH]; intros acc Hacc; simpl; [done|].
  by apply IH, insert_pos_sorted.
Qed.

End Argsort.

Lemma Sorted_weaken {A} (R R' : A -> A -> Prop) (l : list A) :
  (forall a b, R a b -> R' a b) -> Sorted R l -> Sorted R' l.
Proof.
  intros HR. induction 1 as [|a l Hs IH Hhd]; constructor; [exact IH|].
  destruct Hhd; constructor; auto.
Qed.

Lemma argsort_perm ascending keys : argsort ascending keys ≡ₚ seq 0 (length keys).
Proof. unfold argsort. rewrite insert_all_perm. by rewrite app_nil_r. Qed.

Lemma argsort_descending keys :
  Sorted (fun j i => nth i keys 0 <= nth j keys 0) (argsort false keys).
Proof.
  unfold argsort.
  eapply Sorted_weaken; [|apply (insert_all_sorted Z.geb keys)].
  - intros j i H. cbv beta in H. apply Z.geb_le in H. exact H.
  - intros a b H. rewrite Z.geb_leb in *. lia.
  - constructor.
Qed.

Lemma take_rows_sorted {A} (key : A -> Z) (R : Z -> Z -> Prop) pos (xs : list A) :
  Sorted (fun j i => R (nth j (map key xs) 0) (nth i (map key xs) 0)) pos ->
  Forall (fun i => (i < length xs)%nat) pos ->
  Sorted (fun a b => R (key a) (key b)) (take_rows pos xs).
Proof.
  induction 1 as [|i pos Hs IH Hhd]; intros Hall; [constructor|].
  apply Forall_cons in Hall as [Hi Hall].
  destruct (lookup_lt_is_Some_2 xs i Hi) as [x Ex]. rewrite take_rows_cons, Ex.
  constructor; [by apply IH|].
  destruct Hhd as [|j pos' Hj]; [constructor|].
  apply Forall_cons in Hall as [Hj' _].
  destruct (lookup_lt_is_Some_2 xs j Hj') as [y Ey]. rewrite take_rows_cons, Ey. constructor.
  rewrite (nth_lookup_default (map key xs) i 0 (key x)) in Hj
    by (by rewrite lookup_map, Ex).
  rewrite (nth_lookup_default (map key xs) j 0 (key y)) in Hj
    by (by rewrite lookup_map, Ey).
  exact Hj.
Qed.

Section Table.
Context {F : Type} {FO : Float64 F}.

(** Line 111 on the filtered frame: the rows in the order [argsort] gives,
    each with its label. *)
Lemma sort_values_month_frame labels (os : list (Order F)) :
  sort_values (month_frame labels os) "Date" false
  = Ok (month_frame (take_rows (argsort false (map Date os)) labels)
                    (take_rows (argsort false (map Date os)) os)).
Proof.
  unfold sort_values. change (getitem (month_frame labels os) "Date") with (Ok (DateCol (F:=F) (map Date os))).
  simpl. unfold month_frame, frame_of_orders. simpl.
  by rewrite !take_rows_map.
Qed.

Lemma sorted_rows (labels : list Z) (os : list (Order F)) :
  length labels = length os ->
  let pos := argsort false (map Date os) in
  zip (take_rows pos labels) (take_rows pos os) ≡ₚ zip labels os
  /\ take_rows pos os ≡ₚ os
  /\ Sorted (fun a b => Date b <= Date a) (take_rows pos os)
  /\ length (take_rows pos labels) = length os.
Proof.
  intros Hlen pos.
  assert (Hp : pos ≡ₚ seq 0 (length os)).
  { unfold pos. rewrite argsort_perm. by rewrite length_map. }
  split.
  { rewrite <- take_rows_zip by done. apply take_rows_perm.
    by rewrite length_zip, Hlen, Nat.min_id. }
  split; [by apply take_rows_perm|].
  split.
  - apply (take_rows_sorted Date (fun a b => b <= a)); [apply argsort_descending|].
    rewrite Hp. apply Forall_forall. intros i Hi. apply elem_of_seq in Hi. lia.
  - rewrite (take_rows_perm pos labels) by by rewrite Hlen. done.
Qed.

End Table.

(** * Groups, charts and insights *)

Section GroupSums.
Context {F : Type} {FO : Float64 F}.
Context {K : Type} `{EqDecision K}.

Lemma group_sums_sales (R : relation K) `{!RelDecision R} (key : Order F -> K)
    (os : list (Order F)) :
  sums_by R key os
  = map (fun k => (k, group_sales key k os)) (group_keys R (map key os)).
Proof.
  unfold sums_by, group_sums. apply map_ext. intros k. f_equal.
  unfold group_sales. rewrite map_map, select_map.
  by rewrite (select_filter (fun o => key o = k)).
Qed.

Lemma sums_by_chart (R : relation K) `{!RelDecision R} (key : Order F -> K)
    (os : list (Order F)) :
  chart_of_groups key os (map fst (sums_by R key os)) (map snd (sums_by R key os)).
Proof.
  rewrite group_sums_sales, !map_map. cbn [fst snd]. rewrite map_id.
  split; [apply group_keys_NoDup|]. split; [|reflexivity].
  intros k. rewrite group_keys_elem, list_elem_of_fmap.
  split; [intros (o & -> & Ho)|intros (o & Ho & <-)]; by exists o.
Qed.

Lemma sums_by_sorted (R : relation K) `{!RelDecision R} `{!Total R} (key : Order F -> K)
    (os : list (Order F)) :
  Sorted R (map fst (sums_by R key os)).
Proof.
  rewrite group_sums_sales, !map_map. cbn [fst]. rewrite map_id.
  unfold group_keys. by apply Sorted_merge_sort.
Qed.

End GroupSums.

Lemma string_le_total : Total string_le.
Proof. intros a b. unfold string_le. apply String.leb_total. Qed.

Lemma Sorted_le_lt (l : list Z) : Sorted Z.le l -> NoDup l -> Sorted Z.lt l.
Proof.
  induction 1 as [|a l Hs IH Hhd]; intros Hnd; [constructor|].
  apply NoDup_cons in Hnd as [Ha Hnd]. constructor; [by apply IH|].
  destruct Hhd as [|b l Hab]; constructor.
  assert (a <> b) by (intros ->; apply Ha; left). lia.
Qed.

Section Idxmax.
Context {F : Type} {FO : Float64 F}.
Context {HC : ComparisonLaws (F:=F)}.

Lemma idxmax_go_spec best (bestv : F) rest :
  is_number bestv ->
  (forall k v, (k, v) ∈ rest -> is_number v) ->
  exists v, (idxmax_go best bestv rest, v) ∈ (best, bestv) :: rest
    /\ fle bestv v
    /\ forall k' v', (k', v') ∈ rest -> fle v' v.
Proof.
  revert best bestv. induction rest as [|[k1 v1] rest IH]; intros best bestv Hb Hrest; simpl.
  - exists bestv. split; [left|]. split; [done|]. intros k' v' H'. by apply elem_of_nil in H'.
  - assert (H1 : is_number v1) by (apply (Hrest k1); left).
    assert (Hrest' : forall k v, (k, v) ∈ rest -> is_number v).
    { intros k v Hkv. apply (Hrest k). by right. }
    destruct (fltb bestv v1) eqn:E.
    + destruct (IH k1 v1 H1 Hrest') as (v & Hin & Hle & Hall).
      exists v. split; [by right|]. split.
      * eapply fle_trans; [|exact Hle]. by apply flt_fle.
      * intros k' v' [[= -> ->]|Hin']%elem_of_cons; [done|by eapply Hall].
    + destruct (IH best bestv Hb Hrest') as (v & Hin & Hle & Hall).
      exists v. split.
      { apply elem_of_cons in Hin as [->|Hin]; [left|by do 2 right]. }
      split; [done|].
      intros k' v' [[= -> ->]|Hin']%elem_of_cons; [|by eapply Hall].
      eapply fle_trans; [|exact Hle]. by apply not_flt_fle.
Qed.

Lemma idxmax_spec (g : list (string * F)) k :
  idxmax g = Ok k ->
  (forall k' v', (k', v') ∈ g -> is_number v') ->
  exists v, (k, v) ∈ g /\ forall k' v', (k', v') ∈ g -> fle v' v.
Proof.
  destruct g as [|[k0 v0] rest]; [done|]. simpl. intros [= <-] Hg.
  destruct (idxmax_go_spec k0 v0 rest) as (v & Hin & Hle & Hall).
  { apply (Hg k0). left. }
  { intros k' v' H'. apply (Hg k'). by right. }
  exists v. split; [done|].
  intros k' v' [[= -> ->]|Hin']%elem_of_cons; [done|by eapply Hall].
Qed.

(** The label [idxmax] picks among the grouped sums: a key of some order,
    whose group sells no less than any other. *)
Lemma top_group (key : Order F -> string) (os : list (Order F)) k :
  idxmax (sums_by string_le key os) = Ok k ->
  (forall o, o ∈ os -> is_number (group_sales key (key o) os)) ->
  (exists o, o ∈ os /\ key o = k)
  /\ forall o, o ∈ os -> fle (group_sales key (key o) os) (group_sales key k os).
Proof.
  intros Hk Hnum. rewrite group_sums_sales in Hk.
  assert (Hmem : forall k' v', (k', v') ∈ map (fun k => (k, group_sales key k os))
                                              (group_keys string_le (map key os)) ->
            v' = group_sales key k' os /\ exists o, o ∈ os /\ key o = k').
  { intros k' v' (k'' & [= -> ->] & Hin)%list_elem_of_fmap. split; [done|].
    apply group_keys_elem, list_elem_of_fmap in Hin as (o & -> & Ho). by exists o. }
  destruct (idxmax_spec _ _ Hk) as (v & Hin & Hall).
  { intros k' v' H'. destruct (Hmem _ _ H') as (-> & o & Ho & <-). by apply Hnum. }
  destruct (Hmem _ _ Hin) as (-> & Hex). split; [exact Hex|].
  intros o Ho. apply (Hall (key o)).
  apply list_elem_of_fmap. exists (key o). split; [done|].
  apply group_keys_elem. by apply list_elem_of_fmap_2.
Qed.

End Idxmax.

Section Page.
Context {F : Type} {FO : Float64 F} {FR : FloatRepr F}.
Context {RS : Type} {RNG : RandomState F RS}.

(** Lines 101-105: the scatter plot is drawn from the filtered frame, after
    line 95 has added the Month column to it. *)
Lemma scatter_wp l labels (os : list (Order F)) (w : World F RS) :
  frames w !! l = Some (frame_of_orders labels os) ->
  length labels = length os ->
  wp (visualizations l) w (fun c w' =>
    frames w' !! l = Some (month_frame labels os)
    /\ fig_region c = two_columns "Region" StrCol (sums_by string_le Region os)
    /\ fig_category c = two_columns "Category" StrCol (sums_by string_le Category os)
    /\ fig_trend c = two_columns "Month" DateCol
                       (sums_by Z.le (fun o => Calendar.month_start (Date o)) os)
    /\ fig_profit c = scatter_columns os).
Proof.
  intros Hl Hlen. unfold visualizations.
  apply wp_bind. eapply wp_groupby_sum_frame; [lookup_frame | reflexivity |]. intros l1 H1.
  apply wp_bind. eapply wp_px_figure; [lookup_frame | reflexivity |].
  apply wp_bind. eapply wp_groupby_sum_frame; [lookup_frame | reflexivity |]. intros l2 H2.
  apply wp_bind. eapply wp_px_figure; [lookup_frame | reflexivity |].
  apply wp_bind. eapply wp_df_getitem; [lookup_frame | reflexivity |].
  apply wp_bind. eapply wp_lift; [reflexivity|].
  apply wp_bind. eapply wp_df_setitem; [lookup_frame | |].
  { unfold setitem, nrows. simpl index.
    simpl col_len. rewrite !length_map, Hlen, Nat.eqb_refl. reflexivity. }
  apply wp_bind. eapply wp_groupby_sum_frame; [lookup_frame | reflexivity |]. intros l3 H3.
  apply wp_bind. eapply wp_px_figure; [lookup_frame | reflexivity |].
  apply wp_bind. eapply wp_px_figure; [lookup_frame | reflexivity |].
  apply wp_ret. split.
  - fresh_facts. rewrite !store_lookup_ne by congruence.
    rewrite store_lookup_eq. unfold month_frame. simpl. by rewrite ?map_map.
  - simpl. unfold two_columns, sums_by, scatter_columns. by rewrite ?map_map.
Qed.

(** The charts and the insights of the page, in terms of the filtered
    orders [os']. *)
Lemma render_page_wp df labels (os : list (Order F)) sel first last rest (w : World F RS) :
  frames w !! df = Some (frame_of_orders labels os) ->
  length labels = length os ->
  date_range sel = first :: last :: rest ->
  let os' := spec_filter (selected_regions sel) (selected_categories sel) first last os in
  wp (render df sel) w (fun page w' =>
    total_orders (metrics page) = length os'
    /\ fig_region (charts page) = two_columns "Region" StrCol (sums_by string_le Region os')
    /\ fig_category (charts page) = two_columns "Category" StrCol (sums_by string_le Category os')
    /\ fig_trend (charts page)
       = two_columns "Month" DateCol (sums_by Z.le (fun o => Calendar.month_start (Date o)) os')
    /\ fig_profit (charts page) = scatter_columns os'
    /\ (os' <> [] -> exists r c,
          idxmax (sums_by string_le Region os') = Ok r
          /\ idxmax (sums_by string_le Category os') = Ok c
          /\ insights page
             = TopSellers r c (fdiv (f_of_Z (zsum (map Quantity os')))
                                    (f_of_Z (Z.of_nat (length os')))))).
Proof.
  intros Hdf Hlen Hdr os'.
  set (labels' := select (selection_mask sel first last os) labels).
  assert (Hlen' : length labels' = length os') by by apply selected_labels_length.
  unfold render.
  apply wp_bind. eapply wp_apply_filters; [done..|]. intros l Hfresh.
  fold os' labels'.
  assert (Hl : frames (store w l (frame_of_orders labels' os')) !! l
               = Some (frame_of_orders labels' os')) by apply store_lookup_eq.
  apply wp_bind. eapply wp_eq; [by eapply key_metrics_done|].
  apply wp_bind. eapply wp_mono; [by apply scatter_wp|].
  intros c w2 (Hl2 & Hr & Hc & Ht & Hp). simpl in Hl2.
  apply wp_bind. eapply wp_mono; [by apply table_and_download_wp|].
  intros td w3 (Hl3 & Hsort & Hcsv). simpl in Hl3.
  destruct (quick_insights_done l labels' os' w3 Hl3) as (i & Hi & Hnil & Hcons).
  apply wp_bind. eapply wp_eq.
  { simpl total_orders. unfold nrows. simpl index. rewrite Hlen'. exact Hi. }
  apply wp_ret. simpl.
  unfold nrows. simpl index. rewrite Hlen'.
  repeat split; try done.
Qed.

End Page.

(** * Comparison in exact arithmetic *)

Lemma exact_comparison : ComparisonLaws (F:=Qc).
Proof.
  assert (Hle : forall x y : Qc, fle x y <-> (x <= y)%Qc) by apply exact_fle.
  assert (Hlt : forall x y : Qc, fltb x y = negb (Qle_bool y x)) by reflexivity.
  split.
  - intros x y H. apply Hle. unfold flt in H. rewrite Hlt in H.
    apply negb_true_iff in H.
    destruct (Qclt_le_dec x y) as [Hxy|Hyx]; [by apply Qclt_le_weak|].
    apply Qle_bool_iff in Hyx. congruence.
  - intros x y z H1 H2. apply Hle. apply Hle in H1, H2. by eapply Qcle_trans.
  - intros x y H _ _. apply Hle. rewrite Hlt in H. apply negb_false_iff in H.
    by apply Qle_bool_iff in H.
Qed.

(** * The calendar *)

Section EraArithmetic.
Import Era.

Lemma day_of_range z : 0 <= day_of z < 146097.
Proof. unfold day_of, era_of. Z.div_mod_to_equations; lia. Qed.

Lemma year_of_spec doe : 0 <= doe < 146097 ->
  0 <= year_of doe < 400 /\ year_start (year_of doe) <= doe
  /\ doe - year_start (year_of doe) <= 365.
Proof. intros H. unfold year_of, year_start. Z.div_mod_to_equations; lia. Qed.

Lemma year_of_unique y k : 0 <= y < 400 -> 0 <= k <= 364 -> year_of (year_start y + k) = y.
Proof. intros Hy Hk. unfold year_of, year_start. Z.div_mod_to_equations; lia. Qed.

Lemma year_start_range y : 0 <= y < 400 -> 0 <= year_start y /\ year_start y + 364 < 146097.
Proof. intros Hy. unfold year_start. Z.div_mod_to_equations; lia. Qed.

Lemma month_of_spec doy : 0 <= doy <= 365 ->
  0 <= month_of doy < 12 /\ month_days (month_of doy) <= doy
  /\ doy - month_days (month_of doy) <= 30.
Proof. intros H. unfold month_of, month_days. Z.div_mod_to_equations; lia. Qed.

Lemma month_of_first mp : 0 <= mp < 12 -> month_of (month_days mp) = mp.
Proof. intros H. unfold month_of, month_days. Z.div_mod_to_equations; lia. Qed.

Lemma month_days_range mp : 0 <= mp < 12 -> 0 <= month_days mp <= 337.
Proof. intros H. unfold month_days. Z.div_mod_to_equations; lia. Qed.

Lemma month_range mp : 0 <= mp < 12 ->
  1 <= month mp <= 12 /\ (if 2 <? month mp then month mp - 3 else month mp + 9) = mp.
Proof.
  intros H. unfold month. destruct (Z.ltb_spec mp 10).
  - destruct (Z.ltb_spec 2 (mp + 3)); lia.
  - destruct (Z.ltb_spec 2 (mp - 9)); lia.
Qed.

(** [civil_from_days] and [days_from_civil] in these pieces. *)
Lemma civil_from_days_era z :
  Calendar.civil_from_days z
  = let y := year_of (day_of z) + era_of z * 400 in
    let doy := day_of z - year_start (year_of (day_of z)) in
    let m := month (month_of doy) in
    ((if (m <=? 2) then y + 1 else y), m, doy - month_days (month_of doy) + 1).
Proof.
  unfold Calendar.civil_from_days, day_of, era_of, year_of, year_start, month_of,
    month_days, month.
  reflexivity.
Qed.

Lemma days_from_civil_era era yoe mp d :
  0 <= yoe < 400 -> 0 <= mp < 12 ->
  let m := month mp in
  Calendar.days_from_civil (if (m <=? 2) then yoe + era * 400 + 1 else yoe + era * 400) m d
  = era * 146097 + (year_start yoe + month_days mp + d - 1) - 719468.
Proof.
  intros Hy Hm m. unfold Calendar.days_from_civil.
  assert (Ey : (if m <=? 2 then (if m <=? 2 then yoe + era * 400 + 1 else yoe + era * 400) - 1
                else (if m <=? 2 then yoe + era * 400 + 1 else yoe + era * 400))
               = yoe + era * 400).
  { destruct (m <=? 2); lia. }
  rewrite Ey. unfold m. rewrite (proj2 (month_range mp Hm)).
  rewrite Z.div_add by lia. rewrite (Z.div_small yoe 400) by lia.
  replace (yoe + era * 400 - (0 + era) * 400) with yoe by lia.
  unfold year_start, month_days. lia.
Qed.

Lemma era_of_day era doe :
  0 <= doe < 146097 ->
  era_of (era * 146097 + doe - 719468) = era /\ day_of (era * 146097 + doe - 719468) = doe.
Proof.
  intros H. unfold day_of.
  assert (E : era_of (era * 146097 + doe - 719468) = era); [|rewrite E; lia].
  unfold era_of. Z.div_mod_to_equations; lia.
Qed.

Lemma first_step doe : 0 <= doe -> doe + 1 < 146097 -> first doe <= first (doe + 1).
Proof.
  intros H1 H2. unfold first.
  destruct (year_of_spec doe ltac:(lia)) as (Hy & Hs & Hd).
  destruct (year_of_spec (doe + 1) ltac:(lia)) as (Hy' & Hs' & Hd').
  destruct (month_of_spec (doe - year_start (year_of doe)) ltac:(lia)) as (Hm & Hle & _).
  destruct (month_of_spec (doe + 1 - year_start (year_of (doe + 1))) ltac:(lia))
    as (Hm' & Hle' & _).
  assert (Hmono : year_of doe <= year_of (doe + 1)).
  { unfold year_of. Z.div_mod_to_equations; lia. }
  destruct (decide (year_of (doe + 1) = year_of doe)) as [E|Hne].
  - rewrite E in *.
    set (doy := doe - year_start (year_of doe)) in *.
    replace (doe + 1 - year_start (year_of doe)) with (doy + 1) in * by (unfold doy; lia).
    assert (month_days (month_of doy) <= month_days (month_of (doy + 1))); [|lia].
    unfold month_days, month_of. Z.div_mod_to_equations; lia.
  - assert (doe < year_start (year_of (doe + 1))).
    { destruct (decide (doe < year_start (year_of (doe + 1)))) as [|Hge]; [done|].
      exfalso. apply Hne.
      pose proof (year_of_unique (year_of (doe + 1)) (doe - year_start (year_of (doe + 1)))
                    Hy' ltac:(lia)) as Hu.
      replace (year_start (year_of (doe + 1)) + (doe - year_start (year_of (doe + 1))))
        with doe in Hu by lia.
      congruence. }
    pose proof (month_days_range _ Hm'). lia.
Qed.

End EraArithmetic.

(** What [civil_from_days] and [month_start] do on every day number. *)
Lemma month_start_spec z :
  exists y m d,
    Calendar.civil_from_days z = (y, m, d)
    /\ 1 <= m <= 12 /\ 1 <= d <= 31
    /\ Calendar.days_from_civil y m d = z
    /\ Calendar.month_start z = z - (d - 1)
    /\ Calendar.civil_from_days (Calendar.month_start z) = (y, m, 1)
    /\ Calendar.month_start z
       = Era.era_of z * 146097 + Era.first (Era.day_of z) - 719468.
Proof.
  pose proof (day_of_range z) as Hdoe.
  destruct (year_of_spec _ Hdoe) as (Hy & Hs & Hd).
  set (era := Era.era_of z) in *. set (doe := Era.day_of z) in *.
  set (yoe := Era.year_of doe) in *.
  set (doy := doe - Era.year_start yoe) in *.
  destruct (month_of_spec doy ltac:(lia)) as (Hm & Hle & Hdm).
  set (mp := Era.month_of doy) in *.
  pose proof (month_days_range mp Hm) as Hmd.
  assert (Hz : z = era * 146097 + doe - 719468) by (unfold doe, Era.day_of; lia).
  pose proof (civil_from_days_era z) as Hciv. cbv zeta in Hciv.
  fold era doe yoe doy mp in Hciv.
  assert (Hms : Calendar.month_start z
                = era * 146097 + (Era.year_start yoe + Era.month_days mp) - 719468).
  { unfold Calendar.month_start. rewrite Hciv, days_from_civil_era by done. lia. }
  eexists _, _, _. split; [exact Hciv|].
  split; [apply month_range, Hm|]. split; [lia|].
  split. { rewrite days_from_civil_era by done. lia. }
  split; [lia|]. split; [|exact Hms].
  rewrite Hms, civil_from_days_era. cbv zeta.
  destruct (era_of_day era (Era.year_start yoe + Era.month_days mp)) as [-> ->].
  { pose proof (year_start_range yoe Hy). lia. }
  rewrite year_of_unique by lia.
  replace (Era.year_start yoe + Era.month_days mp - Era.year_start yoe)
    with (Era.month_days mp) by lia.
  rewrite month_of_first by done. repeat f_equal. lia.
Qed.

Lemma month_start_next z : Calendar.month_start z <= Calendar.month_start (z + 1).
Proof.
  destruct (month_start_spec z) as (y & m & d & _ & _ & Hd & _ & Hms & _ & He).
  destruct (month_start_spec (z + 1)) as (y' & m' & d' & _ & _ & Hd' & _ & Hms' & _ & He').
  pose proof (day_of_range z) as Hdoe.
  destruct (decide (Era.day_of z + 1 < 146097)) as [Hin|Hout].
  - assert (E : Era.era_of (z + 1) = Era.era_of z /\ Era.day_of (z + 1) = Era.day_of z + 1).
    { replace (z + 1) with (Era.era_of z * 146097 + (Era.day_of z + 1) - 719468)
        by (unfold Era.day_of; lia).
      apply era_of_day. lia. }
    destruct E as [E1 E2]. rewrite He, He', E1, E2.
    pose proof (first_step (Era.day_of z) ltac:(lia) Hin). lia.
  - assert (E : Era.era_of (z + 1) = Era.era_of z + 1 /\ Era.day_of (z + 1) = 0).
    { replace (z + 1) with ((Era.era_of z + 1) * 146097 + 0 - 719468)
        by (unfold Era.day_of in *; lia).
      apply era_of_day. lia. }
    destruct E as [E1 E2]. rewrite He', E1, E2.
    change (Era.first 0) with 0. unfold Era.day_of in *. lia.
Qed.

Lemma month_start_monotone z1 z2 :
  z1 <= z2 -> Calendar.month_start z1 <= Calendar.month_start z2.
Proof.
  intros Hle. replace z2 with (z1 + Z.of_nat (Z.to_nat (z2 - z1))) by lia.
  induction (Z.to_nat (z2 - z1)) as [|n IH]; [by rewrite Z.add_0_r|].
  etrans; [exact IH|].
  replace (z1 + Z.of_nat (S n)) with (z1 + Z.of_nat n + 1) by lia.
  apply month_start_next.
Qed.

(** * Further properties: the sidebar and the filter *)

Section SidebarAndFilter.
Context {F : Type} {FO : Float64 F} {FR : FloatRepr F}.
Context {RS : Type} {RNG : RandomState F RS}.


(** X2. Lines 50-128 with no widget touched, on a dataset with at least
    one order: the page completes and is made of every order of the dataset;
    the counts and totals are those of the whole dataset, the export holds
    every order with its label, and the insights name top sellers. *)
Theorem untouched_widgets_show_every_order df labels (os : list (Order F)) (w : World F RS) :
  frames w !! df = Some (frame_of_orders labels os) ->
  length labels = length os ->
  os <> [] ->
  exists page w',
    dashboard df untouched w = Done page w'
    /\ total_orders (metrics page) = length os
    /\ total_sales (metrics page) = fsum (map Sales os)
    /\ total_profit (metrics page) = fsum (map Profit os)
    /\ csv_data page = to_csv (month_frame labels os)
    /\ exists r c q, insights page = TopSellers r c q.
Proof.
  intros Hdf Hlen Hne. destruct os as [|o os]; [done|].
  pose proof (dashboard_untouched_wp df labels o os w Hdf Hlen) as Hwp.
  apply wp_done in Hwp as (page & w' & Hrun & Hm & Hcsv & Hi).
  exists page, w'. rewrite Hm. split; [exact Hrun|].
  split; [reflexivity|]. split; [reflexivity|]. split; [reflexivity|].
  split; [exact Hcsv|exact Hi].
Qed.

(** X3. Lines 59-63 applied again, to the filtered frame and with the same
    selection, select every row of it: the second result is a new frame
    object that holds the same rows under the same labels. *)
Theorem filter_again_keeps_rows df labels (os : list (Order F)) sel first last
    (w : World F RS) :
  frames w !! df = Some (frame_of_orders labels os) ->
  length labels = length os ->
  date_range sel = [first; last] ->
  exists l1 w1 l2 w2 d,
    apply_filters df sel w = Done l1 w1
    /\ apply_filters l1 sel w1 = Done l2 w2
    /\ l1 <> l2
    /\ frames w2 !! l1 = Some d /\ frames w2 !! l2 = Some d
    /\ d = frame_of_orders (select (selection_mask sel first last os) labels)
             (spec_filter (selected_regions sel) (selected_categories sel) first last os).
Proof.
  intros Hdf Hlen Hdr.
  set (os' := spec_filter (selected_regions sel) (selected_categories sel) first last os).
  set (labels' := select (selection_mask sel first last os) labels).
  assert (Hlen' : length labels' = length os') by by apply selected_labels_length.
  set (l1 := fresh (dom (frames w))).
  set (w1 := store w l1 (frame_of_orders labels' os')).
  assert (H1 : apply_filters df sel w = Done l1 w1) by by eapply apply_filters_done.
  assert (Hl1 : frames w1 !! l1 = Some (frame_of_orders labels' os')) by apply store_lookup_eq.
  assert (Hall : forall o, o ∈ os' ->
            selected (selected_regions sel) (selected_categories sel) first last o).
  { intros o Ho. unfold os', spec_filter in Ho. by apply list_elem_of_filter in Ho as [? _]. }
  set (l2 := fresh (dom (frames w1))).
  assert (H2 : apply_filters l1 sel w1 = Done l2 (store w1 l2 (frame_of_orders labels' os'))).
  { rewrite (apply_filters_done _ _ _ _ _ _ _ _ Hl1 Hlen' Hdr).
    unfold selection_mask. rewrite (select_all _ os' labels') by done.
    unfold spec_filter at 1. by rewrite filter_all. }
  assert (Hne : l1 <> l2).
  { intros E. pose proof (is_fresh (dom (frames w1))) as Hf. fold l2 in Hf.
    rewrite <- E in Hf. apply Hf, elem_of_dom. by eexists. }
  exists l1, w1, l2, (store w1 l2 (frame_of_orders labels' os')), (frame_of_orders labels' os').
  split; [exact H1|]. split; [exact H2|]. split; [exact Hne|].
  split; [|split; [apply store_lookup_eq|reflexivity]].
  rewrite store_lookup_ne by congruence. exact Hl1.
Qed.

(** X4. Lines 59-63 are monotone in the selection: with fewer regions,
    fewer categories and a date range inside the other, the filtered rows
    and their labels are a subsequence of the rows and labels of the wider
    selection. *)
Theorem narrower_selection_selects_fewer df labels (os : list (Order F))
    sel first last sel' first' last' (w : World F RS) :
  frames w !! df = Some (frame_of_orders labels os) ->
  length labels = length os ->
  date_range sel = [first; last] ->
  date_range sel' = [first'; last'] ->
  selected_regions sel ⊆ selected_regions sel' ->
  selected_categories sel ⊆ selected_categories sel' ->
  first' <= first -> last <= last' ->
  exists l w1 l' w1' labels1 os1 labels2 os2,
    apply_filters df sel w = Done l w1
    /\ apply_filters df sel' w = Done l' w1'
    /\ frames w1 !! l = Some (frame_of_orders labels1 os1)
    /\ frames w1' !! l' = Some (frame_of_orders labels2 os2)
    /\ sublist os1 os2 /\ sublist labels1 labels2
    /\ (length os1 <= length os2)%nat.
Proof.
  intros Hdf Hlen Hdr Hdr' Hr Hc Hf Hl.
  set (P := selected (F:=F) (selected_regions sel) (selected_categories sel) first last).
  set (P' := selected (F:=F) (selected_regions sel') (selected_categories sel') first' last').
  assert (HPP : forall o : Order F, P o -> P' o).
  { intros o (H1 & H2 & H3). split; [by apply Hr|]. split; [by apply Hc|lia]. }
  assert (Hos : forall xs : list (Order F), sublist (filter P xs) (filter P' xs)).
  { induction xs as [|x xs IH]; [done|]. rewrite !filter_cons.
    destruct (decide (P x)) as [HP|HP].
    - rewrite decide_True by auto. by apply sublist_skip.
    - destruct (decide (P' x)); [by apply sublist_cons|done]. }
  assert (Hlab : forall (xs : list (Order F)) (ls : list Z),
            sublist (select (map (fun o => bool_decide (P o)) xs) ls)
                    (select (map (fun o => bool_decide (P' o)) xs) ls)).
  { induction xs as [|x xs IH]; intros [|a ls]; simpl; try done.
    destruct (decide (P x)) as [HP|HP].
    - rewrite !bool_decide_eq_true_2 by auto. by apply sublist_skip.
    - rewrite (bool_decide_eq_false_2 (P x)) by done.
      destruct (bool_decide (P' x)); [by apply sublist_cons|done]. }
  eexists _, _, _, _, _, _, _, _.
  split; [by eapply apply_filters_done|].
  split; [by eapply apply_filters_done|].
  split; [apply lookup_insert_eq|]. split; [apply lookup_insert_eq|].
  split; [apply Hos|]. split; [apply Hlab|].
  apply sublist_length, Hos.
Qed.

End SidebarAndFilter.

(** * Further properties: charts, table and insights *)

Section ChartsTableInsights.
Context {F : Type} {FO : Float64 F} {FR : FloatRepr F}.
Context {RS : Type} {RNG : RandomState F RS}.


(** X6. Line 111: the table holds the filtered orders, each once and with
    its own label, by Date from the latest to the earliest, with the Month
    column of line 95; it has as many rows as the order count of the
    metrics.  The export of line 113 keeps the order of the dataset. *)
Theorem table_lists_latest_first df labels (os : list (Order F)) sel first last
    (w : World F RS) :
  frames w !! df = Some (frame_of_orders labels os) ->
  length labels = length os ->
  date_range sel = [first; last] ->
  let os' := spec_filter (selected_regions sel) (selected_categories sel) first last os in
  let labels' := select (selection_mask sel first last os) labels in
  exists page w' tlabels trows,
    render df sel w = Done page w'
    /\ table page = month_frame tlabels trows
    /\ zip tlabels trows ≡ₚ zip labels' os'
    /\ trows ≡ₚ os'
    /\ Sorted (fun a b => Date b <= Date a) trows
    /\ nrows (table page) = total_orders (metrics page)
    /\ csv_data page = to_csv (month_frame labels' os').
Proof.
  intros Hdf Hlen Hdr os' labels'.
  assert (Hlen' : length labels' = length os') by by apply selected_labels_length.
  pose proof (render_wp df labels os sel first last [] w Hdf Hlen Hdr) as Hwp.
  apply wp_done in Hwp as (page & w' & Hrun & Hm & _ & _ & _ & Hsort & Hcsv & _).
  fold os' labels' in Hm, Hsort, Hcsv.
  rewrite sort_values_month_frame in Hsort. injection Hsort as Htable.
  destruct (sorted_rows labels' os' Hlen') as (Hzip & Hperm & Hsorted & Hn).
  eexists page, w', _, _.
  split; [exact Hrun|]. split; [by rewrite <- Htable|].
  split; [exact Hzip|]. split; [exact Hperm|]. split; [exact Hsorted|].
  split; [|exact Hcsv].
  rewrite <- Htable, Hm. unfold nrows, month_frame. cbn [index total_orders]. exact Hn.
Qed.


End ChartsTableInsights.

(** * Further properties: the seed and the whole script *)

Section WholeScript.
Context {F : Type} {FO : Float64 F} {FR : FloatRepr F}.
Context {RS : Type} {RNG : RandomState F RS}.

(** X8. Line 18: whatever the interpreter's hash secret, the argument of
    [np.random.seed] lies in 0..9999, because Python's [%] takes the sign of
    the divisor, and the call is accepted; the hash itself can be negative,
    and a negative seed would be refused with ValueError. *)
Theorem seeding_accepts_every_hash py (w : World F RS) :
  0 <= seed_argument py < 10000
  /\ np_random_seed (seed_argument py) w
     = Done tt (with_rng w (rs_seed (seed_argument py)))
  /\ PyRuntime.hash (PyRuntime.with_hashseed 1) "Mayuri2025" < 0
  /\ forall n, n < 0 -> np_random_seed n w = Failed ValueError w.
Proof.
  pose proof (seed_argument_range py) as Hrange.
  split; [exact Hrange|]. split.
  - unfold np_random_seed.
    destruct (Z.leb_spec 0 (seed_argument py)) as [_|?]; [|lia].
    destruct (Z.ltb_spec (seed_argument py) (2 ^ 32)) as [_|?]; [reflexivity|lia].
  - split; [by vm_compute|].
    intros n Hn. unfold np_random_seed.
    destruct (Z.leb_spec 0 n) as [?|_]; [lia|reflexivity].
Qed.

(** X9. Lines 18-128 with no widget touched, for a generator that returns
    as many draws as asked and within the ranges asked: the script runs to
    its end without an exception; the page counts all 120 generated orders,
    exports them all and names top sellers, and the dataset [df] is still
    the generated one when the script ends. *)
Theorem script_completes_on_all_orders (Hrng : RandomStateSpec RNG) py (w : World F RS) :
  exists page w' df os,
    app py untouched w = Done page w'
    /\ frames w' !! df = Some (frame_of_orders (RangeIndex 120) os)
    /\ length os = 120%nat
    /\ total_orders (metrics page) = 120%nat
    /\ total_sales (metrics page) = fsum (map Sales os)
    /\ csv_data page = to_csv (month_frame (RangeIndex 120) os)
    /\ exists r c q, insights page = TopSellers r c q.
Proof.
  pose proof (generate_data_wp Hrng py w) as Hwp.
  apply wp_done in Hwp as (df & w1 & Hgen & region & category & quantity & price & jitter
                           & _ & Hdf).
  set (os := generated_orders region category quantity price jitter) in *.
  assert (Hlen : length os = 120%nat) by apply generated_orders_length.
  destruct os as [|o os'] eqn:Eos; [done|].
  assert (Hidx : length (RangeIndex num_orders) = length (o :: os')).
  { rewrite Hlen. apply RangeIndex_length. }
  pose proof (dashboard_untouched_wp df _ o os' w1 Hdf Hidx) as Hwp.
  apply wp_done in Hwp as (page & w' & Hrun & Hm & Hcsv & Hi).
  exists page, w', df, (o :: os').
  split. { unfold app. by rewrite (bind_done _ _ _ _ _ Hgen). }
  split.
  { pose proof (keeps_final_world df _ (dashboard df untouched) _ w1
                  (keeps_dashboard df _ untouched) Hdf) as Hk.
    by rewrite Hrun in Hk. }
  split; [exact Hlen|]. rewrite Hm. cbn [total_orders total_sales].
  split; [exact Hlen|]. split; [reflexivity|]. split; [exact Hcsv|exact Hi].
Qed.

End WholeScript.

(** * Further properties: the Month column and the export's fields *)

Section MonthColumn.
Context {F : Type} {FO : Float64 F}.

(** X10. Line 95, [dt.to_period("M").dt.to_timestamp()], on every column of
    dates: the Month of a date is the first day of the same year and month,
    between 0 and 30 days before it; two dates have the same Month exactly
    when they agree on year and month, and a later date never has an earlier
    Month. *)
Theorem month_column_holds_first_of_month (xs : list Z) :
  exists ms,
    to_month (F:=F) (DateCol xs) = Ok (DateCol ms)
    /\ length ms = length xs
    /\ (forall i x, xs !! i = Some x ->
          exists y m d b,
            Calendar.civil_from_days x = (y, m, d)
            /\ ms !! i = Some b
            /\ Calendar.civil_from_days b = (y, m, 1)
            /\ b = x - (d - 1) /\ 1 <= m <= 12 /\ 1 <= d <= 31)
    /\ (forall i j x x' b b',
          xs !! i = Some x -> xs !! j = Some x' -> ms !! i = Some b -> ms !! j = Some b' ->
          (x <= x' -> b <= b')
          /\ (b = b' <->
              fst (Calendar.civil_from_days x) = fst (Calendar.civil_from_days x'))).
Proof.
  exists (map Calendar.month_start xs). split; [reflexivity|].
  split; [apply length_map|]. split.
  - intros i x Hx.
    destruct (month_start_spec x) as (y & m & d & Hc & Hm & Hd & _ & Hms & Hfirst & _).
    exists y, m, d, (Calendar.month_start x).
    split; [exact Hc|]. split; [by rewrite lookup_map, Hx|].
    split; [exact Hfirst|]. split; [exact Hms|]. split; [exact Hm|exact Hd].
  - intros i j x x' b b' Hx Hx' Hb Hb'.
    rewrite lookup_map, Hx in Hb. rewrite lookup_map, Hx' in Hb'.
    change (Some (Calendar.month_start x) = Some b) in Hb.
    change (Some (Calendar.month_start x') = Some b') in Hb'.
    assert (Eb : b = Calendar.month_start x) by congruence.
    assert (Eb' : b' = Calendar.month_start x') by congruence.
    clear Hb Hb'. subst b b'.
    split; [apply month_start_monotone|].
    destruct (month_start_spec x) as (y & m & d & Hc & _ & _ & _ & _ & Hfirst & _).
    destruct (month_start_spec x') as (y' & m' & d' & Hc' & _ & _ & _ & _ & Hfirst' & _).
    rewrite Hc, Hc'. cbn [fst]. split.
    + intros E. rewrite E in Hfirst. congruence.
    + intros [= -> ->]. unfold Calendar.month_start. by rewrite Hc, Hc'.
Qed.

End MonthColumn.

Section CsvFields.

Lemma double_quotes_inj s t : double_quotes s = double_quotes t -> s = t.
Proof.
  revert t. induction s as [|c s IH]; intros [|c' t]; simpl.
  - done.
  - case_bool_decide; discriminate.
  - case_bool_decide; discriminate.
  - do 2 case_bool_decide; intros [= ]; subst; try congruence.
    + f_equal. by apply IH.
    + f_equal. by apply IH.
Qed.

Lemma string_length_app s u :
  String.length (s +:+ u) = (String.length s + String.length u)%nat.
Proof. induction s as [|c s IH]; simpl; [done|]. by rewrite IH. Qed.

Lemma string_app_inv_tail s t u : s +:+ u = t +:+ u -> s = t.
Proof.
  revert t. induction s as [|c s IH]; intros [|c' t]; simpl; intros E.
  - done.
  - apply (f_equal String.length) in E. rewrite !string_length_app in E. simpl in E. lia.
  - apply (f_equal String.length) in E. rewrite !string_length_app in E. simpl in E. lia.
  - injection E as -> E. f_equal. by apply IH.
Qed.


End CsvFields.

(** * Further properties: reruns *)

Section Reruns.
Context {F : Type} {FO : Float64 F} {FR : FloatRepr F}.
Context {RS : Type} {RNG : RandomState F RS}.

Lemma bind_same_start {A B} (m : M F RS A) (k : A -> M F RS B) (w1 w2 : World F RS) :
  m w1 = m w2 -> (m ≫= k) w1 = (m ≫= k) w2.
Proof. intros E. unfold mbind, M_bind. rewrite E. reflexivity. Qed.

(** X12. Line 18 seeds the generator before the first draw, so a run does
    not depend on the state an earlier run of the same process left in the
    global generator: from two worlds that differ in that state only, the
    script does the same, page and final world alike. *)
Theorem rerun_forgets_generator_state py ui (w : World F RS) (s : RS) :
  app py ui (with_rng w s) = app py ui w
  /\ generate_data py (with_rng w s) = generate_data py w.
Proof.
  assert (Hseed : np_random_seed (seed_argument py) (with_rng w s)
                  = np_random_seed (seed_argument py) w).
  { pose proof (seed_argument_range py) as Hrange. unfold np_random_seed.
    destruct (Z.leb_spec 0 (seed_argument py)) as [_|?]; [|lia].
    destruct (Z.ltb_spec (seed_argument py) (2 ^ 32)) as [_|?]; [reflexivity|lia]. }
  assert (Hraw : generate_raw py (with_rng w s) = generate_raw py w).
  { unfold generate_raw. apply bind_same_start. exact Hseed. }
  assert (Hgen : generate_data py (with_rng w s) = generate_data py w).
  { unfold generate_data. apply bind_same_start. exact Hraw. }
  split; [|exact Hgen].
  unfold app. apply bind_same_start. exact Hgen.
Qed.

End Reruns.

(** * Further properties: the generated rows as a table *)

Section GeneratedTable.
Context {F : Type} {FO : Float64 F} {FR : FloatRepr F}.
Context {RS : Type} {RNG : RandomState F RS}.

(** X13. Lines 21-37, for a generator that returns as many draws as asked
    and draws them from the list given: every generated order has one of the
    four regions and one of the four categories; OrderID and Date grow
    strictly with the row, so no OrderID occurs twice; the first order is
    dated 2024-01-01 and the last 2026-04-13. *)
Theorem generated_orders_form_a_keyed_table (Hrng : RandomStateSpec RNG) py (w : World F RS) :
  exists df w' os,
    generate_data py w = Done df w'
    /\ frames w' !! df = Some (frame_of_orders (RangeIndex 120) os)
    /\ (forall o, o ∈ os -> Region o ∈ regions /\ Category o ∈ categories)
    /\ (forall i j oi oj, os !! i = Some oi -> os !! j = Some oj -> (i < j)%nat ->
          OrderID oi < OrderID oj /\ Date oi < Date oj)
    /\ NoDup (map OrderID os)
    /\ (exists o, os !! 0%nat = Some o /\ Date o = Calendar.days_from_civil 2024 1 1)
    /\ (exists o, os !! 119%nat = Some o /\ Date o = Calendar.days_from_civil 2026 4 13).
Proof.
  pose proof (generate_data_wp Hrng py w) as Hwp.
  apply wp_done in Hwp as (df & w' & Hrun & region & category & quantity & price & jitter
                           & Hdraws & Hdf).
  destruct (draws_spec Hrng _ _ _ _ _ _ Hdraws)
    as ((Lr & Lc & Lq & Lp & Lj) & Hr & Hc & _).
  set (os := generated_orders region category quantity price jitter) in *.
  assert (Hrow : forall i o, os !! i = Some o ->
            OrderID o = 3001 + Z.of_nat i /\ Date o = start_date + 7 * Z.of_nat i
            /\ Region o ∈ regions /\ Category o ∈ categories).
  { intros i o Ho.
    destruct (generated_orders_row _ _ _ _ _ _ _ Lr Lc Lq Lp Lj Ho)
      as (r & c & q & p & j & Er & Ec & _ & _ & _ & Hid & Hdate & HR & HC & _).
    split; [exact Hid|]. split; [exact Hdate|]. rewrite HR, HC.
    split; [apply Hr|apply Hc]; by eapply list_elem_of_lookup_2. }
  assert (Hlen : length os = 120%nat) by apply generated_orders_length.
  exists df, w', os. split; [exact Hrun|]. split; [exact Hdf|].
  split.
  { intros o [i Ho]%list_elem_of_lookup_1.
    destruct (Hrow i o Ho) as (_ & _ & H1 & H2). split; [exact H1|exact H2]. }
  split.
  { intros i j oi oj Hi Hj Hij.
    destruct (Hrow i oi Hi) as (-> & -> & _). destruct (Hrow j oj Hj) as (-> & -> & _). lia. }
  split.
  { apply NoDup_alt. intros i j x Hi Hj. rewrite lookup_map in Hi, Hj.
    destruct (os !! i) as [oi|] eqn:Ei; [|done]. destruct (os !! j) as [oj|] eqn:Ej; [|done].
    destruct (Hrow i oi Ei) as (Hi' & _). destruct (Hrow j oj Ej) as (Hj' & _).
    change (Some (OrderID oi) = Some x) in Hi. change (Some (OrderID oj) = Some x) in Hj.
    assert (OrderID oi = OrderID oj) by congruence. lia. }
  split.
  - destruct (lookup_lt_is_Some_2 os 0) as [o Ho]; [lia|].
    exists o. split; [exact Ho|]. destruct (Hrow _ _ Ho) as (_ & -> & _). reflexivity.
  - destruct (lookup_lt_is_Some_2 os 119) as [o Ho]; [lia|].
    exists o. split; [exact Ho|]. destruct (Hrow _ _ Ho) as (_ & -> & _). reflexivity.
Qed.

End GeneratedTable.

(** * The further properties at concrete inputs *)


Lemma untouched_widgets_show_every_order_witness :
  exists page w',
    dashboard 1%positive untouched demo_world = Done page w'
    /\ total_orders (metrics page) = 3%nat.
Proof.
  destruct (untouched_widgets_show_every_order 1%positive [0; 1; 2] three_orders demo_world
              eq_refl eq_refl ltac:(discriminate))
    as (page & w' & H1 & H2 & _).
  exists page, w'. split; [exact H1|exact H2].
Defined.

Lemma filter_again_keeps_rows_witness :
  exists l1 w1 l2 w2,
    apply_filters 1%positive north_selection demo_world = Done l1 w1
    /\ apply_filters l1 north_selection w1 = Done l2 w2
    /\ l1 <> l2
    /\ frames w2 !! l1 = frames w2 !! l2.
Proof.
  destruct (filter_again_keeps_rows 1%positive [0; 1; 2] three_orders north_selection
              start_date (start_date + 14) demo_world eq_refl eq_refl eq_refl)
    as (l1 & w1 & l2 & w2 & d & H1 & H2 & H3 & H4 & H5 & _).
  exists l1, w1, l2, w2. split; [exact H1|]. split; [exact H2|]. split; [exact H3|].
  exact (eq_trans H4 (eq_sym H5)).
Defined.

Lemma narrower_selection_selects_fewer_witness :
  exists l w1 l' w1' labels1 os1 labels2 os2,
    apply_filters 1%positive north_selection demo_world = Done l w1
    /\ apply_filters 1%positive all_selection demo_world = Done l' w1'
    /\ frames w1 !! l = Some (frame_of_orders labels1 os1)
    /\ frames w1' !! l' = Some (frame_of_orders labels2 os2)
    /\ sublist os1 os2.
Proof.
  assert (Hr : selected_regions north_selection ⊆ selected_regions all_selection).
  { intros r Hr. apply list_elem_of_singleton in Hr as ->. left. }
  destruct (narrower_selection_selects_fewer 1%positive [0; 1; 2] three_orders
              north_selection start_date (start_date + 14)
              all_selection start_date (start_date + 14) demo_world
              eq_refl eq_refl eq_refl eq_refl Hr (fun c H => H)
              ltac:(reflexivity) ltac:(reflexivity))
    as (l & w1 & l' & w1' & labels1 & os1 & labels2 & os2 & H1 & H2 & H3 & H4 & H5 & _).
  exists l, w1, l', w1', labels1, os1, labels2, os2.
  split; [exact H1|]. split; [exact H2|]. split; [exact H3|]. split; [exact H4|exact H5].
Defined.


Lemma table_lists_latest_first_witness :
  exists page w' tlabels trows,
    render 1%positive north_selection demo_world = Done page w'
    /\ table page = month_frame tlabels trows
    /\ Sorted (fun a b => Date b <= Date a) trows.
Proof.
  destruct (table_lists_latest_first 1%positive [0; 1; 2] three_orders north_selection
              start_date (start_date + 14) demo_world eq_refl eq_refl eq_refl)
    as (page & w' & tlabels & trows & H1 & H2 & _ & _ & H3 & _).
  exists page, w', tlabels, trows. split; [exact H1|]. split; [exact H2|exact H3].
Defined.


Lemma script_completes_on_all_orders_witness :
  exists page w',
    app (PyRuntime.with_hashseed 1) untouched start_world = Done page w'
    /\ total_orders (metrics page) = 120%nat.
Proof.
  destruct (script_completes_on_all_orders cycle_spec (PyRuntime.with_hashseed 1) start_world)
    as (page & w' & df & os & H1 & _ & _ & H2 & _).
  exists page, w'. split; [exact H1|exact H2].
Defined.

Lemma generated_orders_form_a_keyed_table_witness :
  exists df w' os,
    generate_data (PyRuntime.with_hashseed 1) start_world = Done df w'
    /\ frames w' !! df = Some (frame_of_orders (RangeIndex 120) os)
    /\ NoDup (map OrderID os).
Proof.
  destruct (generated_orders_form_a_keyed_table cycle_spec (PyRuntime.with_hashseed 1)
              start_world) as (df & w' & os & H1 & H2 & _ & _ & H3 & _).
  exists df, w', os. split; [exact H1|]. split; [exact H2|exact H3].
Defined.
